(** * pine-perf-api: the PageSpeed proxy handler

    A shallow embedding of the two request handlers of the repository,
    [src/api/run.js] and [src/run.js], and the properties of their
    responses.

    The handlers are JavaScript: the payload they transform is whatever
    [JSON.parse] returned, so the embedding keeps JavaScript's dynamic
    values, its coercions ([ToBoolean], [ToNumber], [ToString]) and its
    exceptions, and IEEE-754 binary64 numbers. *)

From Stdlib Require Import ZArith String Ascii List Lia.
From Stdlib Require Import Floats.SpecFloat.
From stdpp Require Import base option list gmap strings pretty.

Open Scope string_scope.
Open Scope Z_scope.

(** ** Numbers

    A JavaScript Number is an IEEE-754 binary64 value.  [spec_float] is the
    Standard Library's specification of such values (sign, mantissa,
    exponent), and its operations at precision 53 and maximal exponent 1024
    are the correctly rounded binary64 operations. *)

Module Number.

Definition number : Type := spec_float.

Definition prec : Z := 53.
Definition emax : Z := 1024.

Definition NaN : number := S754_nan.

(** The Number nearest to an integer (the integer itself up to 2^53). *)
Definition of_Z (z : Z) : number := binary_normalize prec emax z 0 false.

Definition mul (x y : number) : number := SFmul prec emax x y.
Definition div (x y : number) : number := SFdiv prec emax x y.

(** A decimal literal [n/d] of the source, such as [0.9]: the Number
    nearest to the rational, which correctly rounded division gives. *)
Definition lit (n d : Z) : number := div (of_Z n) (of_Z d).

(** [x < y], [x <= y]: false as soon as one side is [NaN]. *)
Definition ltb (x y : number) : bool := SFltb x y.
Definition leb (x y : number) : bool := SFleb x y.

(** [x > y] and [x >= y] of the source. *)
Definition gtb (x y : number) : bool := ltb y x.
Definition geb (x y : number) : bool := leb y x.

(** The integer a Number denotes, when it denotes one. *)
Definition to_Z (x : number) : option Z :=
  match x with
  | S754_zero _ => Some 0
  | S754_finite s m e =>
      if 0 <=? e then Some (cond_Zopp s (Zpos m * 2 ^ e))
      else if Zpos m mod 2 ^ (- e) =? 0
           then Some (cond_Zopp s (Zpos m / 2 ^ (- e)))
           else None
  | _ => None
  end.

(** [Math.round]: NaN, the infinities and integral values are returned
    as they are; a value in [-0.5, 0) gives [-0], one in (0, 0.5) gives
    [+0]; otherwise the nearest integer, the larger one on a tie, which
    is [floor (x + 1/2)] computed exactly on mantissa and exponent. *)
Definition Math_round (x : number) : number :=
  match x with
  | S754_finite s m e =>
      if 0 <=? e then x
      else
        let k := 2 ^ (- e) in
        let n := (2 * cond_Zopp s (Zpos m) + k) / (2 * k) in
        if n =? 0 then S754_zero s else of_Z n
  | _ => x
  end.

(** ToBoolean on a Number: [NaN], [+0] and [-0] are falsy. *)
Definition truthy (x : number) : bool :=
  match x with
  | S754_nan | S754_zero _ => false
  | _ => true
  end.

End Number.
Import Number.

(** ** Values, exceptions and coercions *)

#[local] Set Warnings "-register-all,-clear-no-such-hyp".

(** What [JSON.parse] and the request give the handler, plus [undefined].
    An object lists its own properties in source order; a key written
    twice keeps its last value, as [JSON.parse] does.  Strings are
    sequences of one-unit characters. *)
Inductive value : Type :=
| Undefined
| Null
| Bool (b : bool)
| Num (x : number)
| Str (s : string)
| Arr (elems : list value)
| Obj (props : list (string * value)).

(** The exceptions the handler can meet.  The message of an exception the
    engine raises is the engine's own, so those are kept by kind. *)
Inductive exn : Type :=
| TypeError_nullish      (* a property read on null or undefined *)
| TypeError_primitive    (* an object that converts to no primitive *)
| TypeError_iterable     (* for-of over a value that is not iterable *)
| TypeError_url          (* new URL on what is not an absolute URL *)
| Rejected (message : string).  (* a rejected fetch, r.text() or r.json() *)

Inductive result (A : Type) : Type :=
| Ok (a : A)
| Throw (e : exn).
Arguments Ok {A} a.
Arguments Throw {A} e.

Definition bind {A B : Type} (m : result A) (f : A -> result B) : result B :=
  match m with
  | Ok a => f a
  | Throw e => Throw e
  end.

Notation "x <- m ;; k" := (bind m (fun x => k))
  (at level 100, m at next level, right associativity).

Definition nullish (v : value) : bool :=
  match v with
  | Undefined | Null => true
  | _ => false
  end.

Definition ToBoolean (v : value) : bool :=
  match v with
  | Undefined | Null => false
  | Bool b => b
  | Num x => truthy x
  | Str s => negb (String.eqb s "")
  | Arr _ | Obj _ => true
  end.

Fixpoint own_property (k : string) (props : list (string * value)) : option value :=
  match props with
  | [] => None
  | (k', v) :: rest =>
      match own_property k rest with
      | Some w => Some w
      | None => if String.eqb k k' then Some v else None
      end
  end.

(** [v.k] and [v[k]], for the property names the handlers read: none of
    them is an array index or a name the built-in prototypes define,
    except [length] on strings and arrays. *)
Definition Get (v : value) (k : string) : result value :=
  match v with
  | Undefined | Null => Throw TypeError_nullish
  | Bool _ | Num _ => Ok Undefined
  | Str s =>
      Ok (if String.eqb k "length" then Num (of_Z (Z.of_nat (String.length s)))
          else Undefined)
  | Arr elems =>
      Ok (if String.eqb k "length" then Num (of_Z (Z.of_nat (length elems)))
          else Undefined)
  | Obj props => Ok (default Undefined (own_property k props))
  end.

(** [v?.k] *)
Definition GetOpt (v : value) (k : string) : value :=
  match Get v k with
  | Ok w => w
  | Throw _ => Undefined
  end.

(** [a ?? b] and [a || b] *)
Definition coalesce (a b : value) : value := if nullish a then b else a.
Definition or_else (a b : value) : value := if ToBoolean a then a else b.

Notation "v ?. k" := (GetOpt v k) (at level 25, left associativity).
Notation "a ?? b" := (coalesce a b) (at level 45, left associativity).

(** ** A small platform for the examples

    Stand-ins for the platform's conversions, on the inputs the examples
    below use: decimal integers, and URLs of the shape
    [http://host/...] or [https://host/...] whose host is made of
    lower-case letters and dots. *)

Definition demo_NumberToString (x : number) : string :=
  match to_Z x with
  | Some z => pretty z
  | None => "NaN"
  end.

Fixpoint digits_value (s : string) (acc : Z) : option Z :=
  match s with
  | "" => Some acc
  | String c rest =>
      let n := Z.of_nat (nat_of_ascii c) in
      if (48 <=? n) && (n <=? 57) then digits_value rest (10 * acc + (n - 48))
      else None
  end.

Definition demo_StringToNumber (s : string) : number :=
  match digits_value s 0 with
  | Some z => of_Z z
  | None => NaN
  end.

Fixpoint host_part (s : string) : option string :=
  match s with
  | "" => Some ""
  | String c rest =>
      let n := Z.of_nat (nat_of_ascii c) in
      if (n =? 47) || (n =? 63) || (n =? 35) then Some ""   (* / ? # *)
      else if ((97 <=? n) && (n <=? 122)) || (n =? 46)
           then option_map (String c) (host_part rest)
           else None
  end.

Definition after_prefix (p s : string) : option string :=
  if String.prefix p s
  then Some (String.substring (String.length p) (String.length s - String.length p)%nat s)
  else None.

Definition demo_URL_host (s : string) : option string :=
  match (match after_prefix "https://" s with
         | Some rest => Some rest
         | None => after_prefix "http://" s
         end) with
  | Some rest =>
      match host_part rest with
      | Some "" => None
      | h => h
      end
  | None => None
  end.

(** What the platform provides and the repository does not define: the
    Number-to-string and string-to-Number conversions of the language, and
    the host of the URL a string parses to ([None] where [new URL]
    throws). *)
Class Platform : Type := {
  NumberToString : number -> string;
  StringToNumber : string -> number;
  URL_host : string -> option string
}.

Section Handlers.

Context `{platform : Platform}.

(** [ToString].  A parsed object has no callable property of its own,
    so an own [toString] key hides [Object.prototype.toString] and no
    primitive is reached; an array joins its elements, [null] and
    [undefined] as the empty string. *)
Fixpoint ToString (v : value) : result string :=
  match v with
  | Undefined => Ok "undefined"
  | Null => Ok "null"
  | Bool true => Ok "true"
  | Bool false => Ok "false"
  | Num x => Ok (NumberToString x)
  | Str s => Ok s
  | Arr elems =>
      (fix join (l : list value) : result string :=
         match l with
         | [] => Ok ""
         | x :: rest =>
             s <- (if nullish x then Ok "" else ToString x) ;;
             match rest with
             | [] => Ok s
             | _ => r <- join rest ;; Ok (s ++ "," ++ r)
             end
         end) elems
  | Obj props =>
      match own_property "toString" props with
      | Some _ => Throw TypeError_primitive
      | None => Ok "[object Object]"
      end
  end.

(** [ToNumber]; arrays and objects go through their primitive, which is
    the string above. *)
Definition ToNumber (v : value) : result number :=
  match v with
  | Undefined => Ok NaN
  | Null => Ok (of_Z 0)
  | Bool true => Ok (of_Z 1)
  | Bool false => Ok (of_Z 0)
  | Num x => Ok x
  | Str s => Ok (StringToNumber s)
  | Arr _ | Obj _ => s <- ToString v ;; Ok (StringToNumber s)
  end.

(** [v > c], [v >= c], [v < c] against a Number [c]. *)
Definition js_gt (v : value) (c : number) : result bool :=
  x <- ToNumber v ;; Ok (gtb x c).
Definition js_ge (v : value) (c : number) : result bool :=
  x <- ToNumber v ;; Ok (geb x c).
Definition js_lt (v : value) (c : number) : result bool :=
  x <- ToNumber v ;; Ok (ltb x c).

(** [v / c] *)
Definition js_div (v : value) (c : number) : result value :=
  x <- ToNumber v ;; Ok (Num (div x c)).

(** [new URL(v).host] *)
Definition new_URL_host (v : value) : result string :=
  s <- ToString v ;;
  match URL_host s with
  | Some h => Ok h
  | None => Throw TypeError_url
  end.

(** The values a [for ... of] visits: the elements of an array, the
    characters of a string; anything else a parsed payload holds is not
    iterable. *)
Definition iterate (v : value) : result (list value) :=
  match v with
  | Arr elems => Ok elems
  | Str s => Ok (map (fun c => Str (String c "")) (list_ascii_of_string s))
  | _ => Throw TypeError_iterable
  end.

(** *** The metrics both files extract
    ([src/api/run.js] lines 37-57, [src/run.js] lines 42-62) *)

Record Core : Type := {
  audits : value;
  core_score : value;
  core_lcp : value;
  core_cls : value;
  core_inp : value;
  reqs : value;
  core_pageSizeMB : value;
  core_loadTimeS : value
}.

(** [audits[name]?.numericValue] *)
Definition numericValue (audits : value) (name : string) : result value :=
  a <- Get audits name ;; Ok (a ?. "numericValue").

(** [audits[name].numericValue / 1000] *)
Definition seconds (audits : value) (name : string) : result value :=
  a <- Get audits name ;; nv <- Get a "numericValue" ;; js_div nv (of_Z 1000).

Definition core_metrics (data : value) : result Core :=
  lr0 <- Get data "lighthouseResult" ;;
  let lr := or_else lr0 (Obj []) in
  audits0 <- Get lr "audits" ;;
  let audits := or_else audits0 (Obj []) in
  cats0 <- Get lr "categories" ;;
  let cats := or_else cats0 (Obj []) in
  performance <- Get cats "performance" ;;
  s <- ToNumber (performance ?. "score" ?? Num (of_Z 0)) ;;
  let score := Num (Math_round (mul s (of_Z 100))) in
  lcp0 <- numericValue audits "largest-contentful-paint" ;;
  lcp <- (if ToBoolean lcp0 then seconds audits "largest-contentful-paint"
         else Ok Null) ;;
  cls0 <- numericValue audits "cumulative-layout-shift" ;;
  let cls := cls0 ?? Null in
  inp0 <- numericValue audits "experimental-interaction-to-next-paint" ;;
  inp <- (if nullish inp0
         then fid <- numericValue audits "max-potential-fid" ;; Ok (fid ?? Null)
         else Ok inp0) ;;
  nr <- Get audits "network-requests" ;;
  let reqs := nr ?. "details" ?. "items" ?. "length" ?? Null in
  bytes0 <- numericValue audits "total-byte-weight" ;;
  let bytes := bytes0 ?? Null in
  pageSizeMB <- (if ToBoolean bytes
                then js_div bytes (mul (of_Z 1024) (of_Z 1024))
                else Ok Null) ;;
  si <- numericValue audits "speed-index" ;;
  loadTimeS <- (if ToBoolean si then seconds audits "speed-index"
               else
                 tti <- numericValue audits "interactive" ;;
                 if ToBoolean tti then seconds audits "interactive"
                 else Ok Null) ;;
  Ok {| audits := audits; core_score := score; core_lcp := lcp;
        core_cls := cls; core_inp := inp; reqs := reqs;
        core_pageSizeMB := pageSizeMB; core_loadTimeS := loadTimeS |}.

(** *** Issues *)

Record Issue : Type := {
  key : string;
  label : string;
  grade : string;
  tip : option string   (* [None]: the argument was not passed *)
}.

(** [issues.push({ key, label, grade, tip })] *)
Definition addIssue (key label grade : string) (tip : option string)
    (issues : list Issue) : list Issue :=
  issues ++ [ {| key := key; label := label; grade := grade; tip := tip |} ].

(** [reqs != null && reqs > c] *)
Definition reqs_over (reqs : value) (c : Z) : result bool :=
  if negb (nullish reqs) then js_gt reqs (of_Z c) else Ok false.

(** The external hosts both files count
    ([src/api/run.js] lines 83-92, [src/run.js] lines 85-94).  The
    counter only ever holds a small integer, so it is an integer here. *)
Definition count_host (originHost : string) (st : gset string * Z)
    (it : value) : gset string * Z :=
  let '(seen, externalHosts) := st in
  match (u <- Get it "url" ;; new_URL_host u) with
  | Ok h =>
      if decide (h ∈ seen) then st
      else ({[ h ]} ∪ seen,
            if negb (String.eqb h originHost) then externalHosts + 1
            else externalHosts)
  | Throw _ => st
  end.

Definition count_external_hosts (audits url : value) : result Z :=
  nr <- Get audits "network-requests" ;;
  let items := nr ?. "details" ?. "items" ?? Arr [] in
  originHost <- new_URL_host url ;;
  its <- iterate items ;;
  Ok (snd (fold_left (count_host originHost) its (∅, 0))).

Record AuditSummary : Type := {
  score : value;
  lcp : value;
  cls : value;
  inp : value;
  requests : value;
  pageSizeMB : value;
  loadTimeS : value;
  issues : list Issue
}.

Definition summary (c : Core) (issues : list Issue) : AuditSummary :=
  {| score := core_score c; lcp := core_lcp c; cls := core_cls c;
     inp := core_inp c; requests := reqs c;
     pageSizeMB := core_pageSizeMB c; loadTimeS := core_loadTimeS c;
     issues := issues |}.

(** [audits[name]?.score] *)
Definition audit_score (audits : value) (name : string) : result value :=
  a <- Get audits name ;; Ok (a ?. "score").

(** *** [src/api/run.js], lines 60-99: one issue per rule, no tip *)
Definition api_http_requests (reqs : value) (issues : list Issue)
    : result (list Issue) :=
  c <- reqs_over reqs 90 ;;
  if c then Ok (addIssue "http_requests" "Make fewer HTTP requests" "F" None issues) else
  c <- reqs_over reqs 60 ;;
  if c then Ok (addIssue "http_requests" "Make fewer HTTP requests" "D" None issues) else
  c <- reqs_over reqs 40 ;;
  if c then Ok (addIssue "http_requests" "Make fewer HTTP requests" "C" None issues)
  else Ok (addIssue "http_requests" "Make fewer HTTP requests" "B" None issues).

Definition api_expires_headers (cacheScore : value) (issues : list Issue)
    : result (list Issue) :=
  if nullish cacheScore then Ok (addIssue "expires_headers" "Add Expires headers" "C" None issues) else
  c <- js_ge cacheScore (lit 9 10) ;;
  if c then Ok (addIssue "expires_headers" "Add Expires headers" "A" None issues) else
  c <- js_ge cacheScore (lit 7 10) ;;
  if c then Ok (addIssue "expires_headers" "Add Expires headers" "B" None issues) else
  c <- js_ge cacheScore (lit 4 10) ;;
  if c then Ok (addIssue "expires_headers" "Add Expires headers" "C" None issues)
  else Ok (addIssue "expires_headers" "Add Expires headers" "D" None issues).

Definition api_gzip (compression : value) (issues : list Issue)
    : result (list Issue) :=
  if nullish compression then Ok (addIssue "gzip" "Compress components with gzip/brotli" "C" None issues) else
  c <- js_ge compression (lit 9 10) ;;
  if c then Ok (addIssue "gzip" "Compress components with gzip/brotli" "A" None issues) else
  c <- js_ge compression (lit 7 10) ;;
  if c then Ok (addIssue "gzip" "Compress components with gzip/brotli" "B" None issues) else
  c <- js_ge compression (lit 4 10) ;;
  if c then Ok (addIssue "gzip" "Compress components with gzip/brotli" "C" None issues)
  else Ok (addIssue "gzip" "Compress components with gzip/brotli" "D" None issues).

Definition api_dns (externalHosts : Z) (issues : list Issue) : list Issue :=
  if externalHosts >? 6 then addIssue "dns" "Reduce DNS lookups" "D" None issues
  else if externalHosts >? 4 then addIssue "dns" "Reduce DNS lookups" "C" None issues
  else if externalHosts >? 2 then addIssue "dns" "Reduce DNS lookups" "B" None issues
  else addIssue "dns" "Reduce DNS lookups" "A" None issues.

Definition api_grade_issues (c : Core) (url : value) : result (list Issue) :=
  let issues := [] in
  issues <- api_http_requests (reqs c) issues ;;
  cacheScore <- audit_score (audits c) "uses-long-cache-ttl" ;;
  issues <- api_expires_headers cacheScore issues ;;
  compression <- audit_score (audits c) "uses-text-compression" ;;
  issues <- api_gzip compression issues ;;
  externalHosts <- count_external_hosts (audits c) url ;;
  let issues := api_dns externalHosts issues in
  let issues := addIssue "cookies" "Use cookie-free domains for static assets" "B" None issues in
  let issues := addIssue "empty_src" "Avoid empty src or href" "A" None issues in
  Ok issues.

Definition api_transform (data url : value) : result AuditSummary :=
  c <- core_metrics data ;;
  issues <- api_grade_issues c url ;;
  Ok (summary c issues).

(** *** [src/run.js], lines 64-100: an issue only below the passing
    range, each with its tip *)

(** [score < hi && score >= lo] *)
Definition below_and_at_least (score : value) (hi lo : number) : result bool :=
  c <- js_lt score hi ;;
  if c then js_ge score lo else Ok false.

Definition run_http_requests (reqs : value) (issues : list Issue)
    : result (list Issue) :=
  c <- reqs_over reqs 90 ;;
  if c then Ok (addIssue "http_requests" "Make fewer HTTP requests" "F"
                  (Some "Concatenate or defer non-critical scripts; lazy-load below-the-fold assets.") issues) else
  c <- reqs_over reqs 60 ;;
  if c then Ok (addIssue "http_requests" "Make fewer HTTP requests" "D"
                  (Some "Combine CSS/JS where possible and remove unused libraries.") issues) else
  c <- reqs_over reqs 40 ;;
  if c then Ok (addIssue "http_requests" "Make fewer HTTP requests" "C"
                  (Some "Audit plugins and third-party tags.") issues)
  else Ok issues.

Definition run_expires_headers (cacheScore : value) (issues : list Issue)
    : result (list Issue) :=
  if nullish cacheScore
  then Ok (addIssue "expires_headers" "Add Expires headers" "C"
             (Some "Serve static assets with far-future cache and versioned filenames.") issues) else
  c <- below_and_at_least cacheScore (lit 9 10) (lit 7 10) ;;
  if c then Ok (addIssue "expires_headers" "Add Expires headers" "B"
                  (Some "Increase cache TTL on images, fonts and compiled assets.") issues) else
  c <- below_and_at_least cacheScore (lit 7 10) (lit 4 10) ;;
  if c then Ok (addIssue "expires_headers" "Add Expires headers" "C"
                  (Some "Set Cache-Control/ETag on static assets.") issues) else
  c <- js_lt cacheScore (lit 4 10) ;;
  if c then Ok (addIssue "expires_headers" "Add Expires headers" "D"
                  (Some "Enable long-term caching via CDN or server rules.") issues)
  else Ok issues.

Definition run_gzip (compression : value) (issues : list Issue)
    : result (list Issue) :=
  if nullish compression
  then Ok (addIssue "gzip" "Compress components with gzip/brotli" "C"
             (Some "Turn on gzip/brotli at hosting/CDN level.") issues) else
  c <- below_and_at_least compression (lit 9 10) (lit 7 10) ;;
  if c then Ok (addIssue "gzip" "Compress components with gzip/brotli" "B"
                  (Some "Ensure brotli is enabled for text assets.") issues) else
  c <- below_and_at_least compression (lit 7 10) (lit 4 10) ;;
  if c then Ok (addIssue "gzip" "Compress components with gzip/brotli" "C"
                  (Some "Compress HTML/CSS/JS; avoid uncompressed bundles.") issues) else
  c <- js_lt compression (lit 4 10) ;;
  if c then Ok (addIssue "gzip" "Compress components with gzip/brotli" "D"
                  (Some "Enable compression at origin/CDN and re-deploy.") issues)
  else Ok issues.

Definition run_dns (externalHosts : Z) (issues : list Issue) : list Issue :=
  if externalHosts >? 6
  then addIssue "dns" "Reduce DNS lookups" "D"
         (Some "Consolidate third-party tags and use fewer external hosts.") issues
  else if externalHosts >? 4
  then addIssue "dns" "Reduce DNS lookups" "C"
         (Some "Self-host fonts/critical assets; defer non-critical tags.") issues
  else if externalHosts >? 2
  then addIssue "dns" "Reduce DNS lookups" "B"
         (Some "Prefer CDN subdomains you already use.") issues
  else issues.

Definition run_grade_issues (c : Core) (url : value) : result (list Issue) :=
  let issues := [] in
  issues <- run_http_requests (reqs c) issues ;;
  cacheScore <- audit_score (audits c) "uses-long-cache-ttl" ;;
  issues <- run_expires_headers cacheScore issues ;;
  compression <- audit_score (audits c) "uses-text-compression" ;;
  issues <- run_gzip compression issues ;;
  externalHosts <- count_external_hosts (audits c) url ;;
  let issues := run_dns externalHosts issues in
  let issues := addIssue "cookies" "Use cookie-free domains for static assets" "B"
                  (Some "Serve images/static assets from a cookieless subdomain or CDN.") issues in
  let issues := addIssue "empty_src" "Avoid empty src or href" "A"
                  (Some "Scan templates for empty attributes that trigger extra requests.") issues in
  Ok issues.

Definition run_transform (data url : value) : result AuditSummary :=
  c <- core_metrics data ;;
  issues <- run_grade_issues c url ;;
  Ok (summary c issues).

(** *** The handler (both files, lines 2-35 and the [catch]) *)

Record Request : Type := {
  method : string;
  origin : option string;     (* [req.headers.origin] *)
  body : value                (* [req.body] *)
}.

(** The [detail] field of an error body: absent, the text of the
    upstream's body, or [e?.message] of the exception caught. *)
Inductive Detail : Type :=
| no_detail
| detail_text (txt : string)
| detail_message (e : exn).

Inductive Json : Type :=
| error_json (error : string) (detail : Detail)
| summary_json (s : AuditSummary).

Inductive Sent : Type :=
| not_sent
| ended                       (* [res.end()]: no body *)
| sent_json (j : Json).       (* [res.json(j)] *)

Record Response : Type := {
  headers : list (string * string);
  statusCode : Z;
  sent : Sent
}.

Definition setHeader (name v : string) (res : Response) : Response :=
  {| headers := List.filter (fun h => negb (String.eqb (fst h) name)) (headers res)
                ++ [(name, v)];
     statusCode := statusCode res; sent := sent res |}.

Definition status (code : Z) (res : Response) : Response :=
  {| headers := headers res; statusCode := code; sent := sent res |}.

Definition end_ (res : Response) : Response :=
  {| headers := headers res; statusCode := statusCode res; sent := ended |}.

Definition json (j : Json) (res : Response) : Response :=
  {| headers := headers res; statusCode := statusCode res; sent := sent_json j |}.

(** The upstream request: the endpoint and its query parameters. *)
Record URL : Type := {
  href : string;
  searchParams : list (string * string)
}.

(** [searchParams.set(name, v)]: the first pair of that name takes the
    value and the others go; without one, the pair is appended. *)
Fixpoint set_pair (name s : string) (params : list (string * string))
    : list (string * string) :=
  match params with
  | [] => [(name, s)]
  | p :: rest =>
      if String.eqb (fst p) name
      then (name, s) :: List.filter (fun q => negb (String.eqb (fst q) name)) rest
      else p :: set_pair name s rest
  end.

Definition searchParams_set (name : string) (v : value) (u : URL) : result URL :=
  s <- ToString v ;;
  Ok {| href := href u; searchParams := set_pair name s (searchParams u) |}.

(** The upstream's answer, as the handler reads it: its status, and what
    [r.text()] and [r.json()] resolve to or reject with. *)
Record FetchResponse : Type := {
  r_status : Z;
  r_text : result string;
  r_json : result value
}.

(** [r.ok] *)
Definition r_ok (r : FetchResponse) : bool :=
  (200 <=? r_status r) && (r_status r <=? 299).

Record Env : Type := {
  PSI_KEY : option string;                (* [process.env.PSI_KEY] *)
  fetch : URL -> result FetchResponse
}.

Inductive Effect : Type :=
| fetched (u : URL)
| console_error (e : exn).

Record Outcome : Type := {
  effects : list Effect;
  response : Response
}.

Definition ALLOWED : list string :=
  [ "https://pinedesignmarketing.com";
    "https://www.pinedesignmarketing.com";
    "http://localhost:3000" ].

Definition psiURL (env : Env) (url : value) : result URL :=
  let psiURL := {| href := "https://www.googleapis.com/pagespeedonline/v5/runPagespeed";
                   searchParams := [] |} in
  let key := match PSI_KEY env with Some k => Str k | None => Undefined end in
  let strategy := Str "mobile" in
  psiURL <- searchParams_set "url" url psiURL ;;
  psiURL <- searchParams_set "key" key psiURL ;;
  searchParams_set "strategy" strategy psiURL.

Section Handler.

(** The transform of the file at hand. *)
Variable transform : value -> value -> result AuditSummary.

(** The body of the [try]: the effects performed, and the response
    returned or the exception thrown. *)
Definition try_block (env : Env) (req : Request) (res : Response)
    : list Effect * result Response :=
  if negb (String.eqb (method req) "POST")
  then ([], Ok (json (error_json "Use POST { url }" no_detail) (status 405 res)))
  else
    match Get (or_else (body req) (Obj [])) "url" with
    | Throw e => ([], Throw e)
    | Ok url =>
        if negb (ToBoolean url)
        then ([], Ok (json (error_json "Missing url" no_detail) (status 400 res)))
        else
          match psiURL env url with
          | Throw e => ([], Throw e)
          | Ok psiURL =>
              ([fetched psiURL],
               r <- fetch env psiURL ;;
               if negb (r_ok r)
               then
                 txt <- r_text r ;;
                 Ok (json (error_json "PSI error" (detail_text txt))
                       (status (r_status r) res))
               else
                 data <- r_json r ;;
                 s <- transform data url ;;
                 Ok (json (summary_json s) (status 200 res)))
          end
    end.

Definition handler (env : Env) (req : Request) : Outcome :=
  let res := {| headers := []; statusCode := 200; sent := not_sent |} in
  let ORIGIN := default "" (origin req) in
  let res := if existsb (String.eqb ORIGIN) ALLOWED
             then setHeader "Vary" "Origin"
                    (setHeader "Access-Control-Allow-Origin" ORIGIN res)
             else res in
  let res := setHeader "Access-Control-Allow-Methods" "POST, OPTIONS" res in
  let res := setHeader "Access-Control-Allow-Headers" "Content-Type" res in
  if String.eqb (method req) "OPTIONS"
  then {| effects := []; response := end_ (status 200 res) |}
  else
    match try_block env req res with
    | (effs, Ok res') => {| effects := effs; response := res' |}
    | (effs, Throw e) =>
        {| effects := effs ++ [console_error e];
           response := json (error_json "Server error" (detail_message e))
                         (status 500 res) |}
    end.

End Handler.

(** The handler of [src/api/run.js] and the one of [src/run.js]. *)
Definition api_handler : Env -> Request -> Outcome := handler api_transform.
Definition run_handler : Env -> Request -> Outcome := handler run_transform.

(** *** The words of the specification

    The parts of the upstream payload the specification names, and the
    grade ladders as it states them; the theorems below compare the
    code with these. *)

(** A named audit of the payload; [undefined] where a step is missing. *)
Definition payload_audit (data : value) (name : string) : value :=
  data ?. "lighthouseResult" ?. "audits" ?. name.

Definition performance_score (data : value) : value :=
  data ?. "lighthouseResult" ?. "categories" ?. "performance" ?. "score".

Definition network_items (data : value) : value :=
  payload_audit data "network-requests" ?. "details" ?. "items".

(** The url field of a request body; [undefined] where there is none. *)
Definition body_url (req : Request) : value := body req ?. "url".

(** The grades of the issues filed under a key, in order. *)
Definition grades_of (k : string) (issues : list Issue) : list string :=
  map grade (List.filter (fun i => String.eqb (key i) k) issues).

(** ">=0.9 gives A, >=0.7 gives B, >=0.4 gives C, else D" *)
Definition score_ladder (x : number) : string :=
  if geb x (lit 9 10) then "A"
  else if geb x (lit 7 10) then "B"
  else if geb x (lit 4 10) then "C"
  else "D".

(** The same ladder with the passing range left out: nothing at 0.9 and
    above, [D] below 0.4. *)
Definition score_ladder_below_passing (x : number) : list string :=
  if geb x (lit 9 10) then []
  else if geb x (lit 7 10) then ["B"]
  else if geb x (lit 4 10) then ["C"]
  else if ltb x (lit 4 10) then ["D"]
  else [].

(** ">90 gives F, >60 gives D, >40 gives C" *)
Definition requests_tier (n : Z) : option string :=
  if n >? 90 then Some "F"
  else if n >? 60 then Some "D"
  else if n >? 40 then Some "C"
  else None.

(** ">6 gives D, >4 gives C, >2 gives B" *)
Definition hosts_tier (n : Z) : option string :=
  if n >? 6 then Some "D"
  else if n >? 4 then Some "C"
  else if n >? 2 then Some "B"
  else None.

(** The host of an item's url, where it parses. *)
Definition item_host (it : value) : option string :=
  match (u <- Get it "url" ;; new_URL_host u) with
  | Ok h => Some h
  | Throw _ => None
  end.

(** The number of distinct hosts among the items' urls that are not the
    target's host. *)
Definition distinct_external_hosts (originHost : string) (its : list value) : Z :=
  Z.of_nat (size ((list_to_set (omap item_host its) : gset string) ∖ {[ originHost ]})).

(** [r] is the integer nearest to [y], the larger one on a tie; [NaN]
    and the infinities have none and are kept. *)
Definition nearest_integer (y r : number) : Prop :=
  match y with
  | S754_finite s m e =>
      exists n, to_Z r = Some n /\
        (2 * n - 1) * 2 ^ Z.max 0 (- e)
          <= 2 * cond_Zopp s (Zpos m) * 2 ^ Z.max 0 e
          < (2 * n + 1) * 2 ^ Z.max 0 (- e)
  | S754_zero _ => to_Z r = Some 0
  | _ => r = y
  end.

(** *** What the rules compute, apart from the list they push to *)

(** The Number a rule compares, or [None] where the rule sees [null] or
    [undefined] first. *)
Definition numeric (v : value) : result (option number) :=
  if nullish v then Ok None else x <- ToNumber v ;; Ok (Some x).

(** [reqs > 90], [reqs > 60], [reqs > 40], tested in that order. *)
Definition requests_tests (o : option number) : option string :=
  match o with
  | None => None
  | Some x =>
      if gtb x (of_Z 90) then Some "F"
      else if gtb x (of_Z 60) then Some "D"
      else if gtb x (of_Z 40) then Some "C"
      else None
  end.

(** [score < 0.9 && score >= 0.7], and so on, as [src/run.js] tests them. *)
Definition run_ladder (x : number) : list string :=
  if ltb x (lit 9 10) && geb x (lit 7 10) then ["B"]
  else if ltb x (lit 7 10) && geb x (lit 4 10) then ["C"]
  else if ltb x (lit 4 10) then ["D"]
  else [].

Definition api_score_grade (o : option number) : string :=
  match o with
  | None => "C"
  | Some x => score_ladder x
  end.

Definition run_score_grades (o : option number) : list string :=
  match o with
  | None => ["C"]
  | Some x => run_ladder x
  end.

(** An issue without its label and the text of its tip. *)
Definition shape (i : Issue) : string * string * bool :=
  (key i, grade i, match tip i with Some _ => true | None => false end).

Definition tagged (k : string) (tipped : bool) (grades : list string)
    : list (string * string * bool) :=
  map (fun g => (k, g, tipped)) grades.

Definition option_list {A : Type} (o : option A) : list A :=
  match o with
  | Some a => [a]
  | None => []
  end.

(** The external hosts a set of seen hosts holds. *)
Definition external (originHost : string) (seen : gset string) : Z :=
  Z.of_nat (size (seen ∖ {[ originHost ]})).

(** A payload no part of which has a [toString] key of its own: every
    conversion of such a value to a string or a Number succeeds. *)
Fixpoint plain (v : value) : bool :=
  match v with
  | Arr elems => forallb plain elems
  | Obj props =>
      match own_property "toString" props with
      | Some _ => false
      | None => forallb (fun p => plain (snd p)) props
      end
  | _ => true
  end.

(** *** Reading a response and an issue list *)

(** The value a response carries for a header. *)
Definition getHeader (name : string) (res : Response) : option string :=
  option_map snd (List.find (fun h => String.eqb (fst h) name) (headers res)).

(** The six keys, in the order the rules run. *)
Definition issue_keys : list string :=
  ["http_requests"; "expires_headers"; "gzip"; "dns"; "cookies"; "empty_src"].

(** The label each rule passes with its key. *)
Definition label_of (k : string) : string :=
  if String.eqb k "http_requests" then "Make fewer HTTP requests"
  else if String.eqb k "expires_headers" then "Add Expires headers"
  else if String.eqb k "gzip" then "Compress components with gzip/brotli"
  else if String.eqb k "dns" then "Reduce DNS lookups"
  else if String.eqb k "cookies" then "Use cookie-free domains for static assets"
  else "Avoid empty src or href".

Definition key_grade (i : Issue) : string * string := (key i, grade i).

Definition letter_grades : list string := ["A"; "B"; "C"; "D"; "F"].

(** The request with another [Origin] header. *)
Definition with_origin (o : option string) (req : Request) : Request :=
  {| method := method req; origin := o; body := body req |}.

(** The environment with another [PSI_KEY]. *)
Definition with_key (k : option string) (env : Env) : Env :=
  {| PSI_KEY := k; fetch := fetch env |}.

(** An issue of the catalog: one of the six keys, with that key's label
    and a letter grade. *)
Definition catalogued (i : Issue) : Prop :=
  In (key i) issue_keys /\ In (grade i) letter_grades /\ label i = label_of (key i).

(** The value a rule reads when the Number it compares is [o]. *)
Definition repr (o : option number) : value :=
  match o with
  | Some x => Num x
  | None => Null
  end.

(** An item the host loop can count: its url parses, to a host other than
    the target's. *)
Definition on_other_host (originHost : string) (it : value) : bool :=
  match item_host it with
  | Some h => negb (String.eqb h originHost)
  | None => false
  end.

(** The summary of a payload that carries no metrics at all. *)
Definition no_metrics (iss : list Issue) : AuditSummary :=
  {| score := Num (of_Z 0); lcp := Null; cls := Null; inp := Null;
     requests := Null; pageSizeMB := Null; loadTimeS := Null; issues := iss |}.

(** *** Inputs of the examples *)

Definition demo_url : value := Str "https://example.com/".

Definition payload_of_audits (audits : list (string * value)) : value :=
  Obj [("lighthouseResult", Obj [("audits", Obj audits)])].

(** [uses-long-cache-ttl.score = 0.95] *)
Definition payload_cache_score : value :=
  payload_of_audits [("uses-long-cache-ttl", Obj [("score", Num (lit 95 100))])].

(** No [network-requests] audit. *)
Definition payload_no_requests : value := payload_of_audits [].

(** 45 items, all on the target's host. *)
Definition same_host_items : list value :=
  replicate 45 (Obj [("url", Str "https://example.com/app.js")]).

Definition payload_45_requests : value :=
  payload_of_audits
    [("network-requests", Obj [("details", Obj [("items", Arr same_host_items)])])].

(** Performance score 0.85 *)
Definition payload_performance : value :=
  Obj [("lighthouseResult",
        Obj [("categories", Obj [("performance", Obj [("score", Num (lit 85 100))])])])].

(** [largest-contentful-paint.numericValue] 2500, and 0 *)
Definition payload_lcp (ms : Z) : value :=
  payload_of_audits [("largest-contentful-paint", Obj [("numericValue", Num (of_Z ms))])].

(** Six items: three distinct hosts other than the target's, one of them
    twice, the target's own host, and a url that does not parse. *)
Definition mixed_items : list value :=
  map (fun u => Obj [("url", Str u)])
    [ "https://cdn.example.net/a.js"; "https://fonts.example.org/f.css";
      "https://cdn.example.net/b.js"; "https://example.com/app.js";
      "not a url"; "https://ads.example.biz/t.js" ].

Definition payload_mixed_hosts : value :=
  payload_of_audits
    [("network-requests", Obj [("details", Obj [("items", Arr mixed_items)])])].

Definition post_request (body : value) : Request :=
  {| method := "POST"; origin := Some "https://pinedesignmarketing.com"; body := body |}.

Definition url_body : value := Obj [("url", demo_url)].

(** An upstream that answers every call with [r]. *)
Definition upstream (r : FetchResponse) : Env :=
  {| PSI_KEY := Some "k"; fetch := fun _ => Ok r |}.

Definition forbidden : FetchResponse :=
  {| r_status := 403; r_text := Ok "quota exceeded";
     r_json := Throw (Rejected "Unexpected token") |}.

Definition audited (data : value) : FetchResponse :=
  {| r_status := 200; r_text := Ok ""; r_json := Ok data |}.

(** The upstream request for a target url, with the key of [upstream]. *)
Definition psi_request (target : string) : URL :=
  {| href := "https://www.googleapis.com/pagespeedonline/v5/runPagespeed";
     searchParams := [("url", target); ("key", "k"); ("strategy", "mobile")] |}.

(** An upstream that cannot be reached. *)
Definition unreachable : Env :=
  {| PSI_KEY := Some "k"; fetch := fun _ => Throw (Rejected "fetch failed") |}.

(** A layout shift of 0, no interaction-to-next-paint but a first input
    delay of 120 ms, 2 MiB of bytes, no speed index but an interactive time
    of 3000 ms, and a compression score of 0.5. *)
Definition payload_metrics : value :=
  payload_of_audits
    [ ("cumulative-layout-shift", Obj [("numericValue", Num (of_Z 0))]);
      ("max-potential-fid", Obj [("numericValue", Num (of_Z 120))]);
      ("total-byte-weight", Obj [("numericValue", Num (of_Z 2097152))]);
      ("interactive", Obj [("numericValue", Num (of_Z 3000))]);
      ("uses-text-compression", Obj [("score", Num (lit 5 10))]) ].

(** A body whose url is no absolute URL, and one with a field the handler
    does not read. *)
Definition relative_url_body : value := Obj [("url", Str "example.com")].
Definition padded_url_body : value := Obj [("url", demo_url); ("strategy", Str "desktop")].

(** A payload whose [items] is a number. *)
Definition payload_bad_items : value :=
  payload_of_audits
    [("network-requests", Obj [("details", Obj [("items", Num (of_Z 5))])])].

End Handlers.

#[export] Instance demo_platform : Platform := {|
  NumberToString := demo_NumberToString;
  StringToNumber := demo_StringToNumber;
  URL_host := demo_URL_host
|}.

Definition demo_api_transform : value -> value -> result AuditSummary :=
  api_transform (platform := demo_platform).
Definition demo_run_transform : value -> value -> result AuditSummary :=
  run_transform (platform := demo_platform).
Definition demo_api_handler : Env -> Request -> Outcome :=
  api_handler (platform := demo_platform).
Definition demo_run_handler : Env -> Request -> Outcome :=
  run_handler (platform := demo_platform).

(** *** Auxiliary notions on Numbers *)

(** The shift that brings a positive integer below 2^53 to 53 bits. *)
Definition shift_of (p : positive) : Z := 53 - Zpos (digits2_pos p).

(** A Number's place in the order of the comparisons: sign class, then
    exponent and mantissa. *)
Definition rank (x : number) : option (Z * Z * Z) :=
  match x with
  | S754_nan => None
  | S754_infinity true => Some (-2, 0, 0)
  | S754_finite true m e => Some (-1, - e, - Zpos m)
  | S754_zero _ => Some (0, 0, 0)
  | S754_finite false m e => Some (1, e, Zpos m)
  | S754_infinity false => Some (2, 0, 0)
  end.

Definition rank_le (a b : Z * Z * Z) : Prop :=
  let '(a1, a2, a3) := a in
  let '(b1, b2, b3) := b in
  a1 < b1 \/ (a1 = b1 /\ (a2 < b2 \/ (a2 = b2 /\ a3 <= b3))).

(** ** Properties of the numbers *)

Lemma digits2_pos_bounds (p : positive) :
  2 ^ (Zpos (digits2_pos p) - 1) <= Zpos p < 2 ^ Zpos (digits2_pos p).
Proof.
  induction p as [p IH | p IH |]; cbn [digits2_pos].
  - rewrite Pos2Z.inj_succ.
    replace (Z.succ (Zpos (digits2_pos p)) - 1) with (Z.succ (Zpos (digits2_pos p) - 1)) by lia.
    rewrite !Z.pow_succ_r by lia. lia.
  - rewrite Pos2Z.inj_succ.
    replace (Z.succ (Zpos (digits2_pos p)) - 1) with (Z.succ (Zpos (digits2_pos p) - 1)) by lia.
    rewrite !Z.pow_succ_r by lia. lia.
  - cbn. lia.
Qed.

Lemma iter_xO_value (p k : positive) :
  Zpos (Pos.iter xO p k) = Zpos p * 2 ^ Zpos k.
Proof.
  induction k as [| k IH] using Pos.peano_ind.
  - cbn. lia.
  - rewrite Pos.iter_succ, Pos2Z.inj_succ, Z.pow_succ_r by lia.
    rewrite Pos2Z.inj_xO, IH. lia.
Qed.

Lemma iter_xO_digits (p k : positive) :
  digits2_pos (Pos.iter xO p k) = (digits2_pos p + k)%positive.
Proof.
  induction k as [| k IH] using Pos.peano_ind.
  - cbn. lia.
  - rewrite Pos.iter_succ. cbn [digits2_pos]. rewrite IH. lia.
Qed.

Lemma digits2_pos_le (p : positive) :
  Zpos p < 2 ^ 53 -> Zpos (digits2_pos p) <= 53.
Proof.
  intros Hp. pose proof (digits2_pos_bounds p) as [Hlo _].
  destruct (Z_le_gt_dec (Zpos (digits2_pos p)) 53) as [|Hgt]; [assumption|].
  exfalso.
  assert (2 ^ 53 <= 2 ^ (Zpos (digits2_pos p) - 1)) by (apply Z.pow_le_mono_r; lia).
  lia.
Qed.

Lemma binary_round_exact (s : bool) (p : positive) :
  Zpos p < 2 ^ 53 ->
  exists m, binary_round prec emax s p 0 = S754_finite s m (- shift_of p)
         /\ Zpos m = Zpos p * 2 ^ shift_of p
         /\ Zpos (digits2_pos m) = 53.
Proof.
  intros Hp.
  pose proof (digits2_pos_bounds p) as [Hlo Hhi].
  assert (Hd : Zpos (digits2_pos p) <= 53).
  { destruct (Z_le_gt_dec (Zpos (digits2_pos p)) 53) as [|Hgt]; [assumption|].
    exfalso. assert (2 ^ 53 <= 2 ^ (Zpos (digits2_pos p) - 1)) by (apply Z.pow_le_mono_r; lia). lia. }
  unfold shift_of, binary_round, shl_align, fexp, emin, prec, emax.
  rewrite Z.add_0_r.
  remember (digits2_pos p) as d eqn:Ed.
  replace (Z.max (Zpos d - 53) (3 - 1024 - 53)) with (Zpos d - 53) by lia.
  rewrite Z.sub_0_r.
  destruct (Zpos d - 53) as [| q | q] eqn:Eq; [ | lia | ].
  - (* already 53 digits *)
    exists p. replace (53 - Zpos d) with 0 by lia.
    rewrite Z.mul_1_r. split; [| split; [reflexivity | lia]].
    unfold binary_round_aux, shr_fexp, shr, fexp, emin. cbn [Zdigits2 shr_record_of_loc].
    rewrite <- Ed. rewrite Z.add_0_r.
    replace (Z.max (Zpos d - 53) (3 - 1024 - 53) - 0) with 0 by lia.
    cbn [shr_m loc_of_shr_record round_nearest_even Zdigits2].
    rewrite <- Ed. rewrite Z.add_0_r.
    replace (Z.max (Zpos d - 53) (3 - 1024 - 53) - 0) with 0 by lia.
    cbn. reflexivity.
  - exists (Pos.iter xO p q).
    assert (Hq : Zpos q = 53 - Zpos d) by lia.
    rewrite <- Hq.
    split; [| split; [apply iter_xO_value | rewrite iter_xO_digits; lia]].
    replace (- Zpos q) with (Zneg q) by lia.
    unfold binary_round_aux, shr_fexp, shr, fexp, emin. cbn [Zdigits2 shr_record_of_loc].
    rewrite iter_xO_digits, <- Ed.
    replace (Z.max (Zpos (d + q) + Zneg q - 53) (3 - 1024 - 53) - Zneg q) with 0 by lia.
    cbn [shr_m loc_of_shr_record round_nearest_even Zdigits2].
    rewrite iter_xO_digits, <- Ed.
    replace (Z.max (Zpos (d + q) + Zneg q - 53) (3 - 1024 - 53) - Zneg q) with 0 by lia.
    cbn [shr_m]. 
    replace (Zneg q <=? 1024 - 53) with true by (symmetry; apply Z.leb_le; lia).
    reflexivity.
Qed.

Lemma of_Z_to_Z (z : Z) : Z.abs z < 2 ^ 53 -> to_Z (of_Z z) = Some z.
Proof.
  intros Hz. unfold of_Z, binary_normalize.
  destruct z as [| p | p]; [reflexivity | |].
  - destruct (binary_round_exact false p) as (m & -> & Hm & _); [lia|].
    pose proof (digits2_pos_bounds p) as [Hlo Hhi].
    assert (0 <= shift_of p).
    { unfold shift_of. destruct (Z_le_gt_dec (Zpos (digits2_pos p)) 53); [lia|].
      assert (2 ^ 53 <= 2 ^ (Zpos (digits2_pos p) - 1)) by (apply Z.pow_le_mono_r; lia). lia. }
    unfold to_Z. destruct (0 <=? - shift_of p) eqn:E.
    + apply Z.leb_le in E. assert (shift_of p = 0) as E0 by lia.
      rewrite E0 in *. cbn. f_equal. cbn in Hm. lia.
    + rewrite Z.opp_involutive, Hm.
      rewrite Z.mod_mul by (apply Z.pow_nonzero; lia). cbn [Z.eqb cond_Zopp].
      rewrite Z.div_mul by (apply Z.pow_nonzero; lia). reflexivity.
  - destruct (binary_round_exact true p) as (m & -> & Hm & _); [lia|].
    pose proof (digits2_pos_bounds p) as [Hlo Hhi].
    assert (0 <= shift_of p).
    { unfold shift_of. destruct (Z_le_gt_dec (Zpos (digits2_pos p)) 53); [lia|].
      assert (2 ^ 53 <= 2 ^ (Zpos (digits2_pos p) - 1)) by (apply Z.pow_le_mono_r; lia). lia. }
    unfold to_Z. destruct (0 <=? - shift_of p) eqn:E.
    + apply Z.leb_le in E. assert (shift_of p = 0) as E0 by lia.
      rewrite E0 in *. cbn. f_equal. cbn in Hm. lia.
    + rewrite Z.opp_involutive, Hm.
      rewrite Z.mod_mul by (apply Z.pow_nonzero; lia). cbn [Z.eqb cond_Zopp].
      rewrite Z.div_mul by (apply Z.pow_nonzero; lia). reflexivity.
Qed.

Lemma ltb_of_Z (a b : Z) :
  0 <= a < 2 ^ 53 -> 0 <= b < 2 ^ 53 -> ltb (of_Z a) (of_Z b) = (a <? b).
Proof.
  intros Ha Hb. unfold ltb, SFltb, of_Z, binary_normalize.
  destruct a as [| p | p], b as [| q | q]; try lia; try reflexivity.
  - destruct (binary_round_exact false q) as (m & -> & _); [lia|]. reflexivity.
  - destruct (binary_round_exact false p) as (m & -> & _); [lia|]. reflexivity.
  - destruct (binary_round_exact false p) as (m & -> & Hm & _); [lia|].
    destruct (binary_round_exact false q) as (n & -> & Hn & _); [lia|].
    pose proof (digits2_pos_bounds p) as [Hplo Hphi].
    pose proof (digits2_pos_bounds q) as [Hqlo Hqhi].
    pose proof (digits2_pos_le p ltac:(lia)). pose proof (digits2_pos_le q ltac:(lia)).
    unfold shift_of in *. cbn [SFcompare].
    set (dp := Zpos (digits2_pos p)) in *. set (dq := Zpos (digits2_pos q)) in *.
    destruct (Z.compare_spec (- (53 - dp)) (- (53 - dq))) as [E | E | E].
    + assert (dp = dq) as Ed by lia. rewrite Ed in *.
      rewrite Pos.compare_cont_spec. cbn [Pos.switch_Eq].
      change (Pos.compare m n) with (Z.compare (Zpos m) (Zpos n)).
      rewrite Hm, Hn.
      assert (0 < 2 ^ (53 - dq)) by (apply Z.pow_pos_nonneg; lia).
      destruct (Z.compare_spec (Zpos p * 2 ^ (53 - dq)) (Zpos q * 2 ^ (53 - dq))) as [E' | E' | E'];
        symmetry; [apply Z.ltb_ge | apply Z.ltb_lt | apply Z.ltb_ge]; nia.
    + symmetry. apply Z.ltb_lt.
      assert (2 ^ dp <= 2 ^ (dq - 1)) by (apply Z.pow_le_mono_r; lia). lia.
    + symmetry. apply Z.ltb_ge.
      assert (2 ^ dq <= 2 ^ (dp - 1)) by (apply Z.pow_le_mono_r; lia). lia.
Qed.

Lemma shr_1_m (mrs : shr_record) :
  0 <= shr_m mrs -> shr_m (shr_1 mrs) = shr_m mrs / 2.
Proof.
  destruct mrs as [m r s]. cbn [shr_m]. intros Hm.
  destruct m as [| [p | p |] | p]; cbn [shr_1 shr_m]; try lia.
  - reflexivity.
  - apply Z.div_unique with 1; lia.
  - apply Z.div_unique with 0; lia.
  - reflexivity.
Qed.

Lemma iter_pos_shr_1_m (k : positive) :
  forall mrs, 0 <= shr_m mrs ->
    shr_m (SpecFloat.iter_pos shr_1 k mrs) = shr_m mrs / 2 ^ Zpos k.
Proof.
  assert (Hdiv : forall a b c, 0 < b -> 0 < c -> a / b / c = a / (b * c)).
  { intros. apply Z.div_div; lia. }
  induction k as [k IH | k IH |]; intros mrs Hm; cbn [SpecFloat.iter_pos].
  - assert (H1 : 0 <= shr_m (shr_1 mrs)).
    { rewrite shr_1_m by assumption. apply Z.div_pos; lia. }
    assert (H2 : 0 <= shr_m (SpecFloat.iter_pos shr_1 k (shr_1 mrs))).
    { rewrite IH by assumption. apply Z.div_pos; [assumption | apply Z.pow_pos_nonneg; lia]. }
    rewrite IH, IH, shr_1_m by assumption.
    assert (0 < 2 ^ Zpos k) by (apply Z.pow_pos_nonneg; lia).
    rewrite !Hdiv by lia. f_equal.
    replace (Zpos k~1) with (1 + Zpos k + Zpos k) by lia.
    rewrite !Z.pow_add_r by lia. ring.
  - assert (H2 : 0 <= shr_m (SpecFloat.iter_pos shr_1 k mrs)).
    { rewrite IH by assumption. apply Z.div_pos; [assumption | apply Z.pow_pos_nonneg; lia]. }
    rewrite IH, IH by assumption.
    assert (0 < 2 ^ Zpos k) by (apply Z.pow_pos_nonneg; lia).
    rewrite !Hdiv by lia. f_equal.
    replace (Zpos k~0) with (Zpos k + Zpos k) by lia.
    rewrite !Z.pow_add_r by lia. ring.
  - rewrite shr_1_m by assumption. reflexivity.
Qed.

Lemma Zdigits2_bound (m : Z) : 0 <= m -> m < 2 ^ Zdigits2 m.
Proof.
  destruct m as [| p | p]; intros; [cbn; lia | | lia].
  cbn [Zdigits2]. apply digits2_pos_bounds.
Qed.

Lemma shr_m_record_of_loc (m : Z) (l : location) :
  shr_m (shr_record_of_loc m l) = m.
Proof. destruct l as [| []]; reflexivity. Qed.

Lemma shr_fexp_m_nonneg (m e : Z) (l : location) :
  0 <= m -> 0 <= shr_m (fst (shr_fexp prec emax m e l)).
Proof.
  intros Hm. unfold shr_fexp, shr.
  destruct (fexp prec emax (Zdigits2 m + e) - e) as [| p | p]; cbn [fst];
    rewrite ?iter_pos_shr_1_m, ?shr_m_record_of_loc; rewrite ?shr_m_record_of_loc; try lia.
  apply Z.div_pos; [lia | apply Z.pow_pos_nonneg; lia].
Qed.

Lemma round_nearest_even_nonneg (m : Z) (l : location) :
  0 <= m -> 0 <= round_nearest_even m l.
Proof.
  intros. unfold round_nearest_even.
  destruct l as [| []]; try lia. destruct (Z.even m); lia.
Qed.

Lemma shr_fexp_exact_bounded (m e : Z) :
  0 <= m -> shr_m (fst (shr_fexp prec emax m e loc_Exact)) < 2 ^ 53.
Proof.
  intros Hm. pose proof (Zdigits2_bound m Hm) as Hd.
  assert (Hd0 : 0 <= Zdigits2 m) by (destruct m; cbn; lia).
  unfold shr_fexp, shr, fexp, emin, prec, emax. cbn [shr_record_of_loc].
  set (d := Zdigits2 m) in *.
  destruct (Z.max (d + e - 53) (3 - 1024 - 53) - e) as [| p | p] eqn:E; cbn [fst shr_m].
  - assert (2 ^ d <= 2 ^ 53) by (apply Z.pow_le_mono_r; lia). lia.
  - rewrite iter_pos_shr_1_m by (cbn; lia). cbn [shr_m].
    apply Z.div_lt_upper_bound; [apply Z.pow_pos_nonneg; lia |].
    rewrite <- Z.pow_add_r by lia.
    assert (2 ^ d <= 2 ^ (Zpos p + 53)) by (apply Z.pow_le_mono_r; lia). lia.
  - assert (2 ^ d <= 2 ^ 53) by (apply Z.pow_le_mono_r; lia). lia.
Qed.

Lemma binary_round_aux_bounded (sx : bool) (mx ex : Z) (lx : location) s m e :
  0 <= mx ->
  binary_round_aux prec emax sx mx ex lx = S754_finite s m e ->
  Zpos m < 2 ^ 53.
Proof.
  intros Hmx. unfold binary_round_aux.
  pose proof (shr_fexp_m_nonneg mx ex lx Hmx) as H1.
  destruct (shr_fexp prec emax mx ex lx) as [mrs' e'] eqn:E1. cbn [fst] in H1.
  pose proof (round_nearest_even_nonneg (shr_m mrs') (loc_of_shr_record mrs') H1) as H2.
  pose proof (shr_fexp_exact_bounded _ e' H2) as H3.
  destruct (shr_fexp prec emax _ e' loc_Exact) as [mrs'' e''] eqn:E2. cbn [fst] in H3.
  destruct (shr_m mrs'') as [| p | p]; try discriminate.
  destruct (e'' <=? emax - prec); try discriminate.
  intros [= <- <- <-]. exact H3.
Qed.

Lemma mul_bounded (x y : number) s m e :
  mul x y = S754_finite s m e -> Zpos m < 2 ^ 53.
Proof.
  unfold mul, SFmul.
  destruct x as [| | | sx mx ex], y as [| | | sy my ey]; try discriminate.
  apply binary_round_aux_bounded. lia.
Qed.

Lemma Math_round_nearest (y : number) :
  (forall s m e, y = S754_finite s m e -> Zpos m < 2 ^ 53) ->
  nearest_integer y (Math_round y).
Proof.
  intros Hb. destruct y as [s | s | | s m e]; cbn [nearest_integer Math_round];
    try reflexivity.
  specialize (Hb s m e eq_refl).
  destruct (0 <=? e) eqn:E.
  - apply Z.leb_le in E.
    exists (cond_Zopp s (Zpos m * 2 ^ e)). split.
    + unfold to_Z. rewrite (proj2 (Z.leb_le 0 e) E). reflexivity.
    + rewrite Z.max_l, Z.max_r by lia. cbn [Z.pow].
      assert (0 < 2 ^ e) by (apply Z.pow_pos_nonneg; lia).
      destruct s; cbn [cond_Zopp]; lia.
  - apply Z.leb_gt in E.
    set (k := 2 ^ (- e)).
    assert (Hk : 2 <= k).
    { unfold k. change 2 with (2 ^ 1) at 1. apply Z.pow_le_mono_r; lia. }
    set (sm := cond_Zopp s (Zpos m)).
    assert (Hsm : - 2 ^ 53 < sm < 2 ^ 53) by (unfold sm; destruct s; cbn [cond_Zopp]; lia).
    set (n := (2 * sm + k) / (2 * k)).
    pose proof (Z.div_mod (2 * sm + k) (2 * k) ltac:(lia)) as Hdm.
    pose proof (Z.mod_pos_bound (2 * sm + k) (2 * k) ltac:(lia)) as Hmod.
    fold n in Hdm.
    exists n. split.
    + destruct (n =? 0) eqn:En.
      * apply Z.eqb_eq in En. rewrite En. reflexivity.
      * apply of_Z_to_Z. 
        assert (2 ^ 53 = 9007199254740992) as P by reflexivity. rewrite P in *.
        nia.
    + rewrite Z.max_r, Z.max_l by lia. cbn [Z.pow]. fold k. nia.
Qed.

Lemma fexp_eq (x : Z) : fexp prec emax x = Z.max (x - 53) (-1074).
Proof. reflexivity. Qed.

Lemma binary_round_large (p : positive) :
  2 ^ 53 <= Zpos p ->
  binary_round prec emax false p 0 = S754_infinity false
  \/ exists m e, binary_round prec emax false p 0 = S754_finite false m e /\ 1 <= e.
Proof.
  intros Hp.
  pose proof (digits2_pos_bounds p) as [Hlo Hhi].
  set (d := Zpos (digits2_pos p)) in *.
  assert (Hd : 54 <= d).
  { destruct (Z_lt_ge_dec d 54) as [Hlt|]; [|lia]. exfalso.
    assert (2 ^ d <= 2 ^ 53) by (apply Z.pow_le_mono_r; lia). lia. }
  unfold binary_round, shl_align.
  rewrite fexp_eq, Z.add_0_r. fold d.
  replace (Z.max (d - 53) (-1074) - 0) with (d - 53) by lia.
  destruct (d - 53) as [| k | k] eqn:Ek; try lia.
  unfold binary_round_aux.
  pose proof (shr_fexp_m_nonneg (Zpos p) 0 loc_Exact ltac:(lia)) as H1.
  assert (E1 : snd (shr_fexp prec emax (Zpos p) 0 loc_Exact) = Zpos k).
  { unfold shr_fexp, shr. rewrite fexp_eq. cbn [Zdigits2]. fold d.
    rewrite Z.add_0_r.
    replace (Z.max (d - 53) (-1074) - 0) with (Zpos k) by lia.
    reflexivity. }
  assert (M1 : 2 ^ 52 <= shr_m (fst (shr_fexp prec emax (Zpos p) 0 loc_Exact))).
  { unfold shr_fexp, shr. rewrite fexp_eq. cbn [Zdigits2]. fold d.
    rewrite Z.add_0_r.
    replace (Z.max (d - 53) (-1074) - 0) with (Zpos k) by lia.
    cbn [fst]. rewrite iter_pos_shr_1_m by (cbn; lia). cbn [shr_record_of_loc shr_m].
    apply Z.div_le_lower_bound; [apply Z.pow_pos_nonneg; lia|].
    rewrite <- Z.pow_add_r by lia.
    replace (Zpos k + 52) with (d - 1) by lia. lia. }
  destruct (shr_fexp prec emax (Zpos p) 0 loc_Exact) as [mrs' e'].
  cbn [fst snd] in *. subst e'.
  set (m1 := round_nearest_even (shr_m mrs') (loc_of_shr_record mrs')).
  assert (Hm1 : 2 ^ 52 <= m1).
  { unfold m1, round_nearest_even.
    destruct (loc_of_shr_record mrs') as [| []]; try lia.
    destruct (Z.even (shr_m mrs')); lia. }
  assert (E2 : Zpos k <= snd (shr_fexp prec emax m1 (Zpos k) loc_Exact)).
  { unfold shr_fexp, shr.
    destruct (fexp prec emax (Zdigits2 m1 + Zpos k) - Zpos k); cbn [snd]; lia. }
  assert (M2 : 0 < shr_m (fst (shr_fexp prec emax m1 (Zpos k) loc_Exact))).
  { pose proof (Zdigits2_bound m1 ltac:(lia)) as Hb.
    assert (Hd1 : 53 <= Zdigits2 m1).
    { destruct (Z_lt_ge_dec (Zdigits2 m1) 53) as [Hlt|]; [|lia]. exfalso.
      assert (0 <= Zdigits2 m1) by (destruct m1; cbn; lia).
      assert (2 ^ Zdigits2 m1 <= 2 ^ 52) by (apply Z.pow_le_mono_r; lia). lia. }
    unfold shr_fexp, shr. rewrite fexp_eq. cbn [shr_record_of_loc].
    destruct (Z.max (Zdigits2 m1 + Zpos k - 53) (-1074) - Zpos k) as [| q | q] eqn:Eq;
      cbn [fst shr_m]; try lia.
    rewrite iter_pos_shr_1_m by (cbn; lia). cbn [shr_m].
    apply Z.div_str_pos. split; [apply Z.pow_pos_nonneg; lia|].
    assert (Hq : Zpos q = Zdigits2 m1 - 53) by lia.
    destruct m1 as [| m1 | m1]; try lia. cbn [Zdigits2] in *.
    pose proof (digits2_pos_bounds m1) as [Hl _].
    assert (2 ^ Zpos q <= 2 ^ (Zpos (digits2_pos m1) - 1)) by (apply Z.pow_le_mono_r; lia).
    lia. }
  destruct (shr_fexp prec emax m1 (Zpos k) loc_Exact) as [mrs'' e''].
  cbn [fst snd] in *.
  destruct (shr_m mrs'') as [| m | m]; try lia.
  destruct (e'' <=? emax - prec); [right | left; reflexivity].
  exists m, e''. split; [reflexivity | lia].
Qed.

Lemma of_Z_nonneg_cases (a : Z) :
  0 <= a ->
  a = 0 /\ of_Z a = S754_zero false
  \/ (0 < a < 2 ^ 53 /\ exists m, of_Z a = S754_finite false m (- shift_of (Z.to_pos a))
        /\ Zpos m = a * 2 ^ shift_of (Z.to_pos a))
  \/ (2 ^ 53 <= a /\ (of_Z a = S754_infinity false
        \/ exists m e, of_Z a = S754_finite false m e /\ 1 <= e)).
Proof.
  intros Ha. destruct a as [| p | p]; try lia.
  - left. split; reflexivity.
  - right. destruct (Z_lt_ge_dec (Zpos p) (2 ^ 53)) as [Hlt | Hge].
    + left. split; [lia|].
      destruct (binary_round_exact false p Hlt) as (m & E & Hm & _).
      exists m. cbn [Z.to_pos]. split; assumption.
    + right. split; [lia|]. apply binary_round_large. lia.
Qed.

Lemma gtb_of_Z (a c : Z) :
  0 <= a -> 0 <= c < 2 ^ 53 -> gtb (of_Z a) (of_Z c) = (a >? c).
Proof.
  intros Ha Hc. rewrite Z.gtb_ltb. unfold gtb.
  destruct (Z_lt_ge_dec a (2 ^ 53)) as [Hlt | Hge].
  - apply ltb_of_Z; lia.
  - destruct (of_Z_nonneg_cases a Ha) as [[-> _] | [[? _] | [_ Hbig]]]; try lia.
    replace (c <? a) with true by (symmetry; apply Z.ltb_lt; lia).
    unfold ltb, SFltb.
    destruct (of_Z_nonneg_cases c ltac:(lia)) as [[_ ->] | [[Hc0 (m & -> & _)] | [? _]]]; try lia.
    + destruct Hbig as [-> | (m & e & -> & He)]; reflexivity.
    + assert (Hs : 0 <= shift_of (Z.to_pos c)).
      { unfold shift_of. pose proof (digits2_pos_le (Z.to_pos c)) as Hle.
        rewrite Z2Pos.id in Hle by lia. lia. }
      destruct Hbig as [-> | (m' & e & -> & He)]; [reflexivity|].
      cbn [SFcompare].
      destruct (Z.compare_spec (- shift_of (Z.to_pos c)) e); try lia; reflexivity.
Qed.

Lemma SFcompare_antisym (x y : number) :
  SFcompare y x = option_map CompOpp (SFcompare x y).
Proof.
  destruct x as [sx | sx | | sx mx ex], y as [sy | sy | | sy my ey];
    cbn [SFcompare option_map]; try reflexivity;
    try (destruct sx; reflexivity); try (destruct sy; reflexivity);
    try (destruct sx, sy; reflexivity).
  rewrite !Pos.compare_cont_spec. cbn [Pos.switch_Eq].
  rewrite (Z.compare_antisym ex ey), (Pos.compare_antisym mx my).
  destruct sx, sy; cbn [CompOpp]; try reflexivity;
    destruct (ex ?= ey); cbn [CompOpp]; try reflexivity;
    destruct (mx ?= my)%positive; reflexivity.
Qed.

Lemma leb_rank (x y : number) :
  leb x y = true <-> exists a b, rank x = Some a /\ rank y = Some b /\ rank_le a b.
Proof.
  unfold leb, SFleb.
  destruct x as [sx | sx | | sx mx ex], y as [sy | sy | | sy my ey];
    cbn [SFcompare rank];
    repeat match goal with s : bool |- _ => destruct s end;
    try (split; [intros _; eexists _, _; split; [reflexivity | split; [reflexivity | cbv beta iota delta [rank_le]; lia]]
                | intros _; reflexivity]);
    try (split; [discriminate | intros (a & b & [= <-] & [= <-] & Hr); cbv beta iota delta [rank_le] in Hr; lia]);
    try (split; [discriminate | intros (a & b & H1 & H2 & _); discriminate]).
  all: rewrite Pos.compare_cont_spec; cbn [Pos.switch_Eq].
  all: destruct (Z.compare_spec ex ey); destruct (Pos.compare_spec mx my); cbn [CompOpp Pos.switch_Eq].
  all: try (split; [intros _; eexists _, _; split; [reflexivity | split; [reflexivity | cbv beta iota delta [rank_le]; lia]]
                | intros _; reflexivity]).
  all: try (split; [discriminate | intros (a & b & [= <-] & [= <-] & Hr); cbv beta iota delta [rank_le] in Hr; lia]).
Qed.

Lemma leb_trans (x y z : number) :
  leb x y = true -> leb y z = true -> leb x z = true.
Proof.
  rewrite !leb_rank.
  intros (a & b & Ha & Hb & Hab) (b' & c & Hb' & Hc & Hbc).
  rewrite Hb in Hb'. injection Hb' as <-.
  exists a, c. split; [assumption | split; [assumption |]].
  destruct a as [[a1 a2] a3], b as [[b1 b2] b3], c as [[c1 c2] c3].
  cbv beta iota delta [rank_le] in *. lia.
Qed.

Lemma compare_none (x y : number) :
  SFcompare x y = None <-> x = S754_nan \/ y = S754_nan.
Proof.
  destruct x as [sx | sx | | sx mx ex], y as [sy | sy | | sy my ey]; cbn [SFcompare];
    split; intros H; try reflexivity; try discriminate;
    try (destruct H; discriminate);
    try (left; reflexivity); try (right; reflexivity).
Qed.

Lemma ltb_negb_geb (x c : number) :
  x <> S754_nan -> c <> S754_nan -> ltb x c = negb (geb x c).
Proof.
  intros Hx Hc. unfold geb, leb, ltb, SFltb, SFleb.
  rewrite (SFcompare_antisym x c).
  destruct (SFcompare x c) as [[]|] eqn:E; try reflexivity.
  apply compare_none in E. tauto.
Qed.

Lemma geb_mono (x c c' : number) :
  leb c' c = true -> geb x c = true -> geb x c' = true.
Proof. unfold geb. intros. eapply leb_trans; eassumption. Qed.

Lemma run_ladder_spec (x : number) : run_ladder x = score_ladder_below_passing x.
Proof.
  unfold run_ladder, score_ladder_below_passing.
  destruct x as [sx | sx | | sx mx ex] eqn:Ex; [| | reflexivity |].
  all: rewrite <- Ex; assert (Hx : x <> S754_nan) by (rewrite Ex; discriminate).
  all: rewrite (ltb_negb_geb x (lit 9 10)), (ltb_negb_geb x (lit 7 10)),
         (ltb_negb_geb x (lit 4 10)) by (assumption || discriminate).
  all: pose proof (geb_mono x (lit 9 10) (lit 7 10) eq_refl) as H97.
  all: pose proof (geb_mono x (lit 7 10) (lit 4 10) eq_refl) as H74.
  all: destruct (geb x (lit 9 10)), (geb x (lit 7 10)), (geb x (lit 4 10)); cbn [negb andb];
       try reflexivity; try (discriminate (H97 eq_refl)); try (discriminate (H74 eq_refl)).
Qed.

(** The literals of the source, and [Math.round] on its edge cases: ties
    go up, and what rounds to zero keeps its sign. *)
Example lit_0_9 : lit 9 10 = S754_finite false 8106479329266893 (-53).
Proof. reflexivity. Qed.

Example lit_0_9_nearest :
  Z.abs (10 * 8106479329266893 - 9 * 2 ^ 53) <= 5 /\ to_Z (lit 9 10) = None.
Proof. split; [vm_compute; discriminate | reflexivity]. Qed.

Example Math_round_ties :
  Math_round (lit 5 2) = of_Z 3 /\ Math_round (lit (-5) 2) = of_Z (-2).
Proof. split; reflexivity. Qed.

Example Math_round_below_half :
  Math_round (S754_finite false 9007199254740991 (-54)) = S754_zero false.
Proof. reflexivity. Qed.

Example Math_round_negative_zero : Math_round (lit (-2) 10) = S754_zero true.
Proof. reflexivity. Qed.

Example score_ladder_edges :
  map score_ladder [lit 9 10; lit 89 100; lit 7 10; lit 4 10; lit 39 100; NaN]
  = ["A"; "B"; "B"; "C"; "D"; "D"].
Proof. reflexivity. Qed.

Example score_ladder_below_passing_edges :
  map score_ladder_below_passing
    [lit 9 10; lit 89 100; lit 7 10; lit 4 10; lit 39 100; NaN]
  = [[]; ["B"]; ["B"]; ["C"]; ["D"]; []].
Proof. reflexivity. Qed.

(** ** Properties of the transform *)

Section Properties.

Context `{platform : Platform}.

Lemma bind_Ok {A B : Type} (m : result A) (f : A -> result B) (b : B) :
  bind m f = Ok b -> exists a, m = Ok a /\ f a = Ok b.
Proof. destruct m as [a | e]; cbn; [eauto | discriminate]. Qed.

Ltac inv_bind H :=
  let a := fresh "a" in
  let Ha := fresh "E" in
  apply bind_Ok in H; destruct H as (a & Ha & H).

Tactic Notation "inv_bind_as" hyp(H) ident(a) ident(Ha) :=
  apply bind_Ok in H; destruct H as (a & Ha & H).

Lemma Get_GetOpt (v : value) (k : string) (w : value) :
  Get v k = Ok w -> w = v ?. k.
Proof. unfold GetOpt. intros ->. reflexivity. Qed.

Lemma Get_or_else (v : value) (k : string) :
  String.eqb k "length" = false -> Get (or_else v (Obj [])) k = Ok (v ?. k).
Proof.
  intros Hk. unfold or_else, GetOpt.
  destruct v as [| | b | x | s | l | ps]; cbn [ToBoolean Get own_property default];
    try reflexivity.
  - destruct b; reflexivity.
  - destruct (truthy x); reflexivity.
  - destruct (negb (String.eqb s "")); cbn [Get own_property default];
      rewrite ?Hk; reflexivity.
Qed.


Lemma core_metrics_audits data c name :
  core_metrics data = Ok c ->
  String.eqb name "length" = false ->
  Get (audits c) name = Ok (payload_audit data name).
Proof.
  intros H Hn. unfold core_metrics in H.
  inv_bind_as H lr0 E. apply Get_GetOpt in E. subst lr0.
  rewrite !Get_or_else in H by reflexivity. cbn [bind] in H.
  repeat inv_bind H. injection H as <-. cbn [audits].
  rewrite Get_or_else by assumption. reflexivity.
Qed.

Lemma Get_truthy (v : value) (k : string) :
  ToBoolean (v ?. k) = true -> Get v k = Ok (v ?. k).
Proof.
  unfold GetOpt. destruct (Get v k) as [w | e]; [reflexivity | discriminate].
Qed.

Ltac core_gets H :=
  unfold numericValue, seconds, audit_score in H;
  repeat (rewrite !Get_or_else in H by reflexivity; cbn [bind] in H).

Lemma core_metrics_score data c :
  core_metrics data = Ok c ->
  exists x, ToNumber (performance_score data ?? Num (of_Z 0)) = Ok x
         /\ core_score c = Num (Math_round (mul x (of_Z 100))).
Proof.
  intros H. unfold core_metrics in H.
  inv_bind_as H lr0 E. apply Get_GetOpt in E. subst lr0.
  core_gets H.
  inv_bind_as H x Ex. exists x. split; [exact Ex |].
  repeat inv_bind H. injection H as <-. reflexivity.
Qed.

Lemma core_metrics_reqs data c :
  core_metrics data = Ok c ->
  reqs c = network_items data ?. "length" ?? Null.
Proof.
  intros H. unfold core_metrics in H.
  inv_bind_as H lr0 E. apply Get_GetOpt in E. subst lr0.
  core_gets H.
  repeat inv_bind H. injection H as <-. reflexivity.
Qed.

Lemma core_metrics_lcp data c :
  core_metrics data = Ok c ->
  let nv := payload_audit data "largest-contentful-paint" ?. "numericValue" in
  if ToBoolean nv
  then exists x, ToNumber nv = Ok x /\ core_lcp c = Num (div x (of_Z 1000))
  else core_lcp c = Null.
Proof.
  intros H nv. unfold core_metrics in H.
  inv_bind_as H lr0 E. apply Get_GetOpt in E. subst lr0.
  core_gets H.
  inv_bind_as H x Ex. inv_bind_as H l El.
  fold (payload_audit data "largest-contentful-paint") in El.
  fold nv in El.
  assert (Hc : core_lcp c = l).
  { repeat inv_bind H. injection H as <-. reflexivity. }
  rewrite Hc. clear H Hc.
  destruct (ToBoolean nv) eqn:Hb.
  - unfold nv in Hb. rewrite (Get_truthy _ _ Hb) in El. cbn [bind] in El.
    unfold js_div in El. inv_bind_as El y Ey. injection El as <-.
    exists y. split; [assumption | reflexivity].
  - injection El as <-. reflexivity.
Qed.

(** *** The rules, one by one *)

Lemma numeric_reqs_over (v : value) (c : Z) :
  reqs_over v c =
    (o <- numeric v ;;
     Ok (match o with Some x => gtb x (of_Z c) | None => false end)).
Proof.
  unfold reqs_over, numeric, js_gt. destruct (nullish v); cbn [negb bind]; [reflexivity|].
  destruct (ToNumber v); reflexivity.
Qed.

Lemma api_http_requests_shape reqs iss iss' :
  api_http_requests reqs iss = Ok iss' ->
  exists o new, numeric reqs = Ok o /\ iss' = (iss ++ new)%list /\
    map shape new = tagged "http_requests" false [default "B" (requests_tests o)].
Proof.
  unfold api_http_requests. rewrite !numeric_reqs_over.
  destruct (numeric reqs) as [o | e]; cbn [bind]; [| discriminate].
  intros H. exists o. unfold requests_tests, addIssue in *.
  destruct o as [x |].
  - destruct (gtb x (of_Z 90)); [| destruct (gtb x (of_Z 60)); [| destruct (gtb x (of_Z 40))]];
      injection H as <-; eexists; (split; [reflexivity | split; reflexivity]).
  - injection H as <-. eexists. split; [reflexivity | split; reflexivity].
Qed.

Lemma run_http_requests_shape reqs iss iss' :
  run_http_requests reqs iss = Ok iss' ->
  exists o new, numeric reqs = Ok o /\ iss' = (iss ++ new)%list /\
    map shape new = tagged "http_requests" true (option_list (requests_tests o)).
Proof.
  unfold run_http_requests. rewrite !numeric_reqs_over.
  destruct (numeric reqs) as [o | e]; cbn [bind]; [| discriminate].
  intros H. exists o. unfold requests_tests, addIssue in *.
  destruct o as [x |].
  - destruct (gtb x (of_Z 90)); [| destruct (gtb x (of_Z 60)); [| destruct (gtb x (of_Z 40))]];
      injection H as <-;
      first [ exists []; split; [reflexivity | split; [symmetry; apply app_nil_r | reflexivity]]
            | eexists; (split; [reflexivity | split; reflexivity]) ].
  - injection H as <-. exists []. split; [reflexivity | split; [symmetry; apply app_nil_r | reflexivity]].
Qed.

Ltac ladder_cases H :=
  repeat match type of H with
         | context [if ?b then _ else _] => destruct b
         end;
  injection H as <-;
  first [ exists []; split; [reflexivity | split; [symmetry; apply app_nil_r | reflexivity]]
        | eexists; (split; [reflexivity | split; reflexivity]) ].

Lemma api_expires_headers_shape v iss iss' :
  api_expires_headers v iss = Ok iss' ->
  exists o new, numeric v = Ok o /\ iss' = (iss ++ new)%list /\
    map shape new = tagged "expires_headers" false [api_score_grade o].
Proof.
  unfold api_expires_headers, numeric, js_ge.
  destruct (nullish v).
  - intros H. exists None. ladder_cases H.
  - destruct (ToNumber v) as [x | e]; cbn [bind]; [| discriminate].
    intros H. exists (Some x). unfold api_score_grade, score_ladder, addIssue in *.
    ladder_cases H.
Qed.

Lemma api_gzip_shape v iss iss' :
  api_gzip v iss = Ok iss' ->
  exists o new, numeric v = Ok o /\ iss' = (iss ++ new)%list /\
    map shape new = tagged "gzip" false [api_score_grade o].
Proof.
  unfold api_gzip, numeric, js_ge.
  destruct (nullish v).
  - intros H. exists None. ladder_cases H.
  - destruct (ToNumber v) as [x | e]; cbn [bind]; [| discriminate].
    intros H. exists (Some x). unfold api_score_grade, score_ladder, addIssue in *.
    ladder_cases H.
Qed.

Lemma run_expires_headers_shape v iss iss' :
  run_expires_headers v iss = Ok iss' ->
  exists o new, numeric v = Ok o /\ iss' = (iss ++ new)%list /\
    map shape new = tagged "expires_headers" true (run_score_grades o).
Proof.
  unfold run_expires_headers, numeric, below_and_at_least, js_ge, js_lt.
  destruct (nullish v).
  - intros H. exists None. ladder_cases H.
  - destruct (ToNumber v) as [x | e]; cbn [bind]; [| discriminate].
    intros H. exists (Some x). unfold run_score_grades, run_ladder, addIssue in *.
    destruct (ltb x (lit 9 10)), (geb x (lit 7 10)), (ltb x (lit 7 10)),
      (geb x (lit 4 10)), (ltb x (lit 4 10)); cbn [andb bind] in *; ladder_cases H.
Qed.

Lemma run_gzip_shape v iss iss' :
  run_gzip v iss = Ok iss' ->
  exists o new, numeric v = Ok o /\ iss' = (iss ++ new)%list /\
    map shape new = tagged "gzip" true (run_score_grades o).
Proof.
  unfold run_gzip, numeric, below_and_at_least, js_ge, js_lt.
  destruct (nullish v).
  - intros H. exists None. ladder_cases H.
  - destruct (ToNumber v) as [x | e]; cbn [bind]; [| discriminate].
    intros H. exists (Some x). unfold run_score_grades, run_ladder, addIssue in *.
    destruct (ltb x (lit 9 10)), (geb x (lit 7 10)), (ltb x (lit 7 10)),
      (geb x (lit 4 10)), (ltb x (lit 4 10)); cbn [andb bind] in *; ladder_cases H.
Qed.

Lemma api_dns_shape n iss :
  exists new, api_dns n iss = (iss ++ new)%list /\
    map shape new = tagged "dns" false [default "A" (hosts_tier n)].
Proof.
  unfold api_dns, hosts_tier, addIssue.
  destruct (n >? 6); [| destruct (n >? 4); [| destruct (n >? 2)]];
    eexists; (split; reflexivity).
Qed.

Lemma run_dns_shape n iss :
  exists new, run_dns n iss = (iss ++ new)%list /\
    map shape new = tagged "dns" true (option_list (hosts_tier n)).
Proof.
  unfold run_dns, hosts_tier, addIssue.
  destruct (n >? 6); [| destruct (n >? 4); [| destruct (n >? 2)]];
    first [ exists []; split; [symmetry; apply app_nil_r | reflexivity]
          | eexists; (split; reflexivity) ].
Qed.

(** *** The host counter *)

Lemma count_host_item_host originHost seen n it :
  count_host originHost (seen, n) it =
    match item_host it with
    | Some h =>
        if decide (h ∈ seen) then (seen, n)
        else ({[ h ]} ∪ seen, if negb (String.eqb h originHost) then n + 1 else n)
    | None => (seen, n)
    end.
Proof.
  unfold count_host, item_host.
  destruct (u <- Get it "url" ;; new_URL_host u); reflexivity.
Qed.

Lemma external_insert originHost (seen : gset string) h :
  h ∉ seen ->
  external originHost ({[ h ]} ∪ seen) =
    if negb (String.eqb h originHost) then external originHost seen + 1
    else external originHost seen.
Proof.
  intros Hh. unfold external.
  destruct (String.eqb_spec h originHost) as [-> | Hne]; cbn [negb].
  - f_equal. f_equal. set_solver.
  - replace (({[h]} ∪ seen) ∖ {[originHost]}) with ({[h]} ∪ seen ∖ {[originHost]})
      by set_solver.
    rewrite size_union by set_solver. rewrite size_singleton. lia.
Qed.

Lemma omap_item_host_cons it its :
  omap item_host (it :: its) =
    match item_host it with
    | Some h => h :: omap item_host its
    | None => omap item_host its
    end.
Proof. reflexivity. Qed.

Lemma count_hosts_fold originHost (its : list value) :
  forall seen,
    fold_left (count_host originHost) its (seen, external originHost seen) =
      (list_to_set (omap item_host its) ∪ seen,
       external originHost (list_to_set (omap item_host its) ∪ seen)).
Proof.
  induction its as [| it its IH]; intros seen.
  - cbn. f_equal; [| f_equal]; set_solver.
  - cbn [fold_left]. rewrite count_host_item_host, omap_item_host_cons.
    destruct (item_host it) as [h |] eqn:Eh.
    + destruct (decide (h ∈ seen)) as [Hin | Hout].
      * rewrite IH. cbn [list_to_set].
        replace (({[h]} ∪ list_to_set (omap item_host its)) ∪ seen)
          with (list_to_set (omap item_host its) ∪ seen : gset string)
          by set_solver.
        reflexivity.
      * rewrite <- (external_insert originHost seen h Hout).
        rewrite IH. cbn [list_to_set].
        replace (({[h]} ∪ list_to_set (omap item_host its)) ∪ seen)
          with (list_to_set (omap item_host its) ∪ ({[h]} ∪ seen) : gset string)
          by set_solver.
        reflexivity.
    + apply IH.
Qed.

Lemma count_hosts_distinct originHost (its : list value) :
  snd (fold_left (count_host originHost) its (∅, 0)) =
    distinct_external_hosts originHost its.
Proof.
  assert (E : external originHost ∅ = 0).
  { unfold external. replace (∅ ∖ {[originHost]} : gset string) with (∅ : gset string)
      by set_solver. rewrite size_empty. reflexivity. }
  rewrite <- E at 1.
  rewrite count_hosts_fold. cbn [snd]. unfold external, distinct_external_hosts.
  f_equal. f_equal. set_solver.
Qed.

(** *** The issue list as a whole *)

Lemma audit_score_payload data c name :
  core_metrics data = Ok c ->
  String.eqb name "length" = false ->
  audit_score (audits c) name = Ok (payload_audit data name ?. "score").
Proof.
  intros Hc Hn. unfold audit_score.
  rewrite (core_metrics_audits _ _ _ Hc Hn). reflexivity.
Qed.

Lemma count_external_hosts_payload data c url :
  core_metrics data = Ok c ->
  count_external_hosts (audits c) url =
    (originHost <- new_URL_host url ;;
     its <- iterate (network_items data ?? Arr []) ;;
     Ok (distinct_external_hosts originHost its)).
Proof.
  intros Hc. unfold count_external_hosts.
  rewrite (core_metrics_audits _ _ "network-requests" Hc eq_refl). cbn [bind].
  fold (network_items data).
  destruct (new_URL_host url) as [originHost | e]; cbn [bind]; [| reflexivity].
  destruct (iterate (network_items data ?? Arr [])) as [its | e]; cbn [bind]; [| reflexivity].
  rewrite count_hosts_distinct. reflexivity.
Qed.

(** What a summary of [src/api/run.js] holds, in terms of the payload. *)
Lemma api_transform_shape data url s :
  api_transform data url = Ok s ->
  exists c o1 o2 o3 originHost its,
    core_metrics data = Ok c /\
    s = summary c (issues s) /\
    numeric (network_items data ?. "length" ?? Null) = Ok o1 /\
    numeric (payload_audit data "uses-long-cache-ttl" ?. "score") = Ok o2 /\
    numeric (payload_audit data "uses-text-compression" ?. "score") = Ok o3 /\
    new_URL_host url = Ok originHost /\
    iterate (network_items data ?? Arr []) = Ok its /\
    map shape (issues s) =
      (tagged "http_requests" false [default "B" (requests_tests o1)]
       ++ tagged "expires_headers" false [api_score_grade o2]
       ++ tagged "gzip" false [api_score_grade o3]
       ++ tagged "dns" false [default "A" (hosts_tier (distinct_external_hosts originHost its))]
       ++ [("cookies", "B", false); ("empty_src", "A", false)])%list.
Proof.
  intros H. unfold api_transform in H.
  inv_bind_as H c Hc. inv_bind_as H iss Hi. injection H as <-.
  unfold api_grade_issues in Hi.
  inv_bind_as Hi i1 H1. apply api_http_requests_shape in H1 as (o1 & n1 & Ho1 & -> & S1).
  rewrite (core_metrics_reqs _ _ Hc) in Ho1.
  rewrite (audit_score_payload _ _ "uses-long-cache-ttl" Hc eq_refl) in Hi. cbn [bind] in Hi.
  inv_bind_as Hi i2 H2. apply api_expires_headers_shape in H2 as (o2 & n2 & Ho2 & -> & S2).
  rewrite (audit_score_payload _ _ "uses-text-compression" Hc eq_refl) in Hi. cbn [bind] in Hi.
  inv_bind_as Hi i3 H3. apply api_gzip_shape in H3 as (o3 & n3 & Ho3 & -> & S3).
  rewrite (count_external_hosts_payload _ _ _ Hc) in Hi.
  inv_bind_as Hi n Hn. inv_bind_as Hn originHost Hh. inv_bind_as Hn its Hits.
  injection Hn as <-. injection Hi as <-.
  match goal with
  | |- context [api_dns ?n ?l] => destruct (api_dns_shape n l) as (n4 & E4 & S4); rewrite E4
  end.
  exists c, o1, o2, o3, originHost, its.
  repeat (split; [first [assumption | reflexivity] |]).
  cbn [issues summary]. unfold addIssue.
  rewrite !map_app, S1, S2, S3, S4. cbn [map shape key grade tip app].
  rewrite <- !app_assoc. reflexivity.
Qed.

(** The same for [src/run.js]. *)
Lemma run_transform_shape data url s :
  run_transform data url = Ok s ->
  exists c o1 o2 o3 originHost its,
    core_metrics data = Ok c /\
    s = summary c (issues s) /\
    numeric (network_items data ?. "length" ?? Null) = Ok o1 /\
    numeric (payload_audit data "uses-long-cache-ttl" ?. "score") = Ok o2 /\
    numeric (payload_audit data "uses-text-compression" ?. "score") = Ok o3 /\
    new_URL_host url = Ok originHost /\
    iterate (network_items data ?? Arr []) = Ok its /\
    map shape (issues s) =
      (tagged "http_requests" true (option_list (requests_tests o1))
       ++ tagged "expires_headers" true (run_score_grades o2)
       ++ tagged "gzip" true (run_score_grades o3)
       ++ tagged "dns" true (option_list (hosts_tier (distinct_external_hosts originHost its)))
       ++ [("cookies", "B", true); ("empty_src", "A", true)])%list.
Proof.
  intros H. unfold run_transform in H.
  inv_bind_as H c Hc. inv_bind_as H iss Hi. injection H as <-.
  unfold run_grade_issues in Hi.
  inv_bind_as Hi i1 H1. apply run_http_requests_shape in H1 as (o1 & n1 & Ho1 & -> & S1).
  rewrite (core_metrics_reqs _ _ Hc) in Ho1.
  rewrite (audit_score_payload _ _ "uses-long-cache-ttl" Hc eq_refl) in Hi. cbn [bind] in Hi.
  inv_bind_as Hi i2 H2. apply run_expires_headers_shape in H2 as (o2 & n2 & Ho2 & -> & S2).
  rewrite (audit_score_payload _ _ "uses-text-compression" Hc eq_refl) in Hi. cbn [bind] in Hi.
  inv_bind_as Hi i3 H3. apply run_gzip_shape in H3 as (o3 & n3 & Ho3 & -> & S3).
  rewrite (count_external_hosts_payload _ _ _ Hc) in Hi.
  inv_bind_as Hi n Hn. inv_bind_as Hn originHost Hh. inv_bind_as Hn its Hits.
  injection Hn as <-. injection Hi as <-.
  match goal with
  | |- context [run_dns ?n ?l] => destruct (run_dns_shape n l) as (n4 & E4 & S4); rewrite E4
  end.
  exists c, o1, o2, o3, originHost, its.
  repeat (split; [first [assumption | reflexivity] |]).
  cbn [issues summary]. unfold addIssue.
  rewrite !map_app, S1, S2, S3, S4. cbn [map shape key grade tip app].
  rewrite <- !app_assoc. reflexivity.
Qed.

Lemma grades_of_shape k iss :
  grades_of k iss =
    map (fun sh => snd (fst sh))
      (List.filter (fun sh => String.eqb (fst (fst sh)) k) (map shape iss)).
Proof.
  unfold grades_of. induction iss as [| i iss IH]; [reflexivity |].
  cbn [map List.filter shape fst snd].
  destruct (String.eqb (key i) k); cbn [map fst snd]; rewrite IH; reflexivity.
Qed.

Lemma filter_tagged k k' b gs :
  List.filter (fun sh => String.eqb (fst (fst sh)) k) (tagged k' b gs) =
    if String.eqb k' k then tagged k' b gs else [].
Proof.
  unfold tagged. induction gs as [| g gs IH]; cbn [map List.filter fst].
  - destruct (String.eqb k' k); reflexivity.
  - rewrite IH. destruct (String.eqb k' k); reflexivity.
Qed.

Lemma grades_tagged k b gs :
  map (fun sh : string * string * bool => snd (fst sh)) (tagged k b gs) = gs.
Proof.
  unfold tagged. rewrite map_map. cbn [fst snd]. apply map_id.
Qed.

(** The grades under a key, read off the shape of the list. *)
Ltac grades_by S :=
  rewrite grades_of_shape, S, ?List.filter_app, ?filter_tagged;
  cbn [String.eqb Ascii.eqb Bool.eqb List.filter fst snd app map];
  rewrite ?app_nil_r, ?grades_tagged.

(** *** When the transform returns *)

Lemma plain_own_property k props w :
  forallb (fun p => plain (snd p)) props = true ->
  own_property k props = Some w -> plain w = true.
Proof.
  induction props as [| [k' v] props IH]; cbn [own_property forallb snd]; [discriminate |].
  intros H. apply andb_prop in H as [Hv Hrest].
  destruct (own_property k props) as [w' |] eqn:E.
  - intros [= <-]. apply IH; [assumption | reflexivity].
  - destruct (String.eqb k k'); [| discriminate]. intros [= <-]. exact Hv.
Qed.

Lemma plain_GetOpt v k : plain v = true -> plain (v ?. k) = true.
Proof.
  unfold GetOpt. destruct v as [| | b | x | s | l | props]; cbn [Get]; try reflexivity.
  - destruct (String.eqb k "length"); reflexivity.
  - destruct (String.eqb k "length"); reflexivity.
  - cbn [plain]. destruct (own_property "toString" props); [discriminate |].
    intros H. destruct (own_property k props) as [w |] eqn:E; cbn [default]; [| reflexivity].
    eapply plain_own_property; eassumption.
Qed.

Lemma plain_ToString : forall v, plain v = true -> exists s, ToString v = Ok s.
Proof.
  fix IH 1. intros v. destruct v as [| | b | x | s | l | props]; cbn [plain ToString].
  - eauto.
  - eauto.
  - destruct b; eauto.
  - eauto.
  - eauto.
  - induction l as [| x rest IHl]; cbn [forallb]; [eauto |].
    intros H. apply andb_prop in H as [Hx Hrest].
    destruct (IHl Hrest) as [r Hr].
    assert (Hs : exists s, (if nullish x then Ok "" else ToString x) = Ok s).
    { destruct (nullish x); [eauto | apply IH, Hx]. }
    destruct Hs as [s ->]. cbn [bind].
    destruct rest; [eauto |]. rewrite Hr. cbn [bind]. eauto.
  - destruct (own_property "toString" props); [discriminate | eauto].
Qed.


Lemma plain_ToNumber v : plain v = true -> exists x, ToNumber v = Ok x.
Proof.
  intros H. destruct (plain_ToString v H) as [s Hs].
  destruct v as [| | b | x | t | l | props]; cbn [ToNumber]; try (destruct b); eauto;
    rewrite Hs; cbn [bind]; eauto.
Qed.

Lemma plain_coalesce a b : plain a = true -> plain b = true -> plain (a ?? b) = true.
Proof. unfold coalesce. destruct (nullish a); auto. Qed.

Lemma Get_nonnullish v k : nullish v = false -> Get v k = Ok (v ?. k).
Proof.
  unfold GetOpt. destruct v; cbn [nullish Get]; (discriminate || reflexivity).
Qed.

Ltac plain_solve := repeat first [assumption | reflexivity | apply plain_coalesce | apply plain_GetOpt].

Ltac ok_number :=
  match goal with
  | |- context [ToNumber ?v] =>
      let x := fresh "x" in
      let E := fresh "E" in
      destruct (plain_ToNumber v) as [x E]; [plain_solve | rewrite E; cbn [bind]]
  end.

Ltac ok_gets :=
  unfold numericValue, seconds, audit_score, js_div;
  repeat (rewrite ?Get_or_else by reflexivity; cbn [bind]).

Ltac ok_step :=
  cbn [bind];
  match goal with
  | |- context [bind (if ToBoolean ?v then _ else _) _] =>
      let B := fresh "B" in
      destruct (ToBoolean v) eqn:B; [try rewrite (Get_truthy _ _ B) |]
  | |- context [bind (if nullish ?v then _ else _) _] => destruct (nullish v)
  | |- context [ToNumber ?v] => ok_number
  end.

Lemma core_metrics_returns data :
  nullish data = false -> plain data = true -> exists c, core_metrics data = Ok c.
Proof.
  intros Hn Hp. unfold core_metrics.
  rewrite (Get_nonnullish _ _ Hn). cbn [bind]. ok_gets.
  repeat ok_step; eexists; reflexivity.
Qed.

Lemma numeric_returns v : plain v = true -> exists o, numeric v = Ok o.
Proof.
  intros H. unfold numeric. destruct (nullish v); [eauto |].
  destruct (plain_ToNumber v H) as [x ->]. cbn [bind]. eauto.
Qed.

Lemma rules_return v iss :
  plain v = true ->
  (exists i, api_http_requests v iss = Ok i) /\
  (exists i, run_http_requests v iss = Ok i) /\
  (exists i, api_expires_headers v iss = Ok i) /\
  (exists i, run_expires_headers v iss = Ok i) /\
  (exists i, api_gzip v iss = Ok i) /\
  (exists i, run_gzip v iss = Ok i).
Proof.
  intros H. destruct (plain_ToNumber v H) as [x Hx].
  unfold api_http_requests, run_http_requests, api_expires_headers, run_expires_headers,
    api_gzip, run_gzip, reqs_over, below_and_at_least, js_gt, js_ge, js_lt.
  rewrite !Hx. cbn [bind].
  repeat split;
    repeat match goal with
           | |- context [if ?b then _ else _] => destruct b; cbn [negb bind]
           end; eauto.
Qed.

(** The transform returns a summary for every payload that is not [null],
    has no [toString] key of its own anywhere, and whose items can be
    iterated, when the target url parses. *)
Lemma transform_returns data url h its :
  nullish data = false -> plain data = true ->
  new_URL_host url = Ok h ->
  iterate (network_items data ?? Arr []) = Ok its ->
  (exists s, api_transform data url = Ok s) /\
  (exists s, run_transform data url = Ok s).
Proof.
  intros Hn Hp Hh Hits.
  destruct (core_metrics_returns data Hn Hp) as [c Hc].
  assert (Hr : plain (reqs c) = true).
  { rewrite (core_metrics_reqs _ _ Hc). unfold network_items, payload_audit. plain_solve. }
  assert (Hs : forall name, plain (payload_audit data name ?. "score") = true).
  { intros name. unfold payload_audit. plain_solve. }
  unfold api_transform, run_transform, api_grade_issues, run_grade_issues.
  rewrite Hc. cbn [bind].
  rewrite !(audit_score_payload _ _ "uses-long-cache-ttl" Hc eq_refl).
  rewrite !(audit_score_payload _ _ "uses-text-compression" Hc eq_refl).
  rewrite !(count_external_hosts_payload _ _ _ Hc), Hh, Hits. cbn [bind].
  destruct (rules_return (reqs c) [] Hr) as ([i1 ->] & [j1 ->] & _). cbn [bind].
  destruct (rules_return _ i1 (Hs "uses-long-cache-ttl")) as (_ & _ & [i2 ->] & _).
  destruct (rules_return _ j1 (Hs "uses-long-cache-ttl")) as (_ & _ & _ & [j2 ->] & _).
  cbn [bind].
  destruct (rules_return _ i2 (Hs "uses-text-compression")) as (_ & _ & _ & _ & [i3 ->] & _).
  destruct (rules_return _ j2 (Hs "uses-text-compression")) as (_ & _ & _ & _ & _ & [j3 ->]).
  cbn [bind]. split; eexists; reflexivity.
Qed.

(** *** Reading the grades and the metrics off a summary *)

Lemma numeric_cases v o :
  numeric v = Ok o ->
  if nullish v then o = None else exists x, ToNumber v = Ok x /\ o = Some x.
Proof.
  unfold numeric. destruct (nullish v).
  - intros [= <-]. reflexivity.
  - destruct (ToNumber v) as [x | e]; cbn [bind]; [| discriminate].
    intros [= <-]. exists x. split; reflexivity.
Qed.

Lemma distinct_external_hosts_same originHost its :
  Forall (fun it => item_host it = Some originHost) its ->
  distinct_external_hosts originHost its = 0.
Proof.
  intros Hall. unfold distinct_external_hosts.
  assert (Hsub : (list_to_set (omap item_host its) : gset string) ⊆ {[ originHost ]}).
  { induction Hall as [| it its Hit _ IH]; [set_solver |].
    rewrite omap_item_host_cons, Hit. cbn [list_to_set]. set_solver. }
  replace ((list_to_set (omap item_host its) : gset string) ∖ {[ originHost ]})
    with (∅ : gset string) by set_solver.
  rewrite size_empty. reflexivity.
Qed.

Lemma requests_tests_of_Z (n : Z) :
  0 <= n -> requests_tests (Some (of_Z n)) = requests_tier n.
Proof.
  intros Hn. unfold requests_tests, requests_tier.
  rewrite !gtb_of_Z by first [assumption | split; [lia | reflexivity]].
  reflexivity.
Qed.

Lemma transform_core data url s :
  api_transform data url = Ok s \/ run_transform data url = Ok s ->
  exists c, core_metrics data = Ok c /\ s = summary c (issues s).
Proof.
  intros [H | H].
  - apply api_transform_shape in H as (c & _ & _ & _ & _ & _ & Hc & Hs & _).
    exists c. split; assumption.
  - apply run_transform_shape in H as (c & _ & _ & _ & _ & _ & Hc & Hs & _).
    exists c. split; assumption.
Qed.

Lemma keys_of_shape iss :
  map key iss = map (fun sh : string * string * bool => fst (fst sh)) (map shape iss).
Proof. rewrite map_map. reflexivity. Qed.

Lemma keys_tagged k b gs :
  map (fun sh : string * string * bool => fst (fst sh)) (tagged k b gs) =
    map (fun _ => k) gs.
Proof. unfold tagged. rewrite map_map. reflexivity. Qed.

Lemma tipped_tagged k b gs :
  Forall (fun sh : string * string * bool => snd sh = b) (tagged k b gs).
Proof.
  unfold tagged. induction gs as [| g gs IH]; cbn [map]; constructor;
    [reflexivity | assumption].
Qed.

Lemma tips_of_shape (b : bool) iss :
  Forall (fun sh : string * string * bool => snd sh = b) (map shape iss) ->
  Forall (fun i => (if b then tip i <> None else tip i = None)) iss.
Proof.
  induction iss as [| i iss IH]; cbn [map]; intros H; [constructor |].
  apply List.Forall_cons_iff in H as [Hi H]. constructor; [| apply IH; assumption].
  unfold shape in Hi. cbn [snd] in Hi.
  destruct (tip i), b; try discriminate; congruence.
Qed.

Lemma requests_tests_not_B o : requests_tests o <> Some "B".
Proof.
  unfold requests_tests. destruct o as [x |]; [| discriminate].
  destruct (gtb x (of_Z 90)); [discriminate |].
  destruct (gtb x (of_Z 60)); [discriminate |].
  destruct (gtb x (of_Z 40)); discriminate.
Qed.

Lemma hosts_tier_not_A n : hosts_tier n <> Some "A".
Proof.
  unfold hosts_tier.
  destruct (n >? 6); [discriminate |].
  destruct (n >? 4); [discriminate |].
  destruct (n >? 2); discriminate.
Qed.

Lemma passing_score_no_issue o :
  api_score_grade o = "A" -> run_score_grades o = [].
Proof.
  destruct o as [x |]; cbn [api_score_grade run_score_grades]; [| discriminate].
  rewrite run_ladder_spec. unfold score_ladder, score_ladder_below_passing.
  destruct (geb x (lit 9 10)); [reflexivity |].
  destruct (geb x (lit 7 10)); [discriminate |].
  destruct (geb x (lit 4 10)); discriminate.
Qed.

Lemma api_issues_keys data url sa :
  api_transform data url = Ok sa ->
  map key (issues sa) =
    ["http_requests"; "expires_headers"; "gzip"; "dns"; "cookies"; "empty_src"]
  /\ Forall (fun i => tip i = None) (issues sa).
Proof.
  intros Ha.
  apply api_transform_shape in Ha
    as (c & o1 & o2 & o3 & h & its & _ & _ & _ & _ & _ & _ & _ & Sa).
  split.
  - rewrite keys_of_shape, Sa, !map_app, !keys_tagged. reflexivity.
  - apply (tips_of_shape false). rewrite Sa.
    repeat (apply Forall_app; split; [apply tipped_tagged |]).
    repeat constructor.
Qed.

Lemma run_issues_tips data url sr :
  run_transform data url = Ok sr ->
  Forall (fun i => tip i <> None) (issues sr) /\ issues sr <> [].
Proof.
  intros Hr.
  apply run_transform_shape in Hr
    as (c & o1 & o2 & o3 & h & its & _ & _ & _ & _ & _ & _ & _ & Sr).
  split.
  - apply (tips_of_shape true). rewrite Sr.
    repeat (apply Forall_app; split; [apply tipped_tagged |]).
    repeat constructor.
  - intros E. rewrite E in Sr.
    apply (f_equal (@length _)) in Sr. rewrite !length_app in Sr.
    cbn [map length] in Sr. lia.
Qed.

(** *** The handler *)

Lemma Get_body_url (req : Request) :
  Get (or_else (body req) (Obj [])) "url" = Ok (body_url req).
Proof. apply Get_or_else. reflexivity. Qed.

(** A POST with a url, an upstream success and a payload the transform
    accepts is answered with 200 and the summary. *)
Lemma handler_sends_summary
    (transform : value -> value -> result AuditSummary)
    (env : Env) (req : Request) (u : URL) (r : FetchResponse)
    (data : value) (s : AuditSummary) :
  method req = "POST" ->
  ToBoolean (body_url req) = true ->
  psiURL env (body_url req) = Ok u ->
  fetch env u = Ok r ->
  r_ok r = true ->
  r_json r = Ok data ->
  transform data (body_url req) = Ok s ->
  let out := handler transform env req in
  statusCode (response out) = 200 /\
  sent (response out) = sent_json (summary_json s) /\
  effects out = [fetched u].
Proof.
  intros Hm Hu Hpsi Hf Hok Hj Ht out. unfold out, handler, try_block.
  rewrite Hm, Get_body_url, Hu, Hpsi, Hf. cbn [String.eqb Ascii.eqb Bool.eqb negb bind].
  rewrite Hok, Hj. cbn [negb bind]. rewrite Ht.
  cbn [bind effects response statusCode sent json status].
  repeat split.
Qed.

Lemma handler_summary
    (transform : value -> value -> result AuditSummary)
    (env : Env) (req : Request) (s : AuditSummary) :
  sent (response (handler transform env req)) = sent_json (summary_json s) ->
  statusCode (response (handler transform env req)) = 200 /\
  exists data, transform data (body_url req) = Ok s.
Proof.
  unfold handler, try_block.
  destruct (String.eqb (method req) "OPTIONS"); [discriminate |].
  destruct (negb (String.eqb (method req) "POST")); [discriminate |].
  rewrite Get_body_url.
  destruct (negb (ToBoolean (body_url req))); [discriminate |].
  destruct (psiURL env (body_url req)) as [u | e]; [| discriminate].
  destruct (fetch env u) as [r | e]; cbn [bind]; [| discriminate].
  destruct (negb (r_ok r)).
  - destruct (r_text r); discriminate.
  - destruct (r_json r) as [data | e]; cbn [bind]; [| discriminate].
    destruct (transform data (body_url req)) as [s' | e] eqn:Et; [| discriminate].
    cbn [response sent statusCode json status]. intros [= <-].
    split; [reflexivity | exists data; exact Et].
Qed.

(** ** The claims *)

(** C1, as amended.  The [expires_headers] issue is graded from the score
    of the [uses-long-cache-ttl] audit: a missing score gives C in both
    files; otherwise [src/api/run.js] files the grade of the ladder
    (>= 0.9 A, >= 0.7 B, >= 0.4 C, else D), and [src/run.js] files the
    same grade below 0.9 and no issue at 0.9 and above. *)
Theorem C1_expires_headers_ladder (data url : value) :
  let v := payload_audit data "uses-long-cache-ttl" ?. "score" in
  (forall s, api_transform data url = Ok s ->
     if nullish v then grades_of "expires_headers" (issues s) = ["C"]
     else exists x, ToNumber v = Ok x /\
            grades_of "expires_headers" (issues s) = [score_ladder x]) /\
  (forall s, run_transform data url = Ok s ->
     if nullish v then grades_of "expires_headers" (issues s) = ["C"]
     else exists x, ToNumber v = Ok x /\
            grades_of "expires_headers" (issues s) = score_ladder_below_passing x).
Proof.
  intros v. split; intros s H.
  - apply api_transform_shape in H
      as (c & o1 & o2 & o3 & h & its & _ & _ & _ & Ho2 & _ & _ & _ & S).
    apply numeric_cases in Ho2. fold v in Ho2.
    destruct (nullish v).
    + subst o2. grades_by S. reflexivity.
    + destruct Ho2 as (x & Hx & ->). exists x. split; [assumption |].
      grades_by S. reflexivity.
  - apply run_transform_shape in H
      as (c & o1 & o2 & o3 & h & its & _ & _ & _ & Ho2 & _ & _ & _ & S).
    apply numeric_cases in Ho2. fold v in Ho2.
    destruct (nullish v).
    + subst o2. grades_by S. reflexivity.
    + destruct Ho2 as (x & Hx & ->). exists x. split; [assumption |].
      grades_by S. cbn [run_score_grades]. apply run_ladder_spec.
Qed.

(** C2, as amended.  The [dns] issue is graded on the number of distinct
    hosts among the items' urls other than the target's host, an item
    whose url does not parse being skipped: more than 6 gives D, more
    than 4 C, more than 2 B; otherwise [src/api/run.js] files grade A and
    [src/run.js] files no [dns] issue.  Without a [network-requests]
    audit [requests] is [null] and that last case applies. *)
Theorem C2_dns_grade (data url : value) :
  let items := network_items data ?? Arr [] in
  (forall s, api_transform data url = Ok s ->
     exists originHost its,
       new_URL_host url = Ok originHost /\ iterate items = Ok its /\
       grades_of "dns" (issues s) =
         [default "A" (hosts_tier (distinct_external_hosts originHost its))] /\
       (nullish (payload_audit data "network-requests") = true ->
        requests s = Null /\ grades_of "dns" (issues s) = ["A"])) /\
  (forall s, run_transform data url = Ok s ->
     exists originHost its,
       new_URL_host url = Ok originHost /\ iterate items = Ok its /\
       grades_of "dns" (issues s) =
         option_list (hosts_tier (distinct_external_hosts originHost its)) /\
       (nullish (payload_audit data "network-requests") = true ->
        requests s = Null /\ grades_of "dns" (issues s) = [])).
Proof.
  intros items.
  assert (Habsent : nullish (payload_audit data "network-requests") = true ->
                    network_items data = Undefined).
  { unfold network_items. destruct (payload_audit data "network-requests");
      (discriminate || reflexivity). }
  split; intros s H.
  - apply api_transform_shape in H
      as (c & o1 & o2 & o3 & h & its & Hc & Hs & _ & _ & _ & Hh & Hits & S).
    exists h, its. fold items in Hits.
    assert (G : grades_of "dns" (issues s) =
                [default "A" (hosts_tier (distinct_external_hosts h its))]).
    { grades_by S. reflexivity. }
    repeat (split; [assumption |]).
    intros Hn. specialize (Habsent Hn). split.
    + rewrite Hs. cbn [requests summary].
      rewrite (core_metrics_reqs _ _ Hc), Habsent. reflexivity.
    + rewrite G. unfold items in Hits. rewrite Habsent in Hits.
      injection Hits as <-.
      rewrite (distinct_external_hosts_same h [] (List.Forall_nil _)). reflexivity.
  - apply run_transform_shape in H
      as (c & o1 & o2 & o3 & h & its & Hc & Hs & _ & _ & _ & Hh & Hits & S).
    exists h, its. fold items in Hits.
    assert (G : grades_of "dns" (issues s) =
                option_list (hosts_tier (distinct_external_hosts h its))).
    { grades_by S. reflexivity. }
    repeat (split; [assumption |]).
    intros Hn. specialize (Habsent Hn). split.
    + rewrite Hs. cbn [requests summary].
      rewrite (core_metrics_reqs _ _ Hc), Habsent. reflexivity.
    + rewrite G. unfold items in Hits. rewrite Habsent in Hits.
      injection Hits as <-.
      rewrite (distinct_external_hosts_same h [] (List.Forall_nil _)). reflexivity.
Qed.

(** C3, as amended.  With [n] items in the [network-requests] audit,
    [requests] is [n] and the [http_requests] issue is graded F when
    [n > 90], D when [n > 60], C when [n > 40] (below that
    [src/api/run.js] files B and [src/run.js] nothing).  When every item
    has the host of the target url, [src/api/run.js] files a [dns] issue
    of grade A and [src/run.js] files no [dns] issue. *)
Theorem C3_http_requests_grade (data url : value) (l : list value) :
  network_items data = Arr l ->
  let n := Z.of_nat (length l) in
  (forall s, api_transform data url = Ok s ->
     requests s = Num (of_Z n) /\
     grades_of "http_requests" (issues s) = [default "B" (requests_tier n)] /\
     (forall h, new_URL_host url = Ok h ->
                Forall (fun it => item_host it = Some h) l ->
                grades_of "dns" (issues s) = ["A"])) /\
  (forall s, run_transform data url = Ok s ->
     requests s = Num (of_Z n) /\
     grades_of "http_requests" (issues s) = option_list (requests_tier n) /\
     (forall h, new_URL_host url = Ok h ->
                Forall (fun it => item_host it = Some h) l ->
                grades_of "dns" (issues s) = [])).
Proof.
  intros Hl n.
  assert (Hlen : network_items data ?. "length" ?? Null = Num (of_Z n)).
  { rewrite Hl. reflexivity. }
  assert (Hnum : forall o, numeric (network_items data ?. "length" ?? Null) = Ok o ->
                           requests_tests o = requests_tier n).
  { intros o. rewrite Hlen. intros [= <-]. apply requests_tests_of_Z. lia. }
  split; intros s H.
  - apply api_transform_shape in H
      as (c & o1 & o2 & o3 & h & its & Hc & Hs & Ho1 & _ & _ & Hh & Hits & S).
    split; [| split].
    + rewrite Hs. cbn [requests summary].
      rewrite (core_metrics_reqs _ _ Hc). exact Hlen.
    + grades_by S. rewrite (Hnum _ Ho1). reflexivity.
    + intros h' Hh' Hall. rewrite Hh in Hh'. injection Hh' as <-.
      rewrite Hl in Hits. injection Hits as <-.
      grades_by S. rewrite (distinct_external_hosts_same _ _ Hall). reflexivity.
  - apply run_transform_shape in H
      as (c & o1 & o2 & o3 & h & its & Hc & Hs & Ho1 & _ & _ & Hh & Hits & S).
    split; [| split].
    + rewrite Hs. cbn [requests summary].
      rewrite (core_metrics_reqs _ _ Hc). exact Hlen.
    + grades_by S. rewrite (Hnum _ Ho1). reflexivity.
    + intros h' Hh' Hall. rewrite Hh in Hh'. injection Hh' as <-.
      rewrite Hl in Hits. injection Hits as <-.
      grades_by S. rewrite (distinct_external_hosts_same _ _ Hall). reflexivity.
Qed.

(** C4.  A POST with a url whose upstream call answers with a non-success
    status [s] is answered with status [s] and the upstream's body text
    as [detail]; the answer is the same whatever the transform (that of
    [src/api/run.js], that of [src/run.js], or any other) and whatever the
    upstream's JSON, and one upstream call was made. *)
Theorem C4_upstream_error_forwarded
    (transform : value -> value -> result AuditSummary)
    (env : Env) (req : Request) (u : URL) (r : FetchResponse) (txt : string) :
  method req = "POST" ->
  ToBoolean (body_url req) = true ->
  psiURL env (body_url req) = Ok u ->
  fetch env u = Ok r ->
  r_ok r = false ->
  r_text r = Ok txt ->
  let out := handler transform env req in
  statusCode (response out) = r_status r /\
  sent (response out) = sent_json (error_json "PSI error" (detail_text txt)) /\
  effects out = [fetched u].
Proof.
  intros Hm Hu Hpsi Hf Hok Ht out. unfold out, handler, try_block.
  rewrite Hm, Get_body_url, Hu, Hpsi, Hf. cbn [String.eqb Ascii.eqb Bool.eqb negb bind].
  rewrite Hok, Ht. cbn [negb bind effects response statusCode sent json status].
  repeat split.
Qed.

(** C5.  In both files the summary's [score] is the performance
    category's score times 100 (the binary64 product), rounded to the
    nearest integer (the larger one on a tie), and 0 when that score is
    absent. *)
Theorem C5_score_rounded (data url : value) (s : AuditSummary) :
  api_transform data url = Ok s \/ run_transform data url = Ok s ->
  let p := performance_score data in
  if nullish p then score s = Num (of_Z 0)
  else exists x, ToNumber p = Ok x /\
         score s = Num (Math_round (mul x (of_Z 100))) /\
         nearest_integer (mul x (of_Z 100)) (Math_round (mul x (of_Z 100))).
Proof.
  intros H p. apply transform_core in H as (c & Hc & ->). cbn [score summary].
  apply core_metrics_score in Hc as (x & Hx & ->). fold p in Hx.
  unfold coalesce in Hx. destruct (nullish p).
  - injection Hx as <-. reflexivity.
  - exists x. split; [assumption | split; [reflexivity |]].
    apply Math_round_nearest. intros sg m e. apply mul_bounded.
Qed.

(** C6, as amended.  In both files the summary's [lcp] is the
    [largest-contentful-paint] audit's [numericValue] divided by 1000
    when that value is present and not zero, and [null] when it is
    absent or zero. *)
Theorem C6_lcp_seconds (data url : value) (s : AuditSummary) :
  api_transform data url = Ok s \/ run_transform data url = Ok s ->
  let nv := payload_audit data "largest-contentful-paint" ?. "numericValue" in
  if ToBoolean nv
  then exists x, ToNumber nv = Ok x /\ lcp s = Num (div x (of_Z 1000))
  else lcp s = Null.
Proof.
  intros H nv. apply transform_core in H as (c & Hc & ->). cbn [lcp summary].
  exact (core_metrics_lcp _ _ Hc).
Qed.

(** C7.  A request whose method is neither POST nor OPTIONS is answered
    with 405 and the fixed error payload; a POST whose body has no url,
    or an empty one (a url that is falsy: [undefined], [null], the empty
    string), is answered with 400.  Neither calls the upstream, and both
    hold for the handler of either file. *)
Theorem C7_method_and_body_validation
    (transform : value -> value -> result AuditSummary)
    (env : Env) (req : Request) :
  let out := handler transform env req in
  (method req <> "POST" -> method req <> "OPTIONS" ->
     statusCode (response out) = 405 /\
     sent (response out) = sent_json (error_json "Use POST { url }" no_detail) /\
     effects out = []) /\
  (method req = "POST" -> ToBoolean (body_url req) = false ->
     statusCode (response out) = 400 /\
     sent (response out) = sent_json (error_json "Missing url" no_detail) /\
     effects out = []).
Proof.
  intros out. unfold out, handler, try_block. split.
  - intros Hp Ho.
    apply String.eqb_neq in Hp. apply String.eqb_neq in Ho.
    rewrite Ho, Hp. cbn [negb effects response statusCode sent json status].
    repeat split.
  - intros Hp Hu.
    rewrite Hp, Get_body_url, Hu.
    cbn [String.eqb Ascii.eqb Bool.eqb negb effects response statusCode sent json status].
    repeat split.
Qed.

(** C8.  A request with method OPTIONS is answered with status 200 and no
    body, whatever its origin and body and whatever the upstream would
    do, and nothing else is done: no upstream call, and the answer does
    not depend on the transform (so it holds for the handler of either
    file). *)
Theorem C8_options_short_circuit
    (transform : value -> value -> result AuditSummary)
    (env : Env) (req : Request) :
  method req = "OPTIONS" ->
  let out := handler transform env req in
  statusCode (response out) = 200 /\
  sent (response out) = ended /\
  effects out = [].
Proof.
  intros Hm out. unfold out, handler. rewrite Hm.
  cbn [String.eqb Ascii.eqb Bool.eqb effects response statusCode sent end_ status].
  repeat split.
Qed.

(** C9.  The two files disagree.  [src/api/run.js] files exactly one
    issue per rule, six in all, none with a tip; [src/run.js] gives every
    issue it files a tip and files none where the other file grades a
    rule at its passing grade (B for [http_requests], A for
    [expires_headers], [gzip] and [dns]); so on every payload both
    transform the two issue lists differ, and such a payload exists as
    soon as some string parses as a URL. *)
Theorem C9_variants_inconsistent :
  (forall data url sa,
     api_transform data url = Ok sa ->
     map key (issues sa) =
       ["http_requests"; "expires_headers"; "gzip"; "dns"; "cookies"; "empty_src"] /\
     length (issues sa) = 6%nat /\
     Forall (fun i => tip i = None) (issues sa)) /\
  (forall data url sr,
     run_transform data url = Ok sr ->
     Forall (fun i => tip i <> None) (issues sr)) /\
  (forall data url sa sr,
     api_transform data url = Ok sa -> run_transform data url = Ok sr ->
     (grades_of "http_requests" (issues sa) = ["B"] ->
      grades_of "http_requests" (issues sr) = []) /\
     (grades_of "expires_headers" (issues sa) = ["A"] ->
      grades_of "expires_headers" (issues sr) = []) /\
     (grades_of "gzip" (issues sa) = ["A"] ->
      grades_of "gzip" (issues sr) = []) /\
     (grades_of "dns" (issues sa) = ["A"] ->
      grades_of "dns" (issues sr) = []) /\
     issues sa <> issues sr) /\
  ((exists u h, URL_host u = Some h) ->
   exists data url sa sr,
     api_transform data url = Ok sa /\ run_transform data url = Ok sr /\
     issues sa <> issues sr).
Proof.
  assert (Hall : forall data url sa sr,
     api_transform data url = Ok sa -> run_transform data url = Ok sr ->
     (grades_of "http_requests" (issues sa) = ["B"] ->
      grades_of "http_requests" (issues sr) = []) /\
     (grades_of "expires_headers" (issues sa) = ["A"] ->
      grades_of "expires_headers" (issues sr) = []) /\
     (grades_of "gzip" (issues sa) = ["A"] ->
      grades_of "gzip" (issues sr) = []) /\
     (grades_of "dns" (issues sa) = ["A"] ->
      grades_of "dns" (issues sr) = []) /\
     issues sa <> issues sr).
  { intros data url sa sr Ha Hr.
    destruct (api_issues_keys _ _ _ Ha) as [_ Ta].
    destruct (run_issues_tips _ _ _ Hr) as [Tr Hne].
    apply api_transform_shape in Ha
      as (c & o1 & o2 & o3 & h & its & _ & _ & Ho1 & Ho2 & Ho3 & Hh & Hits & Sa).
    apply run_transform_shape in Hr
      as (c' & o1' & o2' & o3' & h' & its' & _ & _ & Ho1' & Ho2' & Ho3' & Hh' & Hits' & Sr).
    rewrite Ho1 in Ho1'. injection Ho1' as <-.
    rewrite Ho2 in Ho2'. injection Ho2' as <-.
    rewrite Ho3 in Ho3'. injection Ho3' as <-.
    rewrite Hh in Hh'. injection Hh' as <-.
    rewrite Hits in Hits'. injection Hits' as <-.
    split; [| split; [| split; [| split]]].
    - grades_by Sa. grades_by Sr. intros [= E].
      destruct (requests_tests o1) as [g |] eqn:Et; [| reflexivity].
      exfalso. apply (requests_tests_not_B o1). rewrite Et. f_equal. exact E.
    - grades_by Sa. grades_by Sr. intros [= E]. apply passing_score_no_issue, E.
    - grades_by Sa. grades_by Sr. intros [= E]. apply passing_score_no_issue, E.
    - grades_by Sa. grades_by Sr. intros [= E].
      destruct (hosts_tier (distinct_external_hosts h its)) as [g |] eqn:Et; [| reflexivity].
      exfalso. apply (hosts_tier_not_A (distinct_external_hosts h its)).
      rewrite Et. f_equal. exact E.
    - intros E. rewrite E in Ta.
      destruct (issues sr) as [| i rest]; [congruence |].
      apply List.Forall_cons_iff in Ta as [Ti _].
      apply List.Forall_cons_iff in Tr as [Ti' _]. contradiction. }
  split; [| split; [| split; [exact Hall |]]].
  - intros data url sa Ha. destruct (api_issues_keys _ _ _ Ha) as [K T].
    split; [exact K | split; [| exact T]].
    rewrite <- (length_map key), K. reflexivity.
  - intros data url sr Hr. apply (run_issues_tips _ _ _ Hr).
  - intros (u & h & Hu).
    destruct (api_transform (Obj []) (Str u)) as [sa | e] eqn:Ea.
    2: { exfalso. revert Ea.
         unfold api_transform, api_grade_issues, count_external_hosts, new_URL_host.
         cbn. rewrite Hu. cbn. discriminate. }
    destruct (run_transform (Obj []) (Str u)) as [sr | e] eqn:Er.
    2: { exfalso. revert Er.
         unfold run_transform, run_grade_issues, count_external_hosts, new_URL_host.
         cbn. rewrite Hu. cbn. discriminate. }
    exists (Obj []), (Str u), sa, sr.
    split; [exact Ea | split; [exact Er |]].
    apply (Hall _ _ _ _ Ea Er).
Qed.

(** C10.  Every summary [src/api/run.js] answers with goes out with
    status 200 and lists exactly six issues, in the order
    [http_requests], [expires_headers], [gzip], [dns], [cookies],
    [empty_src], with [cookies] graded B and [empty_src] graded A; and
    when [requests] is [null] the [http_requests] issue is there with
    grade B. *)
Theorem C10_api_six_issues (env : Env) (req : Request) (s : AuditSummary) :
  sent (response (api_handler env req)) = sent_json (summary_json s) ->
  statusCode (response (api_handler env req)) = 200 /\
  map key (issues s) =
    ["http_requests"; "expires_headers"; "gzip"; "dns"; "cookies"; "empty_src"] /\
  grades_of "cookies" (issues s) = ["B"] /\
  grades_of "empty_src" (issues s) = ["A"] /\
  (requests s = Null -> grades_of "http_requests" (issues s) = ["B"]).
Proof.
  intros H. apply handler_summary in H as (Hst & data & Ht).
  split; [exact Hst |].
  destruct (api_issues_keys _ _ _ Ht) as [K _]. split; [exact K |].
  apply api_transform_shape in Ht
    as (c & o1 & o2 & o3 & h & its & Hc & Hs & Ho1 & _ & _ & _ & _ & S).
  split; [| split].
  - grades_by S. reflexivity.
  - grades_by S. reflexivity.
  - intros Hr. rewrite Hs in Hr. cbn [requests summary] in Hr.
    rewrite (core_metrics_reqs _ _ Hc) in Hr. rewrite Hr in Ho1.
    injection Ho1 as <-. grades_by S. reflexivity.
Qed.

(** ** Further properties of the handler *)

(** The response the [try] block builds keeps the headers it was given and
    takes nothing else from them; the effects do not depend on them. *)
Lemma try_block_frame
    (transform : value -> value -> result AuditSummary)
    (env : Env) (req : Request) (res : Response) :
  exists effs (out : result (Z * Json)),
    (forall res', try_block transform env req res' =
       (effs, match out with
              | Ok (code, j) => Ok (json j (status code res'))
              | Throw e => Throw e
              end)).
Proof.
  unfold try_block.
  destruct (negb (String.eqb (method req) "POST")).
  { exists [], (Ok (405, error_json "Use POST { url }" no_detail)). reflexivity. }
  rewrite Get_body_url.
  destruct (negb (ToBoolean (body_url req))).
  { exists [], (Ok (400, error_json "Missing url" no_detail)). reflexivity. }
  destruct (psiURL env (body_url req)) as [u | e].
  2: { exists [], (Throw e). reflexivity. }
  destruct (fetch env u) as [r | e]; cbn [bind].
  2: { exists [fetched u], (Throw e). reflexivity. }
  destruct (negb (r_ok r)).
  - destruct (r_text r) as [txt | e]; cbn [bind].
    + exists [fetched u], (Ok (r_status r, error_json "PSI error" (detail_text txt))).
      reflexivity.
    + exists [fetched u], (Throw e). reflexivity.
  - destruct (r_json r) as [data | e]; cbn [bind].
    2: { exists [fetched u], (Throw e). reflexivity. }
    destruct (transform data (body_url req)) as [s | e]; cbn [bind].
    + exists [fetched u], (Ok (200, summary_json s)). reflexivity.
    + exists [fetched u], (Throw e). reflexivity.
Qed.

(** The headers of every response are those set before the [try]. *)
Lemma handler_headers
    (transform : value -> value -> result AuditSummary)
    (env : Env) (req : Request) :
  headers (response (handler transform env req)) =
    headers
      (setHeader "Access-Control-Allow-Headers" "Content-Type"
         (setHeader "Access-Control-Allow-Methods" "POST, OPTIONS"
            (if existsb (String.eqb (default "" (origin req))) ALLOWED
             then setHeader "Vary" "Origin"
                    (setHeader "Access-Control-Allow-Origin" (default "" (origin req))
                       {| headers := []; statusCode := 200; sent := not_sent |})
             else {| headers := []; statusCode := 200; sent := not_sent |}))).
Proof.
  unfold handler.
  destruct (String.eqb (method req) "OPTIONS"); [reflexivity |].
  match goal with
  | |- context [try_block transform env req ?res] =>
      destruct (try_block_frame transform env req res) as (effs & out & H);
      rewrite (H res)
  end.
  destruct out as [[code j] | e]; reflexivity.
Qed.

Lemma existsb_eqb_In (o : string) (l : list string) :
  existsb (String.eqb o) l = true <-> In o l.
Proof.
  rewrite existsb_exists. split.
  - intros (x & Hx & E). apply String.eqb_eq in E. subst. assumption.
  - intros H. exists o. split; [assumption | apply String.eqb_refl].
Qed.

(** X1.  Every response of either handler, whatever the method, the body
    and the upstream, says [Access-Control-Allow-Methods: POST, OPTIONS]
    and [Access-Control-Allow-Headers: Content-Type]; it echoes the
    request's origin as [Access-Control-Allow-Origin], with
    [Vary: Origin], exactly when that origin is on the allow-list, and
    has neither header otherwise. *)
Theorem X1_cors_headers
    (transform : value -> value -> result AuditSummary)
    (env : Env) (req : Request) :
  let res := response (handler transform env req) in
  getHeader "Access-Control-Allow-Methods" res = Some "POST, OPTIONS" /\
  getHeader "Access-Control-Allow-Headers" res = Some "Content-Type" /\
  (forall o, origin req = Some o -> In o ALLOWED ->
     getHeader "Access-Control-Allow-Origin" res = Some o /\
     getHeader "Vary" res = Some "Origin") /\
  ((forall o, origin req = Some o -> ~ In o ALLOWED) ->
     getHeader "Access-Control-Allow-Origin" res = None /\
     getHeader "Vary" res = None).
Proof.
  intros res. unfold res, getHeader. rewrite handler_headers.
  destruct (existsb (String.eqb (default "" (origin req))) ALLOWED) eqn:E.
  - split; [reflexivity | split; [reflexivity | split]].
    + intros o Ho _. rewrite Ho. split; reflexivity.
    + intros Hno. exfalso.
      destruct (origin req) as [o |] eqn:Ho; cbn [default] in E.
      * apply (Hno o eq_refl). apply existsb_eqb_In. exact E.
      * discriminate E.
  - split; [reflexivity | split; [reflexivity | split]].
    + intros o Ho Hin. exfalso. rewrite Ho in E. cbn [default] in E.
      apply (proj2 (existsb_eqb_In o ALLOWED)) in Hin.
      unfold id in E. congruence.
    + intros _. split; reflexivity.
Qed.

(** X2.  The origin of a request decides headers only: with any other
    origin, allowed or not, the status, the body and the effects are the
    same. *)
Theorem X2_origin_is_advisory
    (transform : value -> value -> result AuditSummary)
    (env : Env) (req : Request) (o : option string) :
  let out := handler transform env req in
  let out' := handler transform env (with_origin o req) in
  statusCode (response out') = statusCode (response out) /\
  sent (response out') = sent (response out) /\
  effects out' = effects out.
Proof.
  intros out out'. unfold out, out', handler. cbn [method with_origin].
  destruct (String.eqb (method req) "OPTIONS"); [repeat split |].
  assert (Hsame : forall res, try_block transform env (with_origin o req) res
                              = try_block transform env req res) by reflexivity.
  rewrite Hsame.
  repeat match goal with
  | |- context [try_block transform env req ?res] =>
      let effs := fresh "effs" in
      let r := fresh "r" in
      let H := fresh "H" in
      destruct (try_block_frame transform env req res) as (effs & r & H);
      rewrite !H; clear H
  end.
  destruct r as [[code j] | e]; repeat split.
Qed.

(** Every way a request can be answered. *)
Lemma handler_cases
    (transform : value -> value -> result AuditSummary)
    (env : Env) (req : Request) :
  let out := handler transform env req in
  let answered code (snt : Sent) effs :=
    statusCode (response out) = code /\ sent (response out) = snt /\ effects out = effs in
  (method req = "OPTIONS" /\ answered 200 ended [])
  \/ (method req <> "OPTIONS" /\ method req <> "POST" /\
      answered 405 (sent_json (error_json "Use POST { url }" no_detail)) [])
  \/ (method req = "POST" /\ ToBoolean (body_url req) = false /\
      answered 400 (sent_json (error_json "Missing url" no_detail)) [])
  \/ (method req = "POST" /\ ToBoolean (body_url req) = true /\
      exists e, psiURL env (body_url req) = Throw e /\
        answered 500 (sent_json (error_json "Server error" (detail_message e)))
          [console_error e])
  \/ (method req = "POST" /\ ToBoolean (body_url req) = true /\
      exists u, psiURL env (body_url req) = Ok u /\
        ((exists e,
            (fetch env u = Throw e
             \/ (exists r, fetch env u = Ok r /\ r_ok r = false /\ r_text r = Throw e)
             \/ (exists r, fetch env u = Ok r /\ r_ok r = true /\ r_json r = Throw e)
             \/ (exists r data, fetch env u = Ok r /\ r_ok r = true /\ r_json r = Ok data /\
                                transform data (body_url req) = Throw e)) /\
            answered 500 (sent_json (error_json "Server error" (detail_message e)))
              [fetched u; console_error e])
         \/ (exists r txt, fetch env u = Ok r /\ r_ok r = false /\ r_text r = Ok txt /\
               answered (r_status r)
                 (sent_json (error_json "PSI error" (detail_text txt))) [fetched u])
         \/ (exists r data s, fetch env u = Ok r /\ r_ok r = true /\ r_json r = Ok data /\
               transform data (body_url req) = Ok s /\
               answered 200 (sent_json (summary_json s)) [fetched u]))).
Proof.
  intros out answered. unfold answered, out, handler, try_block.
  destruct (String.eqb_spec (method req) "OPTIONS") as [Ho | Ho].
  { left. repeat split; assumption. }
  right.
  destruct (String.eqb_spec (method req) "POST") as [Hp | Hp]; cbn [negb].
  2: { left. repeat split; assumption. }
  right. rewrite Get_body_url.
  destruct (ToBoolean (body_url req)) eqn:Hu; cbn [negb].
  2: { left. repeat split; assumption. }
  right.
  destruct (psiURL env (body_url req)) as [u | e] eqn:Hpsi.
  2: { left. split; [assumption | split; [reflexivity |]].
       exists e. repeat split. }
  right. split; [assumption | split; [reflexivity |]]. exists u. split; [reflexivity |].
  destruct (fetch env u) as [r | e] eqn:Hf; cbn [bind].
  2: { left. exists e. split; [left; reflexivity | repeat split]. }
  destruct (r_ok r) eqn:Hok; cbn [negb].
  - destruct (r_json r) as [data | e] eqn:Hj; cbn [bind].
    2: { left. exists e. split; [| repeat split].
         right. right. left. exists r. repeat split; assumption. }
    destruct (transform data (body_url req)) as [s | e] eqn:Ht; cbn [bind].
    + right. right. exists r, data, s. repeat split; assumption.
    + left. exists e. split; [| repeat split].
      right. right. right. exists r, data. repeat split; assumption.
  - destruct (r_text r) as [txt | e] eqn:Htx; cbn [bind].
    + right. left. exists r, txt. repeat split; assumption.
    + left. exists e. split; [| repeat split].
      right. left. exists r. repeat split; assumption.
Qed.


(** X3.  The status tells the bodies apart.  Every request is answered;
    the body is empty only for OPTIONS, with status 200; a summary always
    goes out with status 200; and an error body never goes out with a
    success status (200 to 299): it has 405, 400, 500 or the upstream's
    non-success status. *)
Theorem X3_status_matches_body
    (transform : value -> value -> result AuditSummary)
    (env : Env) (req : Request) :
  let out := handler transform env req in
  match sent (response out) with
  | not_sent => False
  | ended => method req = "OPTIONS" /\ statusCode (response out) = 200
  | sent_json (summary_json _) =>
      method req = "POST" /\ statusCode (response out) = 200
  | sent_json (error_json _ _) =>
      method req <> "OPTIONS" /\
      ~ (200 <= statusCode (response out) <= 299)
  end.
Proof.
  intros out. subst out.
  destruct (handler_cases transform env req)
    as [(Hm & Hs & Hb & _)
       | [(Ho & Hp & Hs & Hb & _)
         | [(Hm & _ & Hs & Hb & _)
           | [(Hm & _ & e & _ & Hs & Hb & _)
             | (Hm & _ & u & _ &
                [(e & _ & Hs & Hb & _)
                | [(r & txt & _ & Hok & _ & Hs & Hb & _)
                  | (r & data & s & _ & _ & _ & _ & Hs & Hb & _)]])]]]];
    rewrite Hb, Hs.
  - split; [assumption | reflexivity].
  - split; [assumption | lia].
  - split; [rewrite Hm; discriminate | lia].
  - split; [rewrite Hm; discriminate | lia].
  - split; [rewrite Hm; discriminate | lia].
  - split; [rewrite Hm; discriminate |].
    unfold r_ok in Hok. apply andb_false_iff in Hok as [H | H];
      apply Z.leb_gt in H; lia.
  - split; [assumption | reflexivity].
Qed.

(** X4.  The upstream is called at most once per request, and only for a
    POST whose body has a url, with the request [psiURL] builds from that
    url; whenever it is called, the call is the first effect. *)
Theorem X4_at_most_one_upstream_call
    (transform : value -> value -> result AuditSummary)
    (env : Env) (req : Request) :
  let out := handler transform env req in
  (forall u, In (fetched u) (effects out) ->
     method req = "POST" /\ ToBoolean (body_url req) = true /\
     psiURL env (body_url req) = Ok u /\
     exists rest, effects out = fetched u :: rest /\
                  forall u', ~ In (fetched u') rest).
Proof.
  intros out u Hin. subst out.
  destruct (handler_cases transform env req)
    as [(Hm & _ & _ & He)
       | [(Ho & Hp & _ & _ & He)
         | [(Hm & _ & _ & _ & He)
           | [(Hm & _ & e & _ & _ & _ & He)
             | (Hm & Hu & u0 & Hpsi &
                [(e & _ & _ & _ & He)
                | [(r & txt & _ & _ & _ & _ & _ & He)
                  | (r & data & s & _ & _ & _ & _ & _ & _ & He)]])]]]];
    rewrite He in Hin |- *; cbn [In] in Hin;
    try (intuition discriminate).
  - destruct Hin as [[= ->] | [H | []]]; [| discriminate H].
    repeat (split; [assumption |]). eexists. split; [reflexivity |].
    intros u' [H | []]. discriminate H.
  - destruct Hin as [[= ->] | []].
    repeat (split; [assumption |]). eexists. split; [reflexivity |].
    intros u' [].
  - destruct Hin as [[= ->] | []].
    repeat (split; [assumption |]). eexists. split; [reflexivity |].
    intros u' [].
Qed.

(** X5.  An exception is logged exactly when the answer is the 500
    ["Server error"] body carrying that exception's message; nothing else
    is ever logged. *)
Theorem X5_logged_iff_server_error
    (transform : value -> value -> result AuditSummary)
    (env : Env) (req : Request) (e : exn) :
  let out := handler transform env req in
  In (console_error e) (effects out) <->
  (statusCode (response out) = 500 /\
   sent (response out) = sent_json (error_json "Server error" (detail_message e))).
Proof.
  intros out. subst out.
  destruct (handler_cases transform env req)
    as [(Hm & Hc & Hs & He)
       | [(Ho & Hp & Hc & Hs & He)
         | [(Hm & _ & Hc & Hs & He)
           | [(Hm & _ & e0 & _ & Hc & Hs & He)
             | (Hm & Hu & u0 & Hpsi &
                [(e0 & _ & Hc & Hs & He)
                | [(r & txt & _ & _ & _ & Hc & Hs & He)
                  | (r & data & s & _ & _ & _ & _ & Hc & Hs & He)]])]]]];
    rewrite Hc, Hs, He; cbn [In];
    (split; [intros H | intros [H1 H2]]);
    try (intuition discriminate);
    try discriminate.
  - destruct H as [[= ->] | []]. split; reflexivity.
  - injection H2 as ->. left. reflexivity.
  - destruct H as [H | [[= ->] | []]]; [discriminate H |]. split; reflexivity.
  - injection H2 as ->. right. left. reflexivity.
Qed.

(** X6.  A failing upstream is a 500.  When the upstream call itself
    rejects, or the body of a non-success answer cannot be read, or the
    body of a success answer is not JSON, the answer is 500 with the
    rejection's message as detail, after the one upstream call, and the
    exception is logged; the upstream's own status is not forwarded
    then. *)
Theorem X6_upstream_failure_is_500
    (transform : value -> value -> result AuditSummary)
    (env : Env) (req : Request) (u : URL) (e : exn) :
  method req = "POST" ->
  ToBoolean (body_url req) = true ->
  psiURL env (body_url req) = Ok u ->
  (fetch env u = Throw e
   \/ (exists r, fetch env u = Ok r /\ r_ok r = false /\ r_text r = Throw e)
   \/ (exists r, fetch env u = Ok r /\ r_ok r = true /\ r_json r = Throw e)) ->
  let out := handler transform env req in
  statusCode (response out) = 500 /\
  sent (response out) = sent_json (error_json "Server error" (detail_message e)) /\
  effects out = [fetched u; console_error e].
Proof.
  intros Hm Hu Hpsi Hfail out. unfold out, handler, try_block.
  rewrite Hm, Get_body_url, Hu, Hpsi. cbn [String.eqb Ascii.eqb Bool.eqb negb].
  destruct Hfail as [-> | [(r & -> & Hok & Ht) | (r & -> & Hok & Hj)]]; cbn [bind].
  - repeat split.
  - rewrite Hok, Ht. repeat split.
  - rewrite Hok, Hj. repeat split.
Qed.

(** X7.  Any success status of the upstream (200 to 299) whose body is a
    payload the transform accepts is answered with status 200 and the
    summary, after exactly one upstream call and with nothing logged. *)
Theorem X7_success_is_200_summary
    (transform : value -> value -> result AuditSummary)
    (env : Env) (req : Request) (u : URL) (r : FetchResponse)
    (data : value) (s : AuditSummary) :
  method req = "POST" ->
  ToBoolean (body_url req) = true ->
  psiURL env (body_url req) = Ok u ->
  fetch env u = Ok r ->
  200 <= r_status r <= 299 ->
  r_json r = Ok data ->
  transform data (body_url req) = Ok s ->
  let out := handler transform env req in
  statusCode (response out) = 200 /\
  sent (response out) = sent_json (summary_json s) /\
  effects out = [fetched u].
Proof.
  intros Hm Hu Hpsi Hf Hst Hj Ht.
  apply (handler_sends_summary transform env req u r data s); try assumption.
  unfold r_ok. apply andb_true_iff. split; apply Z.leb_le; lia.
Qed.

(** X8.  Only the url of the body is read: two requests with the same
    method whose bodies have the same url are answered alike, whatever
    else the bodies hold. *)
Theorem X8_only_url_is_read
    (transform : value -> value -> result AuditSummary)
    (env : Env) (req req' : Request) :
  method req' = method req ->
  origin req' = origin req ->
  body_url req' = body_url req ->
  handler transform env req' = handler transform env req.
Proof.
  intros Hm Ho Hb. unfold handler, try_block.
  rewrite Hm, Ho, !Get_body_url, Hb. reflexivity.
Qed.

(** The upstream request, written out. *)
Lemma psiURL_eq (env : Env) (url : value) :
  psiURL env url =
    (s <- ToString url ;;
     Ok {| href := "https://www.googleapis.com/pagespeedonline/v5/runPagespeed";
           searchParams :=
             [("url", s);
              ("key", match PSI_KEY env with Some k => k | None => "undefined" end);
              ("strategy", "mobile")] |}).
Proof.
  unfold psiURL, searchParams_set.
  destruct (ToString url) as [s | e]; cbn [bind]; [| reflexivity].
  destruct (PSI_KEY env); reflexivity.
Qed.

(** X9.  The upstream request always goes to the PageSpeed endpoint with
    exactly three parameters, in this order: [url], the body's url as a
    string; [key], the configured key, or the string ["undefined"] when
    none is configured; and [strategy=mobile].  It can be built exactly
    when the url converts to a string. *)
Theorem X9_upstream_request (env : Env) (url : value) :
  match ToString url with
  | Ok s =>
      exists u, psiURL env url = Ok u /\
        href u = "https://www.googleapis.com/pagespeedonline/v5/runPagespeed" /\
        map fst (searchParams u) = ["url"; "key"; "strategy"] /\
        map snd (searchParams u) =
          [s; default "undefined" (PSI_KEY env); "mobile"]
  | Throw e => psiURL env url = Throw e
  end.
Proof.
  rewrite psiURL_eq. destruct (ToString url) as [s | e]; cbn [bind]; [| reflexivity].
  eexists. split; [reflexivity |]. cbn [href searchParams map fst snd].
  repeat split.
Qed.

(** X10.  The key reaches the upstream only.  With another key, or none,
    a request whose upstream call is answered the same way gets the same
    status and the same body. *)
Theorem X10_key_only_goes_upstream
    (transform : value -> value -> result AuditSummary)
    (env : Env) (req : Request) (k : option string) :
  (forall u u', psiURL env (body_url req) = Ok u ->
                psiURL (with_key k env) (body_url req) = Ok u' ->
                fetch env u' = fetch env u) ->
  let out := handler transform env req in
  let out' := handler transform (with_key k env) req in
  statusCode (response out') = statusCode (response out) /\
  sent (response out') = sent (response out).
Proof.
  intros Hsame out out'. subst out out'. unfold handler, try_block.
  destruct (String.eqb (method req) "OPTIONS"); [split; reflexivity |].
  destruct (negb (String.eqb (method req) "POST")); [split; reflexivity |].
  rewrite Get_body_url.
  destruct (negb (ToBoolean (body_url req))); [split; reflexivity |].
  revert Hsame. rewrite !psiURL_eq.
  destruct (ToString (body_url req)) as [s | e]; cbn [bind]; [| split; reflexivity].
  intros Hsame. cbn [fetch with_key].
  rewrite (Hsame _ _ eq_refl eq_refl).
  destruct (fetch env _) as [r | e]; cbn [bind]; [| split; reflexivity].
  destruct (negb (r_ok r)).
  - destruct (r_text r); split; reflexivity.
  - destruct (r_json r) as [data | e]; cbn [bind]; [| split; reflexivity].
    destruct (transform data (body_url req)); split; reflexivity.
Qed.

(** ** Further properties of the metrics *)

Lemma core_metrics_fields data c :
  core_metrics data = Ok c ->
  let nv name := payload_audit data name ?. "numericValue" in
  core_cls c = nv "cumulative-layout-shift" ?? Null /\
  core_inp c =
    (if nullish (nv "experimental-interaction-to-next-paint")
     then nv "max-potential-fid" ?? Null
     else nv "experimental-interaction-to-next-paint") /\
  (if ToBoolean (nv "total-byte-weight" ?? Null)
   then exists x, ToNumber (nv "total-byte-weight" ?? Null) = Ok x /\
          core_pageSizeMB c = Num (div x (of_Z 1048576))
   else core_pageSizeMB c = Null) /\
  (if ToBoolean (nv "speed-index")
   then exists x, ToNumber (nv "speed-index") = Ok x /\
          core_loadTimeS c = Num (div x (of_Z 1000))
   else if ToBoolean (nv "interactive")
   then exists x, ToNumber (nv "interactive") = Ok x /\
          core_loadTimeS c = Num (div x (of_Z 1000))
   else core_loadTimeS c = Null).
Proof.
  intros H nv. unfold core_metrics in H.
  inv_bind_as H lr0 E. apply Get_GetOpt in E. subst lr0.
  core_gets H.
  inv_bind_as H x Ex. inv_bind_as H l El. inv_bind_as H i Ei.
  inv_bind_as H pg Ep. inv_bind_as H lt Elt. injection H as <-.
  cbn [core_cls core_inp core_pageSizeMB core_loadTimeS].
  repeat match goal with
         | H : context [data ?. "lighthouseResult" ?. "audits" ?. ?n ?. "numericValue"] |- _ =>
             change (data ?. "lighthouseResult" ?. "audits" ?. n ?. "numericValue")
               with (nv n) in H
         | H : context [data ?. "lighthouseResult" ?. "audits" ?. ?n] |- _ =>
             change (data ?. "lighthouseResult" ?. "audits" ?. n)
               with (payload_audit data n) in H
         end.
  split; [reflexivity | split; [| split]].
  - destruct (nullish (nv "experimental-interaction-to-next-paint"));
      injection Ei as <-; reflexivity.
  - destruct (ToBoolean (nv "total-byte-weight" ?? Null)).
    + unfold js_div in Ep. inv_bind_as Ep y Ey. injection Ep as <-.
      exists y. split; [assumption | reflexivity].
    + injection Ep as <-. reflexivity.
  - destruct (ToBoolean (nv "speed-index")) eqn:B1.
    + unfold nv in B1. rewrite (Get_truthy _ _ B1) in Elt. cbn [bind] in Elt.
      unfold js_div in Elt. inv_bind_as Elt y Ey. injection Elt as <-.
      exists y. split; [assumption | reflexivity].
    + destruct (ToBoolean (nv "interactive")) eqn:B2.
      * unfold nv in B2. rewrite (Get_truthy _ _ B2) in Elt. cbn [bind] in Elt.
        unfold js_div in Elt. inv_bind_as Elt y Ey. injection Elt as <-.
        exists y. split; [assumption | reflexivity].
      * injection Elt as <-. reflexivity.
Qed.

(** X11.  [cls] and [inp] are passed through unchanged, zero included
    (unlike [lcp]): [cls] is the [cumulative-layout-shift] audit's
    [numericValue], or [null] without one; [inp] is the
    [experimental-interaction-to-next-paint] audit's [numericValue], else
    the [max-potential-fid] audit's, else [null]. *)
Theorem X11_cls_and_inp_pass_through (data url : value) (s : AuditSummary) :
  api_transform data url = Ok s \/ run_transform data url = Ok s ->
  let nv name := payload_audit data name ?. "numericValue" in
  cls s = (if nullish (nv "cumulative-layout-shift") then Null
           else nv "cumulative-layout-shift") /\
  inp s = (if nullish (nv "experimental-interaction-to-next-paint")
           then if nullish (nv "max-potential-fid") then Null
                else nv "max-potential-fid"
           else nv "experimental-interaction-to-next-paint").
Proof.
  intros H nv. apply transform_core in H as (c & Hc & ->). cbn [cls inp summary].
  destruct (core_metrics_fields _ _ Hc) as (Hcls & Hinp & _).
  split; [exact Hcls | exact Hinp].
Qed.

(** X12.  [pageSizeMB] is the [total-byte-weight] audit's [numericValue]
    divided by 1048576, and [null] when that value is absent or zero. *)
Theorem X12_pageSizeMB (data url : value) (s : AuditSummary) :
  api_transform data url = Ok s \/ run_transform data url = Ok s ->
  let bytes := payload_audit data "total-byte-weight" ?. "numericValue" in
  if ToBoolean bytes
  then exists x, ToNumber bytes = Ok x /\ pageSizeMB s = Num (div x (of_Z 1048576))
  else pageSizeMB s = Null.
Proof.
  intros H bytes. apply transform_core in H as (c & Hc & ->).
  cbn [pageSizeMB summary].
  destruct (core_metrics_fields _ _ Hc) as (_ & _ & Hp & _).
  fold bytes in Hp. unfold coalesce in Hp.
  destruct (nullish bytes) eqn:Hn; [| exact Hp].
  cbn [ToBoolean] in Hp.
  assert (ToBoolean bytes = false) as ->; [| exact Hp].
  destruct bytes; (discriminate Hn || reflexivity).
Qed.

(** X13.  [loadTimeS] is the [speed-index] audit's [numericValue] in
    seconds; when that value is absent or zero it is the [interactive]
    audit's, and [null] when that one is absent or zero too. *)
Theorem X13_loadTimeS_fallback (data url : value) (s : AuditSummary) :
  api_transform data url = Ok s \/ run_transform data url = Ok s ->
  let nv name := payload_audit data name ?. "numericValue" in
  if ToBoolean (nv "speed-index")
  then exists x, ToNumber (nv "speed-index") = Ok x /\
         loadTimeS s = Num (div x (of_Z 1000))
  else if ToBoolean (nv "interactive")
  then exists x, ToNumber (nv "interactive") = Ok x /\
         loadTimeS s = Num (div x (of_Z 1000))
  else loadTimeS s = Null.
Proof.
  intros H nv. apply transform_core in H as (c & Hc & ->).
  cbn [loadTimeS summary].
  destruct (core_metrics_fields _ _ Hc) as (_ & _ & _ & Hl). exact Hl.
Qed.

(** ** Further properties of the issues *)

(** X14.  The [gzip] issue follows the score of the [uses-text-compression]
    audit as [expires_headers] follows its own: a missing score gives C in
    both files; otherwise [src/api/run.js] files the grade of the ladder
    (>= 0.9 A, >= 0.7 B, >= 0.4 C, else D), and [src/run.js] files the
    same grade below 0.9 and no issue at 0.9 and above. *)
Theorem X14_gzip_ladder (data url : value) :
  let v := payload_audit data "uses-text-compression" ?. "score" in
  (forall s, api_transform data url = Ok s ->
     if nullish v then grades_of "gzip" (issues s) = ["C"]
     else exists x, ToNumber v = Ok x /\
            grades_of "gzip" (issues s) = [score_ladder x]) /\
  (forall s, run_transform data url = Ok s ->
     if nullish v then grades_of "gzip" (issues s) = ["C"]
     else exists x, ToNumber v = Ok x /\
            grades_of "gzip" (issues s) = score_ladder_below_passing x).
Proof.
  intros v. split; intros s H.
  - apply api_transform_shape in H
      as (c & o1 & o2 & o3 & h & its & _ & _ & _ & _ & Ho3 & _ & _ & S).
    apply numeric_cases in Ho3. fold v in Ho3.
    destruct (nullish v).
    + subst o3. grades_by S. reflexivity.
    + destruct Ho3 as (x & Hx & ->). exists x. split; [assumption |].
      grades_by S. reflexivity.
  - apply run_transform_shape in H
      as (c & o1 & o2 & o3 & h & its & _ & _ & _ & _ & Ho3 & _ & _ & S).
    apply numeric_cases in Ho3. fold v in Ho3.
    destruct (nullish v).
    + subst o3. grades_by S. reflexivity.
    + destruct Ho3 as (x & Hx & ->). exists x. split; [assumption |].
      grades_by S. cbn [run_score_grades]. apply run_ladder_spec.
Qed.

Ltac rule_unfold :=
  unfold api_http_requests, run_http_requests, api_expires_headers, run_expires_headers,
    api_gzip, run_gzip, reqs_over, below_and_at_least, js_gt, js_ge, js_lt, numeric.

(** A rule reads its input through [numeric] only. *)
Lemma rules_numeric v iss :
  api_http_requests v iss = (o <- numeric v ;; api_http_requests (repr o) iss) /\
  run_http_requests v iss = (o <- numeric v ;; run_http_requests (repr o) iss) /\
  api_expires_headers v iss = (o <- numeric v ;; api_expires_headers (repr o) iss) /\
  run_expires_headers v iss = (o <- numeric v ;; run_expires_headers (repr o) iss) /\
  api_gzip v iss = (o <- numeric v ;; api_gzip (repr o) iss) /\
  run_gzip v iss = (o <- numeric v ;; run_gzip (repr o) iss).
Proof.
  rule_unfold. destruct (nullish v) eqn:Hn; cbn [negb bind repr nullish].
  - repeat split.
  - destruct (ToNumber v) as [x | e]; cbn [bind repr nullish negb ToNumber]; repeat split.
Qed.

Lemma plain_repr o : plain (repr o) = true.
Proof. destruct o; reflexivity. Qed.

(** Every rule keeps the list it is given within the catalog. *)
Lemma rules_catalogued v iss iss' :
  Forall catalogued iss ->
  (api_http_requests v iss = Ok iss' \/ run_http_requests v iss = Ok iss' \/
   api_expires_headers v iss = Ok iss' \/ run_expires_headers v iss = Ok iss' \/
   api_gzip v iss = Ok iss' \/ run_gzip v iss = Ok iss') ->
  Forall catalogued iss'.
Proof.
  intros Hiss H. revert H. rule_unfold. unfold addIssue.
  destruct (nullish v); cbn [negb bind];
    [| destruct (ToNumber v) as [x | e]; cbn [bind]];
    repeat match goal with
           | |- context [if ?b then _ else _] => destruct b; cbn [andb bind]
           end;
    intros H; repeat destruct H as [H | H]; try discriminate H;
    injection H as <-; try assumption;
    (apply Forall_app; split; [assumption |]);
    (apply List.Forall_cons; [| apply List.Forall_nil]);
    (split; [| split; [| reflexivity]]); cbn; tauto.
Qed.

Lemma dns_catalogued n iss :
  Forall catalogued iss ->
  Forall catalogued (api_dns n iss) /\ Forall catalogued (run_dns n iss).
Proof.
  intros Hiss. unfold api_dns, run_dns, addIssue.
  destruct (n >? 6); [| destruct (n >? 4); [| destruct (n >? 2)]];
    split; try assumption;
    (apply Forall_app; split; [assumption |]);
    (apply List.Forall_cons; [| apply List.Forall_nil]);
    (split; [| split; [| reflexivity]]); cbn; tauto.
Qed.

Lemma grade_issues_catalogued c url iss :
  api_grade_issues c url = Ok iss \/ run_grade_issues c url = Ok iss ->
  Forall catalogued iss.
Proof.
  assert (Hlast : forall l t1 t2, Forall catalogued l ->
            Forall catalogued
              (addIssue "empty_src" "Avoid empty src or href" "A" t2
                 (addIssue "cookies" "Use cookie-free domains for static assets" "B" t1 l))).
  { intros l t1 t2 Hl. unfold addIssue.
    apply Forall_app; split; [apply Forall_app; split; [assumption |] |];
      (apply List.Forall_cons; [| apply List.Forall_nil]);
      (split; [| split; [| reflexivity]]); cbn; tauto. }
  intros [H | H].
  - unfold api_grade_issues in H.
    inv_bind_as H i1 H1. inv_bind_as H v2 E2. inv_bind_as H i2 H2.
    inv_bind_as H v3 E3. inv_bind_as H i3 H3. inv_bind_as H n En.
    injection H as <-. apply Hlast. apply dns_catalogued.
    eapply rules_catalogued; [| right; right; right; right; left; exact H3].
    eapply rules_catalogued; [| right; right; left; exact H2].
    eapply rules_catalogued; [| left; exact H1]. constructor.
  - unfold run_grade_issues in H.
    inv_bind_as H i1 H1. inv_bind_as H v2 E2. inv_bind_as H i2 H2.
    inv_bind_as H v3 E3. inv_bind_as H i3 H3. inv_bind_as H n En.
    injection H as <-. apply Hlast. apply dns_catalogued.
    eapply rules_catalogued; [| right; right; right; right; right; exact H3].
    eapply rules_catalogued; [| right; right; right; left; exact H2].
    eapply rules_catalogued; [| right; left; exact H1]. constructor.
Qed.

(** X15.  Every issue either file files is of the catalog: its key is one
    of the six, its grade one of A, B, C, D, F, and its label the one that
    goes with its key, the same in both files. *)
Theorem X15_issues_are_catalogued (data url : value) (s : AuditSummary) :
  api_transform data url = Ok s \/ run_transform data url = Ok s ->
  Forall catalogued (issues s).
Proof.
  intros [H | H].
  - unfold api_transform in H. inv_bind_as H c Hc. inv_bind_as H iss Hi.
    injection H as <-. cbn [issues summary].
    apply (grade_issues_catalogued c url). left. exact Hi.
  - unfold run_transform in H. inv_bind_as H c Hc. inv_bind_as H iss Hi.
    injection H as <-. cbn [issues summary].
    apply (grade_issues_catalogued c url). right. exact Hi.
Qed.

Lemma key_grade_of_shape iss :
  map key_grade iss = map (fun sh : string * string * bool => fst sh) (map shape iss).
Proof. rewrite map_map. reflexivity. Qed.

Lemma run_ladder_cases x : run_ladder x = [] \/ run_ladder x = [score_ladder x].
Proof.
  rewrite run_ladder_spec. unfold score_ladder_below_passing, score_ladder.
  destruct (geb x (lit 9 10)); [left; reflexivity |].
  destruct (geb x (lit 7 10)); [right; reflexivity |].
  destruct (geb x (lit 4 10)); [right; reflexivity |].
  destruct (ltb x (lit 4 10)); [right | left]; reflexivity.
Qed.

Lemma run_score_grades_cases o :
  run_score_grades o = [] \/ run_score_grades o = [api_score_grade o].
Proof.
  destruct o as [x |]; cbn [run_score_grades api_score_grade];
    [apply run_ladder_cases | right; reflexivity].
Qed.

Lemma option_list_cases (o : option string) (d : string) :
  option_list o = [] \/ option_list o = [default d o].
Proof. destruct o; [right | left]; reflexivity. Qed.

Lemma issue_keys_NoDup : NoDup issue_keys.
Proof.
  unfold issue_keys.
  repeat (apply NoDup_cons_2; [rewrite ?elem_of_cons, ?elem_of_nil; intuition discriminate |]).
  apply NoDup_nil_2.
Qed.

(** X16.  The issues of [src/run.js] come in the order of the six rules,
    each key at most once, and the list always ends with the two fixed
    issues, [cookies] graded B and [empty_src] graded A: it holds from two
    to six issues. *)
Theorem X16_run_issue_list (data url : value) (s : AuditSummary) :
  run_transform data url = Ok s ->
  sublist (map key (issues s)) issue_keys /\
  NoDup (map key (issues s)) /\
  (exists front,
     map key_grade (issues s) = (front ++ [("cookies", "B"); ("empty_src", "A")])%list) /\
  (2 <= length (issues s) <= 6)%nat.
Proof.
  intros H.
  apply run_transform_shape in H
    as (c & o1 & o2 & o3 & originHost & its & _ & _ & _ & _ & _ & _ & _ & S).
  assert (Hk : sublist (map key (issues s)) issue_keys).
  { rewrite keys_of_shape, S. unfold issue_keys.
    destruct (option_list_cases (requests_tests o1) "B") as [-> | ->];
      destruct (run_score_grades_cases o2) as [-> | ->];
      destruct (run_score_grades_cases o3) as [-> | ->];
      destruct (option_list_cases (hosts_tier (distinct_external_hosts originHost its)) "A")
        as [-> | ->];
      cbn [tagged map app fst];
      repeat first [apply sublist_nil | apply sublist_skip | apply sublist_cons]. }
  split; [exact Hk |].
  split; [exact (sublist_NoDup _ _ issue_keys_NoDup Hk) |].
  split.
  - rewrite key_grade_of_shape, S. rewrite !map_app. cbn [map fst].
    rewrite !app_assoc. eexists. reflexivity.
  - pose proof (sublist_length _ _ Hk) as Hle. rewrite length_map in Hle.
    assert (Hlen : length (map shape (issues s)) = length (issues s))
      by apply length_map.
    rewrite S in Hlen. rewrite !length_app in Hlen. cbn [length issue_keys] in *. lia.
Qed.

(** The two files fail on the same payloads, with the same exception. *)
Lemma transform_same_failure data url e :
  api_transform data url = Throw e <-> run_transform data url = Throw e.
Proof.
  unfold api_transform, run_transform, api_grade_issues, run_grade_issues.
  destruct (core_metrics data) as [c | e0]; cbn [bind]; [| tauto].
  destruct (rules_numeric (reqs c) []) as (-> & -> & _).
  destruct (numeric (reqs c)) as [o1 | e1]; cbn [bind]; [| tauto].
  destruct (rules_return (repr o1) [] (plain_repr o1)) as ([i1 ->] & [j1 ->] & _).
  cbn [bind].
  destruct (audit_score (audits c) "uses-long-cache-ttl") as [v2 | e2]; cbn [bind]; [| tauto].
  destruct (rules_numeric v2 i1) as (_ & _ & -> & _).
  destruct (rules_numeric v2 j1) as (_ & _ & _ & -> & _).
  destruct (numeric v2) as [o2 | e2]; cbn [bind]; [| tauto].
  destruct (rules_return (repr o2) i1 (plain_repr o2)) as (_ & _ & [i2 ->] & _).
  destruct (rules_return (repr o2) j1 (plain_repr o2)) as (_ & _ & _ & [j2 ->] & _).
  cbn [bind].
  destruct (audit_score (audits c) "uses-text-compression") as [v3 | e3]; cbn [bind]; [| tauto].
  destruct (rules_numeric v3 i2) as (_ & _ & _ & _ & -> & _).
  destruct (rules_numeric v3 j2) as (_ & _ & _ & _ & _ & ->).
  destruct (numeric v3) as [o3 | e3]; cbn [bind]; [| tauto].
  destruct (rules_return (repr o3) i2 (plain_repr o3)) as (_ & _ & _ & _ & [i3 ->] & _).
  destruct (rules_return (repr o3) j2 (plain_repr o3)) as (_ & _ & _ & _ & _ & [j3 ->]).
  cbn [bind].
  destruct (count_external_hosts (audits c) url) as [n | e4]; cbn [bind]; [| tauto].
  split; discriminate.
Qed.

(** X17.  The two files differ in the issues only.  They throw on the same
    inputs, with the same exception; where they return, the seven metrics
    are equal, and the issues of [src/run.js], as pairs of key and grade,
    are those of [src/api/run.js] with some left out, in the same order. *)
Theorem X17_variants_agree (data url : value) :
  (forall e, api_transform data url = Throw e <-> run_transform data url = Throw e) /\
  (forall sa sr,
     api_transform data url = Ok sa -> run_transform data url = Ok sr ->
     score sa = score sr /\ lcp sa = lcp sr /\ cls sa = cls sr /\ inp sa = inp sr /\
     requests sa = requests sr /\ pageSizeMB sa = pageSizeMB sr /\
     loadTimeS sa = loadTimeS sr /\
     sublist (map key_grade (issues sr)) (map key_grade (issues sa))).
Proof.
  split; [intros e; apply transform_same_failure |].
  intros sa sr Ha Hr.
  apply api_transform_shape in Ha
    as (c & o1 & o2 & o3 & h & its & Hc & Hsa & H1 & H2 & H3 & Hh & Hits & Sa).
  apply run_transform_shape in Hr
    as (c' & o1' & o2' & o3' & h' & its' & Hc' & Hsr & H1' & H2' & H3' & Hh' & Hits' & Sr).
  rewrite Hc in Hc'. injection Hc' as <-.
  rewrite H1 in H1'. injection H1' as <-.
  rewrite H2 in H2'. injection H2' as <-.
  rewrite H3 in H3'. injection H3' as <-.
  rewrite Hh in Hh'. injection Hh' as <-.
  rewrite Hits in Hits'. injection Hits' as <-.
  rewrite !key_grade_of_shape, Sa, Sr. rewrite Hsa, Hsr. cbn [summary score lcp cls inp
    requests pageSizeMB loadTimeS].
  repeat (split; [reflexivity |]).
  destruct (option_list_cases (requests_tests o1) "B") as [-> | ->];
    destruct (run_score_grades_cases o2) as [-> | ->];
    destruct (run_score_grades_cases o3) as [-> | ->];
    destruct (option_list_cases (hosts_tier (distinct_external_hosts h its)) "A")
      as [-> | ->];
    cbn [tagged map app fst];
    repeat first [apply sublist_nil | apply sublist_skip | apply sublist_cons].
Qed.

Lemma handler_transform_throws
    (transform : value -> value -> result AuditSummary)
    (env : Env) (req : Request) (u : URL) (r : FetchResponse)
    (data : value) (e : exn) :
  method req = "POST" ->
  ToBoolean (body_url req) = true ->
  psiURL env (body_url req) = Ok u ->
  fetch env u = Ok r ->
  r_ok r = true ->
  r_json r = Ok data ->
  transform data (body_url req) = Throw e ->
  let out := handler transform env req in
  statusCode (response out) = 500 /\
  sent (response out) = sent_json (error_json "Server error" (detail_message e)) /\
  effects out = [fetched u; console_error e].
Proof.
  intros Hm Hu Hpsi Hf Hok Hj Ht out. unfold out, handler, try_block.
  rewrite Hm, Get_body_url, Hu, Hpsi, Hf. cbn [String.eqb Ascii.eqb Bool.eqb negb bind].
  rewrite Hok, Hj. cbn [negb bind]. rewrite Ht.
  cbn [bind effects response statusCode sent json status app].
  repeat split.
Qed.

(** The target url is parsed, and the items iterated, by the host loop
    only: a payload that is fine otherwise fails there. *)
Lemma transform_late_failure data url e :
  nullish data = false -> plain data = true ->
  (new_URL_host url = Throw e
   \/ (exists h, new_URL_host url = Ok h /\
                 iterate (network_items data ?? Arr []) = Throw e)) ->
  api_transform data url = Throw e /\ run_transform data url = Throw e.
Proof.
  intros Hn Hp Hfail.
  destruct (core_metrics_returns data Hn Hp) as [c Hc].
  assert (Hr : plain (reqs c) = true).
  { rewrite (core_metrics_reqs _ _ Hc). unfold network_items, payload_audit. plain_solve. }
  assert (Hs : forall name, plain (payload_audit data name ?. "score") = true).
  { intros name. unfold payload_audit. plain_solve. }
  assert (Hcount : count_external_hosts (audits c) url = Throw e).
  { rewrite (count_external_hosts_payload _ _ _ Hc).
    destruct Hfail as [-> | (h & -> & ->)]; reflexivity. }
  unfold api_transform, run_transform, api_grade_issues, run_grade_issues.
  rewrite Hc. cbn [bind].
  rewrite !(audit_score_payload _ _ "uses-long-cache-ttl" Hc eq_refl).
  rewrite !(audit_score_payload _ _ "uses-text-compression" Hc eq_refl).
  rewrite Hcount. cbn [bind].
  destruct (rules_return (reqs c) [] Hr) as ([i1 ->] & [j1 ->] & _). cbn [bind].
  destruct (rules_return _ i1 (Hs "uses-long-cache-ttl")) as (_ & _ & [i2 ->] & _).
  destruct (rules_return _ j1 (Hs "uses-long-cache-ttl")) as (_ & _ & _ & [j2 ->] & _).
  cbn [bind].
  destruct (rules_return _ i2 (Hs "uses-text-compression")) as (_ & _ & _ & _ & [i3 ->] & _).
  destruct (rules_return _ j2 (Hs "uses-text-compression")) as (_ & _ & _ & _ & _ & [j3 ->]).
  cbn [bind]. split; reflexivity.
Qed.

(** X18.  The target url is only validated after the upstream call.  A
    request whose url is truthy but does not parse as a URL is sent
    upstream all the same; when the upstream answers with an ordinary
    payload, the handler of either file fails in the host loop and answers
    500 with the parser's exception.  The same holds when the url parses
    and the payload's [items] cannot be iterated. *)
Theorem X18_target_url_checked_after_upstream
    (env : Env) (req : Request) (u : URL) (r : FetchResponse)
    (data : value) (e : exn) :
  method req = "POST" ->
  ToBoolean (body_url req) = true ->
  psiURL env (body_url req) = Ok u ->
  fetch env u = Ok r ->
  r_ok r = true ->
  r_json r = Ok data ->
  nullish data = false -> plain data = true ->
  (new_URL_host (body_url req) = Throw e
   \/ (exists h, new_URL_host (body_url req) = Ok h /\
                 iterate (network_items data ?? Arr []) = Throw e)) ->
  forall out, out = api_handler env req \/ out = run_handler env req ->
  statusCode (response out) = 500 /\
  sent (response out) = sent_json (error_json "Server error" (detail_message e)) /\
  effects out = [fetched u; console_error e].
Proof.
  intros Hm Hu Hpsi Hf Hok Hj Hn Hp Hfail out Hout.
  destruct (transform_late_failure data (body_url req) e Hn Hp Hfail) as [Ha Hr].
  destruct Hout as [-> | ->].
  - exact (handler_transform_throws api_transform env req u r data e Hm Hu Hpsi Hf Hok Hj Ha).
  - exact (handler_transform_throws run_transform env req u r data e Hm Hu Hpsi Hf Hok Hj Hr).
Qed.

Lemma size_insert_le (h : string) (X : gset string) :
  (size ({[ h ]} ∪ X) <= 1 + size X)%nat.
Proof.
  rewrite size_union_alt, size_singleton.
  assert (size (X ∖ {[ h ]}) <= size X)%nat by (apply subseteq_size; set_solver).
  lia.
Qed.

Lemma distinct_external_hosts_le originHost its :
  0 <= distinct_external_hosts originHost its
    <= Z.of_nat (length (List.filter (on_other_host originHost) its)).
Proof.
  unfold distinct_external_hosts. split; [lia |]. apply Nat2Z.inj_le.
  induction its as [| it its IH].
  { assert (E : size ((list_to_set (omap item_host []) : gset string) ∖ {[originHost]})
                 = 0%nat) by (apply size_empty_iff; set_solver).
    rewrite E. cbn [List.filter length]. lia. }
  rewrite omap_item_host_cons. cbn [List.filter]. unfold on_other_host at 1.
  destruct (item_host it) as [h |]; [| exact IH].
  cbn [list_to_set].
  destruct (String.eqb_spec h originHost) as [-> | Hne]; cbn [negb].
  - replace (({[originHost]} ∪ list_to_set (omap item_host its)) ∖ {[originHost]})
      with ((list_to_set (omap item_host its) : gset string) ∖ {[originHost]})
      by set_solver.
    exact IH.
  - replace (({[h]} ∪ list_to_set (omap item_host its)) ∖ {[originHost]})
      with ({[h]} ∪ ((list_to_set (omap item_host its) : gset string) ∖ {[originHost]}))
      by set_solver.
    pose proof (size_insert_le h (list_to_set (omap item_host its) ∖ {[originHost]})).
    cbn [length]. lia.
Qed.

(** X19.  The host loop never counts more than there are items whose url
    parses to a host other than the target's: items without a url that
    parses, and items on the target's own host, add nothing; the count is
    never negative and never above the number of items. *)
Theorem X19_external_hosts_bounds (originHost : string) (its : list value) :
  let n := snd (fold_left (count_host originHost) its (∅, 0)) in
  0 <= n /\
  n <= Z.of_nat (length (List.filter (on_other_host originHost) its)) /\
  n <= Z.of_nat (length its).
Proof.
  intros n. unfold n. rewrite count_hosts_distinct.
  destruct (distinct_external_hosts_le originHost its) as [H0 H1].
  split; [exact H0 |]. split; [exact H1 |].
  pose proof (List.filter_length_le (on_other_host originHost) its). lia.
Qed.

(** X20.  The count depends on the set of hosts only, not on the order of
    the items nor on how often a host occurs: two lists of items with the
    same hosts other than the target's give the same count. *)
Theorem X20_external_hosts_of_set (originHost : string) (its its' : list value) :
  (forall h, h <> originHost ->
     (In h (omap item_host its) <-> In h (omap item_host its'))) ->
  snd (fold_left (count_host originHost) its (∅, 0)) =
    snd (fold_left (count_host originHost) its' (∅, 0)).
Proof.
  intros Hsame. rewrite !count_hosts_distinct. unfold distinct_external_hosts.
  f_equal. f_equal. apply set_eq. intros h.
  rewrite !elem_of_difference, !elem_of_list_to_set, !list_elem_of_In, !not_elem_of_singleton.
  split; intros [Hin Hne]; (split; [apply (Hsame h Hne); exact Hin | exact Hne]).
Qed.

Lemma core_metrics_empty data :
  nullish data = false ->
  ToBoolean (data ?. "lighthouseResult") = false ->
  core_metrics data =
    Ok {| audits := Obj []; core_score := Num (of_Z 0); core_lcp := Null;
          core_cls := Null; core_inp := Null; reqs := Null;
          core_pageSizeMB := Null; core_loadTimeS := Null |}.
Proof.
  intros Hn Hlr. unfold core_metrics.
  rewrite (Get_nonnullish _ _ Hn). cbn [bind]. unfold or_else. rewrite Hlr.
  reflexivity.
Qed.

(** X21.  A payload without a [lighthouseResult] (any answer that is not
    [null] and whose [lighthouseResult] is missing or falsy) is not an
    error: both files return a summary with score 0 and every other metric
    [null]; [src/api/run.js] grades the six rules B, C, C, A, B, A and
    [src/run.js] files the four issues C, C, B, A. *)
Theorem X21_payload_without_result (data url : value) (h : string) :
  nullish data = false ->
  ToBoolean (data ?. "lighthouseResult") = false ->
  new_URL_host url = Ok h ->
  exists sa sr,
    api_transform data url = Ok sa /\ run_transform data url = Ok sr /\
    sa = no_metrics (issues sa) /\ sr = no_metrics (issues sr) /\
    map key_grade (issues sa) =
      [("http_requests", "B"); ("expires_headers", "C"); ("gzip", "C");
       ("dns", "A"); ("cookies", "B"); ("empty_src", "A")] /\
    map key_grade (issues sr) =
      [("expires_headers", "C"); ("gzip", "C"); ("cookies", "B"); ("empty_src", "A")].
Proof.
  intros Hn Hlr Hh.
  assert (Hcount : count_external_hosts (Obj []) url = Ok 0).
  { unfold count_external_hosts. cbn [Get own_property default bind GetOpt coalesce nullish].
    rewrite Hh. reflexivity. }
  unfold api_transform, run_transform.
  rewrite (core_metrics_empty data Hn Hlr). cbn [bind].
  unfold api_grade_issues, run_grade_issues. cbn [audits reqs].
  rewrite Hcount.
  eexists. eexists.
  split; [reflexivity |]. split; [reflexivity |].
  repeat split.
Qed.

(** X22.  An upstream that answers a success status with the JSON value
    [null] makes the handler of either file fail on the first property it
    reads: the answer is 500, after the one upstream call. *)
Theorem X22_null_payload_is_500
    (env : Env) (req : Request) (u : URL) (r : FetchResponse) (data : value) :
  method req = "POST" ->
  ToBoolean (body_url req) = true ->
  psiURL env (body_url req) = Ok u ->
  fetch env u = Ok r ->
  r_ok r = true ->
  r_json r = Ok data ->
  nullish data = true ->
  forall out, out = api_handler env req \/ out = run_handler env req ->
  statusCode (response out) = 500 /\
  sent (response out) =
    sent_json (error_json "Server error" (detail_message TypeError_nullish)) /\
  effects out = [fetched u; console_error TypeError_nullish].
Proof.
  intros Hm Hu Hpsi Hf Hok Hj Hn out Hout.
  assert (Hc : core_metrics data = Throw TypeError_nullish).
  { unfold core_metrics. destruct data; try discriminate Hn; reflexivity. }
  assert (Ha : api_transform data (body_url req) = Throw TypeError_nullish)
    by (unfold api_transform; rewrite Hc; reflexivity).
  assert (Hr : run_transform data (body_url req) = Throw TypeError_nullish)
    by (unfold run_transform; rewrite Hc; reflexivity).
  destruct Hout as [-> | ->].
  - exact (handler_transform_throws api_transform env req u r data TypeError_nullish
             Hm Hu Hpsi Hf Hok Hj Ha).
  - exact (handler_transform_throws run_transform env req u r data TypeError_nullish
             Hm Hu Hpsi Hf Hok Hj Hr).
Qed.

End Properties.

(** ** The claims on concrete inputs *)

(** The host counter on mixed items: three external hosts, so grade B in
    both files. *)
Example mixed_hosts_counted :
  distinct_external_hosts (platform := demo_platform) "example.com" mixed_items = 3 /\
  (exists s, demo_api_transform payload_mixed_hosts demo_url = Ok s /\
             grades_of "dns" (issues s) = ["B"]) /\
  (exists s, demo_run_transform payload_mixed_hosts demo_url = Ok s /\
             grades_of "dns" (issues s) = ["B"]).
Proof.
  split; [vm_compute; reflexivity |].
  split; eexists; (split; [vm_compute; reflexivity | reflexivity]).
Qed.

(** What the [catch] answers: a [null] payload, and a target url that does
    not parse, both after the upstream call. *)
Example null_payload_is_500 :
  let out := demo_api_handler (upstream (audited Null)) (post_request url_body) in
  statusCode (response out) = 500 /\
  sent (response out)
    = sent_json (error_json "Server error" (detail_message TypeError_nullish)) /\
  exists u, effects out = [fetched u; console_error TypeError_nullish].
Proof. split; [reflexivity | split; [reflexivity | eexists; reflexivity]]. Qed.

Example unparsable_target_is_500 :
  let out := demo_run_handler (upstream (audited payload_no_requests))
               (post_request (Obj [("url", Str "example.com")])) in
  statusCode (response out) = 500 /\
  sent (response out)
    = sent_json (error_json "Server error" (detail_message TypeError_url)).
Proof. split; reflexivity. Qed.

(** A cache score of 0.95 is graded A by [src/api/run.js]. *)
Lemma C1_witness :
  exists s, demo_api_transform payload_cache_score demo_url = Ok s /\
            grades_of "expires_headers" (issues s) = ["A"].
Proof.
  destruct (demo_api_transform payload_cache_score demo_url) as [s | e] eqn:E;
    [| vm_compute in E; discriminate E].
  exists s. split; [reflexivity |].
  pose proof (proj1 (C1_expires_headers_ladder (platform := demo_platform)
                       payload_cache_score demo_url) s E) as H.
  destruct H as (x & Hx & Hg). injection Hx as <-. exact Hg.
Defined.

(** The claim says grade A for a cache score of 0.95; [src/run.js] files no
    [expires_headers] issue for it. *)
Lemma C1_counterexample :
  exists s, demo_run_transform payload_cache_score demo_url = Ok s /\
            payload_audit payload_cache_score "uses-long-cache-ttl" ?. "score"
              = Num (lit 95 100) /\
            grades_of "expires_headers" (issues s) = [].
Proof. eexists. split; [vm_compute; reflexivity | split; reflexivity]. Qed.

(** Without a [network-requests] audit [src/api/run.js] answers
    [requests = null] and a [dns] issue of grade A. *)
Lemma C2_witness :
  exists s, demo_api_transform payload_no_requests demo_url = Ok s /\
            requests s = Null /\ grades_of "dns" (issues s) = ["A"].
Proof.
  destruct (demo_api_transform payload_no_requests demo_url) as [s | e] eqn:E;
    [| vm_compute in E; discriminate E].
  exists s. split; [reflexivity |].
  pose proof (proj1 (C2_dns_grade (platform := demo_platform)
                       payload_no_requests demo_url) s E) as H.
  destruct H as (h & its & _ & _ & _ & Habs). exact (Habs eq_refl).
Defined.

(** The claim says grade A without a [network-requests] audit; [src/run.js]
    files no [dns] issue then. *)
Lemma C2_counterexample :
  exists s, demo_run_transform payload_no_requests demo_url = Ok s /\
            requests s = Null /\ grades_of "dns" (issues s) = [].
Proof. eexists. split; [vm_compute; reflexivity | split; reflexivity]. Qed.

Lemma same_host_items_host :
  Forall (fun it => item_host (platform := demo_platform) it = Some "example.com")
    same_host_items.
Proof. apply Forall_replicate. reflexivity. Defined.

(** 45 items on the target's host: [requests] is 45, [http_requests] is
    graded C, and [src/api/run.js] files a [dns] issue of grade A. *)
Lemma C3_witness :
  exists s, demo_api_transform payload_45_requests demo_url = Ok s /\
            requests s = Num (of_Z 45) /\
            grades_of "http_requests" (issues s) = ["C"] /\
            grades_of "dns" (issues s) = ["A"].
Proof.
  destruct (demo_api_transform payload_45_requests demo_url) as [s | e] eqn:E;
    [| vm_compute in E; discriminate E].
  exists s. split; [reflexivity |].
  pose proof (proj1 (C3_http_requests_grade (platform := demo_platform)
                       payload_45_requests demo_url same_host_items
                       eq_refl) s E) as H.
  destruct H as (Hr & Hg & Hd).
  split; [exact Hr | split; [exact Hg |]].
  exact (Hd "example.com" eq_refl same_host_items_host).
Defined.

(** The claim says a [dns] issue of grade A for 45 items on the target's
    host; [src/run.js] files no [dns] issue for them. *)
Lemma C3_counterexample :
  exists s, demo_run_transform payload_45_requests demo_url = Ok s /\
            requests s = Num (of_Z 45) /\
            grades_of "http_requests" (issues s) = ["C"] /\
            grades_of "dns" (issues s) = [].
Proof.
  eexists. split; [vm_compute; reflexivity | split; [| split]]; reflexivity.
Qed.

(** An upstream 403 is answered with 403 and the upstream's text. *)
Lemma C4_witness :
  let out := demo_api_handler (upstream forbidden) (post_request url_body) in
  r_ok forbidden = false /\
  statusCode (response out) = 403 /\
  sent (response out) = sent_json (error_json "PSI error" (detail_text "quota exceeded")).
Proof.
  split; [reflexivity |].
  destruct (C4_upstream_error_forwarded (platform := demo_platform) demo_api_transform
              (upstream forbidden) (post_request url_body)
              {| href := "https://www.googleapis.com/pagespeedonline/v5/runPagespeed";
                 searchParams := [("url", "https://example.com/"); ("key", "k");
                                  ("strategy", "mobile")] |}
              forbidden "quota exceeded"
              eq_refl eq_refl eq_refl eq_refl eq_refl eq_refl) as (Hs & Hb & _).
  split; [exact Hs | exact Hb].
Defined.

(** A performance score of 0.85 gives the score 85. *)
Lemma C5_witness :
  exists s, demo_api_transform payload_performance demo_url = Ok s /\
            score s = Num (of_Z 85).
Proof.
  destruct (demo_api_transform payload_performance demo_url) as [s | e] eqn:E;
    [| vm_compute in E; discriminate E].
  exists s. split; [reflexivity |].
  pose proof (C5_score_rounded (platform := demo_platform)
                payload_performance demo_url s (or_introl E)) as H.
  destruct H as (x & Hx & Hs & _). injection Hx as <-. exact Hs.
Defined.

(** A [numericValue] of 2500 gives an [lcp] of 2.5. *)
Lemma C6_witness :
  exists s, demo_api_transform (payload_lcp 2500) demo_url = Ok s /\
            lcp s = Num (lit 5 2).
Proof.
  destruct (demo_api_transform (payload_lcp 2500) demo_url) as [s | e] eqn:E;
    [| vm_compute in E; discriminate E].
  exists s. split; [reflexivity |].
  pose proof (C6_lcp_seconds (platform := demo_platform)
                (payload_lcp 2500) demo_url s (or_introl E)) as H.
  destruct H as (x & Hx & Hs). injection Hx as <-. exact Hs.
Defined.

(** The claim says [lcp] is [numericValue / 1000] whenever the value is
    present; a [numericValue] of 0 is present and gives [null]. *)
Lemma C6_counterexample :
  exists s, demo_api_transform (payload_lcp 0) demo_url = Ok s /\
            payload_audit (payload_lcp 0) "largest-contentful-paint" ?. "numericValue"
              = Num (of_Z 0) /\
            lcp s = Null /\
            lcp s <> Num (div (of_Z 0) (of_Z 1000)).
Proof.
  eexists. split; [vm_compute; reflexivity | split; [reflexivity | split]].
  - reflexivity.
  - discriminate.
Qed.

(** A GET is answered with 405, a POST without url with 400. *)
Lemma C7_witness :
  let get := {| method := "GET"; origin := None; body := Undefined |} in
  statusCode (response (demo_api_handler (upstream forbidden) get)) = 405 /\
  statusCode (response (demo_api_handler (upstream forbidden) (post_request (Obj [])))) = 400.
Proof.
  split.
  - pose proof (C7_method_and_body_validation (platform := demo_platform) demo_api_transform
                  (upstream forbidden)
                  {| method := "GET"; origin := None; body := Undefined |}) as [H _].
    apply H; discriminate.
  - pose proof (C7_method_and_body_validation (platform := demo_platform) demo_api_transform
                  (upstream forbidden) (post_request (Obj []))) as [_ H].
    apply H; reflexivity.
Defined.

(** An OPTIONS request is answered with an empty 200. *)
Lemma C8_witness :
  let options := {| method := "OPTIONS"; origin := None; body := url_body |} in
  let out := demo_run_handler (upstream forbidden) options in
  statusCode (response out) = 200 /\ sent (response out) = ended /\ effects out = [].
Proof.
  exact (C8_options_short_circuit (platform := demo_platform) demo_run_transform
           (upstream forbidden)
           {| method := "OPTIONS"; origin := None; body := url_body |} eq_refl).
Defined.

(** On the empty payload the two files answer different issue lists. *)
Lemma C9_witness :
  exists data url sa sr,
    demo_api_transform data url = Ok sa /\ demo_run_transform data url = Ok sr /\
    issues sa <> issues sr.
Proof.
  apply (C9_variants_inconsistent (platform := demo_platform)).
  exists "https://example.com/", "example.com". reflexivity.
Defined.

(** A payload without [network-requests] audit: six issues, and
    [http_requests] graded B. *)
Lemma C10_witness :
  exists s,
    sent (response (demo_api_handler (upstream (audited payload_no_requests))
                      (post_request url_body)))
      = sent_json (summary_json s) /\
    requests s = Null /\
    length (issues s) = 6%nat /\
    grades_of "http_requests" (issues s) = ["B"].
Proof.
  destruct (demo_api_transform payload_no_requests demo_url) as [s | e] eqn:E;
    [| vm_compute in E; discriminate E].
  assert (Hsent : sent (response (demo_api_handler (upstream (audited payload_no_requests))
                                    (post_request url_body)))
                  = sent_json (summary_json s)).
  { unfold demo_api_handler, api_handler, handler, try_block.
    cbn -[api_transform]. change (Obj [("url", demo_url)] ?. "url") with demo_url.
    unfold demo_api_transform in E. rewrite E. reflexivity. }
  exists s. split; [exact Hsent |].
  pose proof (C10_api_six_issues (platform := demo_platform)
                (upstream (audited payload_no_requests)) (post_request url_body) s Hsent)
    as (_ & K & _ & _ & Hb).
  assert (Hr : requests s = Null).
  { vm_compute in E. injection E as <-. reflexivity. }
  split; [exact Hr | split; [| exact (Hb Hr)]].
  rewrite <- (length_map key), K. reflexivity.
Defined.

(** ** Further properties on concrete inputs *)

(** A request from the site gets its origin back, with [Vary: Origin]. *)
Lemma X1_witness :
  let res := response (demo_api_handler (upstream forbidden) (post_request url_body)) in
  getHeader "Access-Control-Allow-Origin" res = Some "https://pinedesignmarketing.com" /\
  getHeader "Vary" res = Some "Origin".
Proof.
  destruct (X1_cors_headers (platform := demo_platform) demo_api_transform
              (upstream forbidden) (post_request url_body)) as (_ & _ & H & _).
  apply (H "https://pinedesignmarketing.com" eq_refl). left. reflexivity.
Defined.

(** The one upstream call of a request that reaches the upstream. *)
Lemma X4_witness :
  let out := demo_api_handler (upstream forbidden) (post_request url_body) in
  exists rest, effects out = fetched (psi_request "https://example.com/") :: rest /\
               forall u', ~ In (fetched u') rest.
Proof.
  destruct (X4_at_most_one_upstream_call (platform := demo_platform) demo_api_transform
              (upstream forbidden) (post_request url_body)
              (psi_request "https://example.com/") (or_introl eq_refl))
    as (_ & _ & _ & H).
  exact H.
Defined.

(** An upstream that cannot be reached is a 500. *)
Lemma X6_witness :
  let out := demo_api_handler unreachable (post_request url_body) in
  statusCode (response out) = 500 /\
  sent (response out)
    = sent_json (error_json "Server error" (detail_message (Rejected "fetch failed"))) /\
  effects out = [fetched (psi_request "https://example.com/");
                 console_error (Rejected "fetch failed")].
Proof.
  exact (X6_upstream_failure_is_500 (platform := demo_platform) demo_api_transform
           unreachable (post_request url_body) (psi_request "https://example.com/")
           (Rejected "fetch failed") eq_refl eq_refl eq_refl (or_introl eq_refl)).
Defined.

(** An upstream 200 with a payload is answered with 200 and the summary. *)
Lemma X7_witness :
  exists s,
    let out := demo_run_handler (upstream (audited payload_no_requests))
                 (post_request url_body) in
    statusCode (response out) = 200 /\
    sent (response out) = sent_json (summary_json s) /\
    effects out = [fetched (psi_request "https://example.com/")].
Proof.
  destruct (demo_run_transform payload_no_requests demo_url) as [s | e] eqn:E;
    [| vm_compute in E; discriminate E].
  exists s.
  refine (X7_success_is_200_summary (platform := demo_platform) demo_run_transform
            (upstream (audited payload_no_requests)) (post_request url_body)
            (psi_request "https://example.com/") (audited payload_no_requests)
            payload_no_requests s eq_refl eq_refl eq_refl eq_refl _ eq_refl E).
  cbn. lia.
Defined.

(** A body with another field besides [url] is answered as one without. *)
Lemma X8_witness :
  demo_api_handler (upstream forbidden) (post_request padded_url_body) =
  demo_api_handler (upstream forbidden) (post_request url_body).
Proof.
  exact (X8_only_url_is_read (platform := demo_platform) demo_api_transform
           (upstream forbidden) (post_request url_body) (post_request padded_url_body)
           eq_refl eq_refl eq_refl).
Defined.

(** Without a key in the environment the answer is the same. *)
Lemma X10_witness :
  let out := demo_api_handler (upstream forbidden) (post_request url_body) in
  let out' := demo_api_handler (with_key None (upstream forbidden)) (post_request url_body) in
  statusCode (response out') = statusCode (response out) /\
  sent (response out') = sent (response out).
Proof.
  apply (X10_key_only_goes_upstream (platform := demo_platform) demo_api_transform
           (upstream forbidden) (post_request url_body) None).
  intros u u' _ _. reflexivity.
Defined.

(** A layout shift of 0 is kept, and the first input delay stands in for
    the missing interaction-to-next-paint. *)
Lemma X11_witness :
  exists s, demo_api_transform payload_metrics demo_url = Ok s /\
            cls s = Num (of_Z 0) /\ inp s = Num (of_Z 120).
Proof.
  destruct (demo_api_transform payload_metrics demo_url) as [s | e] eqn:E;
    [| vm_compute in E; discriminate E].
  exists s. split; [reflexivity |].
  exact (X11_cls_and_inp_pass_through (platform := demo_platform)
           payload_metrics demo_url s (or_introl E)).
Defined.

(** 2097152 bytes are 2 MiB. *)
Lemma X12_witness :
  exists s, demo_api_transform payload_metrics demo_url = Ok s /\
            pageSizeMB s = Num (of_Z 2).
Proof.
  destruct (demo_api_transform payload_metrics demo_url) as [s | e] eqn:E;
    [| vm_compute in E; discriminate E].
  exists s. split; [reflexivity |].
  pose proof (X12_pageSizeMB (platform := demo_platform)
                payload_metrics demo_url s (or_introl E)) as H.
  destruct H as (x & Hx & Hs). injection Hx as <-. exact Hs.
Defined.

(** Without a speed index the load time is the interactive time. *)
Lemma X13_witness :
  exists s, demo_run_transform payload_metrics demo_url = Ok s /\
            loadTimeS s = Num (of_Z 3).
Proof.
  destruct (demo_run_transform payload_metrics demo_url) as [s | e] eqn:E;
    [| vm_compute in E; discriminate E].
  exists s. split; [reflexivity |].
  pose proof (X13_loadTimeS_fallback (platform := demo_platform)
                payload_metrics demo_url s (or_intror E)) as H.
  destruct H as (x & Hx & Hs). injection Hx as <-. exact Hs.
Defined.

(** A compression score of 0.5 is graded C by [src/run.js]. *)
Lemma X14_witness :
  exists s, demo_run_transform payload_metrics demo_url = Ok s /\
            grades_of "gzip" (issues s) = ["C"].
Proof.
  destruct (demo_run_transform payload_metrics demo_url) as [s | e] eqn:E;
    [| vm_compute in E; discriminate E].
  exists s. split; [reflexivity |].
  pose proof (proj2 (X14_gzip_ladder (platform := demo_platform)
                       payload_metrics demo_url) s E) as H.
  destruct H as (x & Hx & Hg). injection Hx as <-. exact Hg.
Defined.

(** The issues filed for the payload with mixed hosts are of the catalog. *)
Lemma X15_witness :
  exists s, demo_api_transform payload_mixed_hosts demo_url = Ok s /\
            Forall catalogued (issues s).
Proof.
  destruct (demo_api_transform payload_mixed_hosts demo_url) as [s | e] eqn:E;
    [| vm_compute in E; discriminate E].
  exists s. split; [reflexivity |].
  exact (X15_issues_are_catalogued (platform := demo_platform)
           payload_mixed_hosts demo_url s (or_introl E)).
Defined.

(** The issue list [src/run.js] files for the payload with mixed hosts. *)
Lemma X16_witness :
  exists s, demo_run_transform payload_mixed_hosts demo_url = Ok s /\
            sublist (map key (issues s)) issue_keys /\
            (2 <= length (issues s) <= 6)%nat.
Proof.
  destruct (demo_run_transform payload_mixed_hosts demo_url) as [s | e] eqn:E;
    [| vm_compute in E; discriminate E].
  exists s. split; [reflexivity |].
  destruct (X16_run_issue_list (platform := demo_platform)
              payload_mixed_hosts demo_url s E) as (Hsub & _ & _ & Hlen).
  split; [exact Hsub | exact Hlen].
Defined.

(** On the payload with the metrics both files return the same page size,
    and the issues of [src/run.js] are among those of [src/api/run.js]. *)
Lemma X17_witness :
  exists sa sr,
    demo_api_transform payload_metrics demo_url = Ok sa /\
    demo_run_transform payload_metrics demo_url = Ok sr /\
    pageSizeMB sa = pageSizeMB sr /\
    sublist (map key_grade (issues sr)) (map key_grade (issues sa)).
Proof.
  destruct (demo_api_transform payload_metrics demo_url) as [sa | e] eqn:Ea;
    [| vm_compute in Ea; discriminate Ea].
  destruct (demo_run_transform payload_metrics demo_url) as [sr | e] eqn:Er;
    [| vm_compute in Er; discriminate Er].
  exists sa, sr. split; [reflexivity |]. split; [reflexivity |].
  destruct (proj2 (X17_variants_agree (platform := demo_platform)
                     payload_metrics demo_url) sa sr Ea Er)
    as (_ & _ & _ & _ & _ & Hp & _ & Hsub).
  split; [exact Hp | exact Hsub].
Defined.

(** A url that is no absolute URL goes upstream and is then answered with
    500; so is a payload whose items are a number. *)
Lemma X18_witness :
  let out := demo_run_handler (upstream (audited payload_no_requests))
               (post_request relative_url_body) in
  let out' := demo_api_handler (upstream (audited payload_bad_items))
                (post_request url_body) in
  effects out = [fetched (psi_request "example.com"); console_error TypeError_url] /\
  effects out' = [fetched (psi_request "https://example.com/");
                  console_error TypeError_iterable].
Proof.
  split.
  - destruct (X18_target_url_checked_after_upstream (platform := demo_platform)
                (upstream (audited payload_no_requests)) (post_request relative_url_body)
                (psi_request "example.com") (audited payload_no_requests)
                payload_no_requests TypeError_url
                eq_refl eq_refl eq_refl eq_refl eq_refl eq_refl eq_refl eq_refl
                (or_introl eq_refl)
                (demo_run_handler (upstream (audited payload_no_requests))
                   (post_request relative_url_body))
                (or_intror eq_refl)) as (_ & _ & H).
    exact H.
  - destruct (X18_target_url_checked_after_upstream (platform := demo_platform)
                (upstream (audited payload_bad_items)) (post_request url_body)
                (psi_request "https://example.com/") (audited payload_bad_items)
                payload_bad_items TypeError_iterable
                eq_refl eq_refl eq_refl eq_refl eq_refl eq_refl eq_refl eq_refl
                (or_intror (ex_intro _ "example.com" (conj eq_refl eq_refl)))
                (demo_api_handler (upstream (audited payload_bad_items))
                   (post_request url_body))
                (or_introl eq_refl)) as (_ & _ & H).
    exact H.
Defined.

(** The items in reverse order give the same count. *)
Lemma X20_witness :
  snd (fold_left (count_host (platform := demo_platform) "example.com")
         mixed_items (∅, 0)) =
  snd (fold_left (count_host (platform := demo_platform) "example.com")
         (rev mixed_items) (∅, 0)).
Proof.
  apply (X20_external_hosts_of_set (platform := demo_platform)
           "example.com" mixed_items (rev mixed_items)).
  intros h _.
  change (In h ["cdn.example.net"; "fonts.example.org"; "cdn.example.net";
                "example.com"; "ads.example.biz"] <->
          In h ["ads.example.biz"; "example.com"; "cdn.example.net";
                "fonts.example.org"; "cdn.example.net"]).
  cbn [In]. tauto.
Defined.

(** The empty object as payload. *)
Lemma X21_witness :
  exists sa sr,
    demo_api_transform (Obj []) demo_url = Ok sa /\
    demo_run_transform (Obj []) demo_url = Ok sr /\
    sa = no_metrics (issues sa) /\ sr = no_metrics (issues sr) /\
    map key_grade (issues sa) =
      [("http_requests", "B"); ("expires_headers", "C"); ("gzip", "C");
       ("dns", "A"); ("cookies", "B"); ("empty_src", "A")] /\
    map key_grade (issues sr) =
      [("expires_headers", "C"); ("gzip", "C"); ("cookies", "B"); ("empty_src", "A")].
Proof.
  exact (X21_payload_without_result (platform := demo_platform)
           (Obj []) demo_url "example.com" eq_refl eq_refl eq_refl).
Defined.

(** The payload [null]. *)
Lemma X22_witness :
  let out := demo_api_handler (upstream (audited Null)) (post_request url_body) in
  statusCode (response out) = 500 /\
  sent (response out)
    = sent_json (error_json "Server error" (detail_message TypeError_nullish)) /\
  effects out = [fetched (psi_request "https://example.com/");
                 console_error TypeError_nullish].
Proof.
  exact (X22_null_payload_is_500 (platform := demo_platform)
           (upstream (audited Null)) (post_request url_body)
           (psi_request "https://example.com/") (audited Null) Null
           eq_refl eq_refl eq_refl eq_refl eq_refl eq_refl eq_refl
           (demo_api_handler (upstream (audited Null)) (post_request url_body))
           (or_introl eq_refl)).
Defined.
